(** * Idempotent request deduplication: the Go service, embedded in Rocq

    A shallow embedding of the idempotency protocol of the transaction API:
    the SHA-256 body fingerprint ([hash_util]), the Redis helpers
    ([redis_util]), the request metadata carried by the context
    ([metacontext]), the entities and repositories, the two services that
    record a request ([service]) and the gin middleware that looks a request
    up before the handler runs ([idempotency]).

    Go values are modelled as the code has them: strings as [string], byte
    slices as [list byte], [int] and [time.Duration] as [Z] with the 64-bit
    wrap-around written out, [time.Time] as nanoseconds on the Unix scale,
    a [(T, error)] result as [result T], tables and the Redis keyspace as
    finite maps. *)

From Stdlib Require Import ZArith String Ascii List Lia Bool.
From Stdlib.Strings Require Import Byte.
From stdpp Require Import base option gmap strings.
Import ListNotations.

Local Open Scope Z_scope.
Local Open Scope string_scope.

(** ** Errors and results *)

(** The error values the code tells apart with [==], [errors.Is] and
    [errors.As]; [Wrapf] is [fmt.Errorf] with a [%w] verb. *)
Inductive error : Type :=
| ErrRecordNotFound
| ErrInvalidData
| RedisNil
| ValidationErrors (fields : list string)
| Errorf (msg : string)
| Wrapf (msg : string) (cause : error).

Inductive result (A : Type) : Type :=
| Ok (a : A)
| Err (e : error).
Arguments Ok {A} a.
Arguments Err {A} e.

Definition is_Ok {A} (r : result A) : bool :=
  match r with Ok _ => true | Err _ => false end.

Definition error_eqb_head (e target : error) : bool :=
  match e, target with
  | ErrRecordNotFound, ErrRecordNotFound => true
  | ErrInvalidData, ErrInvalidData => true
  | RedisNil, RedisNil => true
  | _, _ => false
  end.

(** [errors.Is] for the sentinel errors: walks the [%w] chain. *)
Fixpoint errors_Is (e target : error) : bool :=
  error_eqb_head e target ||
  match e with
  | Wrapf _ cause => errors_Is cause target
  | _ => false
  end.

(** [errors.As(err, &validator.ValidationErrors{})]. *)
Fixpoint errors_As_ValidationErrors (e : error) : bool :=
  match e with
  | ValidationErrors _ => true
  | Wrapf _ cause => errors_As_ValidationErrors cause
  | _ => false
  end.

(** ** pkg/util/hash-util *)

Module hash_util.

(** *** crypto/sha256 on 32-bit words held in [Z] *)

Definition w32 (x : Z) : Z := x mod 2 ^ 32.
Definition add32 (x y : Z) : Z := w32 (x + y).
Definition not32 (x : Z) : Z := Z.lxor x 4294967295.
Definition rotr (n x : Z) : Z :=
  Z.lor (Z.shiftr x n) (w32 (Z.shiftl x (32 - n))).

Definition Ch (x y z : Z) : Z := Z.lxor (Z.land x y) (Z.land (not32 x) z).
Definition Maj (x y z : Z) : Z :=
  Z.lxor (Z.lxor (Z.land x y) (Z.land x z)) (Z.land y z).
Definition bsig0 (x : Z) : Z := Z.lxor (Z.lxor (rotr 2 x) (rotr 13 x)) (rotr 22 x).
Definition bsig1 (x : Z) : Z := Z.lxor (Z.lxor (rotr 6 x) (rotr 11 x)) (rotr 25 x).
Definition ssig0 (x : Z) : Z := Z.lxor (Z.lxor (rotr 7 x) (rotr 18 x)) (Z.shiftr x 3).
Definition ssig1 (x : Z) : Z := Z.lxor (Z.lxor (rotr 17 x) (rotr 19 x)) (Z.shiftr x 10).

(** The round constants and the initial chaining words are the first 32
    bits of the fractional parts of the cube roots of the first 64 primes and
    of the square roots of the first 8: computed here, bit by bit. *)
Definition is_prime (n : Z) : bool :=
  Z.ltb 1 n
  && List.forallb (fun d => negb (Z.eqb (n mod Z.of_nat d) 0))
       (List.seq 2 (Z.to_nat n - 2)).

Definition primes (count : nat) : list Z :=
  List.firstn count (List.filter is_prime (List.map Z.of_nat (List.seq 2 310))).

(** The greatest [r] below [2 ^ bits] with [r ^ k <= n] (added to [r]). *)
Fixpoint root_bits (k : Z) (bits : nat) (n r : Z) : Z :=
  match bits with
  | O => r
  | S b =>
      let c := r + 2 ^ Z.of_nat b in
      if Z.leb (c ^ k) n then root_bits k b n c else root_bits k b n r
  end.

Definition frac_root (k p : Z) : Z :=
  w32 (root_bits k 40 (p * 2 ^ (32 * k)) 0).

Definition K256 : list Z :=
  Eval vm_compute in List.map (frac_root 3) (primes 64).

Definition H256 : list Z :=
  Eval vm_compute in List.map (frac_root 2) (primes 8).

(** The eight chaining words. *)
Record digest : Type := Digest {
  h0 : Z; h1 : Z; h2 : Z; h3 : Z; h4 : Z; h5 : Z; h6 : Z; h7 : Z
}.

Definition init : digest :=
  Digest (nth 0 H256 0) (nth 1 H256 0) (nth 2 H256 0) (nth 3 H256 0)
         (nth 4 H256 0) (nth 5 H256 0) (nth 6 H256 0) (nth 7 H256 0).

Definition byte_to_Z (b : byte) : Z := Z.of_N (Byte.to_N b).
Definition byte_of_Z (z : Z) : byte :=
  match Byte.of_N (Z.to_N (z mod 256)) with
  | Some b => b
  | None => x00
  end.

(** Big-endian words of a block. *)
Fixpoint be_words (bs : list byte) : list Z :=
  match bs with
  | a :: b :: c :: d :: rest =>
      (byte_to_Z a * 16777216 + byte_to_Z b * 65536
       + byte_to_Z c * 256 + byte_to_Z d) :: be_words rest
  | _ => []
  end.

Definition be_bytes32 (w : Z) : list byte :=
  [ byte_of_Z (Z.shiftr w 24); byte_of_Z (Z.shiftr w 16);
    byte_of_Z (Z.shiftr w 8); byte_of_Z w ].

Definition be_bytes64 (w : Z) : list byte :=
  be_bytes32 (Z.shiftr w 32) ++ be_bytes32 w.

(** Padding: 0x80, zeros up to 56 mod 64, then the bit length. *)
Definition pad (msg : list byte) : list byte :=
  let len := Z.of_nat (List.length msg) in
  let zeros := Z.to_nat ((55 - len) mod 64) in
  msg ++ [x80] ++ List.repeat x00 zeros ++ be_bytes64 (len * 8).

(** The message schedule, newest word first: [rev_w] holds W[t-1], W[t-2], ... *)
Fixpoint schedule (n : nat) (rev_w : list Z) : list Z :=
  match n with
  | O => rev_w
  | S n' =>
      let w := add32 (add32 (ssig1 (nth 1 rev_w 0)) (nth 6 rev_w 0))
                     (add32 (ssig0 (nth 14 rev_w 0)) (nth 15 rev_w 0)) in
      schedule n' (w :: rev_w)
  end.

Definition round (st : digest) (kw : Z * Z) : digest :=
  let '(k, w) := kw in
  let t1 := add32 (add32 (add32 (h7 st) (bsig1 (h4 st)))
                         (add32 (Ch (h4 st) (h5 st) (h6 st)) k)) w in
  let t2 := add32 (bsig0 (h0 st)) (Maj (h0 st) (h1 st) (h2 st)) in
  Digest (add32 t1 t2) (h0 st) (h1 st) (h2 st)
         (add32 (h3 st) t1) (h4 st) (h5 st) (h6 st).

Definition block (st : digest) (blk : list byte) : digest :=
  let w := List.rev (schedule 48 (List.rev (be_words blk))) in
  let r := List.fold_left round (List.combine K256 w) st in
  Digest (add32 (h0 st) (h0 r)) (add32 (h1 st) (h1 r))
         (add32 (h2 st) (h2 r)) (add32 (h3 st) (h3 r))
         (add32 (h4 st) (h4 r)) (add32 (h5 st) (h5 r))
         (add32 (h6 st) (h6 r)) (add32 (h7 st) (h7 r)).

(** One block per 64 bytes; [n] bounds the number of blocks. *)
Fixpoint blocks (n : nat) (st : digest) (bs : list byte) : digest :=
  match n, bs with
  | S n', _ :: _ => blocks n' (block st (List.firstn 64 bs)) (List.skipn 64 bs)
  | _, _ => st
  end.

(** [sha256.Sum256]: the 32 bytes of the digest. *)
Definition Sum256 (b : list byte) : list byte :=
  let p := pad b in
  let st := blocks (List.length p) init p in
  be_bytes32 (h0 st) ++ be_bytes32 (h1 st) ++ be_bytes32 (h2 st)
  ++ be_bytes32 (h3 st) ++ be_bytes32 (h4 st) ++ be_bytes32 (h5 st)
  ++ be_bytes32 (h6 st) ++ be_bytes32 (h7 st).

(** *** encoding/hex *)

Definition hextable : string := "0123456789abcdef".

Definition hex_digit (n : Z) : ascii :=
  match String.get (Z.to_nat n) hextable with
  | Some c => c
  | None => "0"%char
  end.

Fixpoint EncodeToString (src : list byte) : string :=
  match src with
  | [] => EmptyString
  | v :: rest =>
      String (hex_digit (Z.shiftr (byte_to_Z v) 4))
        (String (hex_digit (Z.land (byte_to_Z v) 15)) (EncodeToString rest))
  end.

(** *** sha256.go *)

(** [Hash256Bytes]: rejects the empty slice, otherwise the hex form of
    the SHA-256 digest. *)
Definition Hash256Bytes (b : list byte) : result string :=
  if (List.length b =? 0)%nat
  then Err (Errorf "input byte slice cannot be empty")
  else Ok (EncodeToString (Sum256 b)).

Definition Hash256String (s : string) : result string :=
  if String.eqb s ""
  then Err (Errorf "input string cannot be empty")
  else Ok (EncodeToString (Sum256 (list_byte_of_string s))).

Definition is_hex_digit (c : ascii) : bool :=
  existsb (Ascii.eqb c) (list_ascii_of_string hextable).

End hash_util.

(** ** encoding/json: what [json.Unmarshal] into [any] accepts

    [Enforce] branches on whether the stored response payload unmarshals,
    so what makes [json.Unmarshal] return an error is written out: the
    grammar of RFC 8259 and the nesting limit that its scanner checks, and
    the range of [float64] that the decoder checks on every number. A
    value decoded into [any] is kept as a tree; numbers keep their literal
    and strings their escaped form. *)

Module json.

Local Set Warnings "-register-all".

Inductive value : Type :=
| Null
| Bool (b : bool)
| Number (lit : string)
| Str (raw : string)
| Array (elems : list value)
| Object (members : list (string * value)).

Definition dquote : ascii := "034"%char.

(** A string literal: the text between double quotes. *)
Definition quoted (s : string) : string :=
  String dquote (s ++ String dquote EmptyString).

Definition is_ws (c : ascii) : bool :=
  (Ascii.eqb c " " || Ascii.eqb c "009" || Ascii.eqb c "010" || Ascii.eqb c "013")%char.

Fixpoint skip_ws (s : list ascii) : list ascii :=
  match s with
  | c :: r => if is_ws c then skip_ws r else s
  | [] => []
  end.

Definition is_digit (c : ascii) : bool :=
  let n := nat_of_ascii c in (48 <=? n)%nat && (n <=? 57)%nat.

Definition is_hex (c : ascii) : bool :=
  let n := nat_of_ascii c in
  is_digit c || ((65 <=? n)%nat && (n <=? 70)%nat) || ((97 <=? n)%nat && (n <=? 102)%nat).

Definition is_escape (c : ascii) : bool :=
  existsb (Ascii.eqb c) (list_ascii_of_string "\/bfnrt") || Ascii.eqb c dquote.

(** The body of a string literal, after its opening quote. *)
Fixpoint scan_string (s : list ascii) (acc : list ascii)
  : option (string * list ascii) :=
  match s with
  | [] => None
  | c :: r =>
      if Ascii.eqb c dquote then Some (string_of_list_ascii (List.rev acc), r)
      else if (nat_of_ascii c <? 32)%nat then None
      else if Ascii.eqb c "\"%char then
        match r with
        | "u"%char :: a :: b :: d :: e :: r' =>
            if is_hex a && is_hex b && is_hex d && is_hex e
            then scan_string r' (e :: d :: b :: a :: "u"%char :: c :: acc)
            else None
        | x :: r' => if is_escape x then scan_string r' (x :: c :: acc) else None
        | [] => None
        end
      else scan_string r (c :: acc)
  end.

Fixpoint scan_digits (s : list ascii) (acc : list ascii) : list ascii * list ascii :=
  match s with
  | c :: r => if is_digit c then scan_digits r (c :: acc) else (acc, s)
  | [] => (acc, [])
  end.

(** At least one digit. *)
Definition scan_digits1 (s : list ascii) (acc : list ascii)
  : option (list ascii * list ascii) :=
  match s with
  | c :: _ => if is_digit c then Some (scan_digits s acc) else None
  | [] => None
  end.

Definition scan_int (s : list ascii) (acc : list ascii)
  : option (list ascii * list ascii) :=
  match s with
  | c :: r =>
      if Ascii.eqb c "0"%char then Some (c :: acc, r)
      else scan_digits1 s acc
  | [] => None
  end.

Definition scan_frac (s : list ascii) (acc : list ascii)
  : option (list ascii * list ascii) :=
  match s with
  | "."%char :: r => scan_digits1 r ("."%char :: acc)
  | _ => Some (acc, s)
  end.

Definition scan_exp (s : list ascii) (acc : list ascii)
  : option (list ascii * list ascii) :=
  match s with
  | c :: r =>
      if Ascii.eqb c "e"%char || Ascii.eqb c "E"%char then
        match r with
        | sg :: r' =>
            if Ascii.eqb sg "+"%char || Ascii.eqb sg "-"%char
            then scan_digits1 r' (sg :: c :: acc)
            else scan_digits1 r (c :: acc)
        | [] => None
        end
      else Some (acc, s)
  | [] => Some (acc, s)
  end.

Definition scan_number (s : list ascii) : option (string * list ascii) :=
  let '(acc0, s0) :=
    match s with
    | "-"%char :: r => (["-"%char], r)
    | _ => ([], s)
    end in
  match scan_int s0 acc0 with
  | None => None
  | Some (acc1, s1) =>
      match scan_frac s1 acc1 with
      | None => None
      | Some (acc2, s2) =>
          match scan_exp s2 acc2 with
          | None => None
          | Some (acc3, s3) => Some (string_of_list_ascii (List.rev acc3), s3)
          end
      end
  end.

(** The value of a run of decimal digits. *)
Fixpoint digits_value (s : list ascii) (acc : Z) : Z :=
  match s with
  | c :: r => digits_value r (acc * 10 + (Z.of_nat (nat_of_ascii c) - 48))
  | [] => acc
  end.

(** A number literal without its sign, as [(m, e)]: it denotes
    [m * 10 ^ e]. *)
Definition magnitude (lit : list ascii) : Z * Z :=
  let s0 := match lit with "-"%char :: r => r | _ => lit end in
  let '(int_rev, s1) := scan_digits s0 [] in
  let '(frac_rev, s2) :=
    match s1 with
    | "."%char :: r => scan_digits r []
    | _ => ([], s1)
    end in
  let e10 :=
    match s2 with
    | _ :: "-"%char :: r => - digits_value r 0
    | _ :: "+"%char :: r => digits_value r 0
    | _ :: r => digits_value r 0
    | [] => 0
    end in
  (digits_value (List.rev frac_rev) (digits_value (List.rev int_rev) 0),
   e10 - Z.of_nat (List.length frac_rev)).

(** The decoder converts a number with [strconv.ParseFloat(s, 64)], which
    reports a range error when the literal rounds to an infinity: from
    [2^1024 - 2^970], half a unit in the last place above the largest
    [float64], on. A literal that rounds to zero is not an error. *)
Definition overflows_float64 (lit : string) : bool :=
  let '(m, e) := magnitude (list_ascii_of_string lit) in
  let bound := 2 ^ 1024 - 2 ^ 970 in
  if Z.leb 0 e then Z.leb bound (m * 10 ^ e) else Z.leb (bound * 10 ^ (- e)) m.

(** The scanner's [maxNestingDepth]. *)
Definition maxNestingDepth : Z := 10000.

Fixpoint strip_prefix (p s : list ascii) : option (list ascii) :=
  match p, s with
  | [], _ => Some s
  | a :: p', b :: s' => if Ascii.eqb a b then strip_prefix p' s' else None
  | _ :: _, [] => None
  end.

Definition scan_literal (lit : string) (v : value) (s : list ascii)
  : option (value * list ascii) :=
  match strip_prefix (list_ascii_of_string lit) s with
  | Some r => Some (v, r)
  | None => None
  end.

(** One value, then the rest of the input. [depth] counts the arrays and
    objects the value is inside of: opening one more than
    [maxNestingDepth] deep is an error. [fuel] bounds the recursion; the
    length of the input is enough. *)
Fixpoint parse_value (fuel : nat) (depth : Z) (s : list ascii)
  : option (value * list ascii) :=
  match fuel with
  | O => None
  | S f =>
      match skip_ws s with
      | [] => None
      | c :: r =>
          if Ascii.eqb c "{"%char then
            if Z.ltb maxNestingDepth (depth + 1) then None
            else
              match skip_ws r with
              | "}"%char :: r' => Some (Object [], r')
              | _ => parse_members f (depth + 1) r []
              end
          else if Ascii.eqb c "["%char then
            if Z.ltb maxNestingDepth (depth + 1) then None
            else
              match skip_ws r with
              | "]"%char :: r' => Some (Array [], r')
              | _ => parse_elements f (depth + 1) r []
              end
          else if Ascii.eqb c dquote then
            match scan_string r [] with
            | Some (raw, r') => Some (Str raw, r')
            | None => None
            end
          else if Ascii.eqb c "t"%char then scan_literal "true" (Bool true) (c :: r)
          else if Ascii.eqb c "f"%char then scan_literal "false" (Bool false) (c :: r)
          else if Ascii.eqb c "n"%char then scan_literal "null" Null (c :: r)
          else
            match scan_number (c :: r) with
            | Some (lit, r') =>
                if overflows_float64 lit then None else Some (Number lit, r')
            | None => None
            end
      end
  end
with parse_elements (fuel : nat) (depth : Z) (s : list ascii) (acc : list value)
  : option (value * list ascii) :=
  match fuel with
  | O => None
  | S f =>
      match parse_value f depth s with
      | None => None
      | Some (v, r) =>
          match skip_ws r with
          | ","%char :: r' => parse_elements f depth r' (v :: acc)
          | "]"%char :: r' => Some (Array (List.rev (v :: acc)), r')
          | _ => None
          end
      end
  end
with parse_members (fuel : nat) (depth : Z) (s : list ascii)
    (acc : list (string * value)) : option (value * list ascii) :=
  match fuel with
  | O => None
  | S f =>
      match skip_ws s with
      | c :: r =>
          if negb (Ascii.eqb c dquote) then None
          else
            match scan_string r [] with
            | None => None
            | Some (k, r1) =>
                match skip_ws r1 with
                | ":"%char :: r2 =>
                    match parse_value f depth r2 with
                    | None => None
                    | Some (v, r3) =>
                        match skip_ws r3 with
                        | ","%char :: r4 => parse_members f depth r4 ((k, v) :: acc)
                        | "}"%char :: r4 => Some (Object (List.rev ((k, v) :: acc)), r4)
                        | _ => None
                        end
                    end
                | _ => None
                end
            end
      | [] => None
      end
  end.

(** [json.Unmarshal(data, &v)] for [v] of type [any]: the value, or an
    error (a syntax error, the nesting limit, or a number out of range). *)
Definition Unmarshal (data : string) : result value :=
  let s := list_ascii_of_string data in
  match parse_value (S (List.length s)) 0 s with
  | Some (v, r) =>
      match skip_ws r with
      | [] => Ok v
      | _ => Err (Errorf "invalid character after top-level value")
      end
  | None => Err (Errorf "invalid JSON input")
  end.

End json.

(** ** time, strconv, os *)

Module time.

(** [time.Duration]: a 64-bit count of nanoseconds. *)
Definition int64 (z : Z) : Z := (z + 2 ^ 63) mod 2 ^ 64 - 2 ^ 63.

Definition Hour : Z := 3600000000000.

(** [time.Duration(n) * time.Hour] *)
Definition Hours (n : Z) : Z := int64 (int64 n * Hour).

(** The zero [time.Time] (January 1, year 1, 00:00 UTC), in nanoseconds
    on the Unix scale. *)
Definition zero : Z := -62135596800000000000.

Definition IsZero (t : Z) : bool := Z.eqb t zero.

Definition Add (t d : Z) : Z := t + d.

End time.

Module strconv.

Definition digit_value (c : ascii) : option Z :=
  let n := nat_of_ascii c in
  if (48 <=? n)%nat && (n <=? 57)%nat then Some (Z.of_nat n - 48) else None.

Fixpoint digits (cs : list ascii) (acc : Z) : option Z :=
  match cs with
  | [] => Some acc
  | c :: r =>
      match digit_value c with
      | Some d => digits r (acc * 10 + d)
      | None => None
      end
  end.

(** [strconv.Atoi]: an optional sign, then decimal digits, within [int]. *)
Definition Atoi (s : string) : result Z :=
  let cs := list_ascii_of_string s in
  let '(neg, ds) :=
    match cs with
    | "+"%char :: r => (false, r)
    | "-"%char :: r => (true, r)
    | _ => (false, cs)
    end in
  match ds with
  | [] => Err (Errorf "strconv.Atoi: invalid syntax")
  | _ :: _ =>
      match digits ds 0 with
      | None => Err (Errorf "strconv.Atoi: invalid syntax")
      | Some n =>
          let v := if neg then - n else n in
          if Z.ltb v (- 2 ^ 63) || Z.ltb (2 ^ 63 - 1) v
          then Err (Errorf "strconv.Atoi: value out of range")
          else Ok v
      end
  end.

End strconv.

(** ** internal/entity *)

Module entity.

(** [IdempotencyCache]: one row of [idempotency_cache], and the value
    kept in Redis under the prefixed key. *)
Record IdempotencyCache : Type := {
  Key : string;
  BodyHash : string;
  ResponsePayload : string;
  CreatedAt : Z;
  UpdatedAt : Z;
  ExpiredAt : Z
}.

Definition TransactionStatusPending : string := "pending".

(** [Transaction]: one row of [transactions]. [Amount] is a [float64] in
    the source; the code only stores it and tests it against zero, so it
    is held as an integer number of cents. The [Consumer] association
    pointer is left out: the create path never sets it. *)
Record Transaction : Type := {
  ID : string;
  IdempotencyCacheKey : string;
  Type_ : string;
  Amount : Z;
  Status : string;
  ConsumerID : string;
  TxCreatedAt : option Z;
  TxUpdatedAt : option Z
}.

Definition zeroTransaction : Transaction :=
  {| ID := ""; IdempotencyCacheKey := ""; Type_ := ""; Amount := 0;
     Status := ""; ConsumerID := ""; TxCreatedAt := None; TxUpdatedAt := None |}.

Definition zeroIdempotencyCache : IdempotencyCache :=
  {| Key := ""; BodyHash := ""; ResponsePayload := "";
     CreatedAt := time.zero; UpdatedAt := time.zero; ExpiredAt := time.zero |}.

(** Modelled from the spec: the consumer entity (its source file is not
    part of this development). Only the fields [CreateTransaction] reads. *)
Record Consumer : Type := {
  ConsumerKey : string;
  ConsumerStatus : string
}.

Definition ConsumerStatusActive : string := "active".

(** *** The [validate] tags of [Transaction] *)

Definition is_lower_hex (c : ascii) : bool :=
  existsb (Ascii.eqb c) (list_ascii_of_string "0123456789abcdef").

(** [uuid4]: 8-4-4-4-12 lower-case hex digits, version 4, variant 8..b. *)
Definition uuid4_char (i : nat) (c : ascii) : bool :=
  if existsb (Nat.eqb i) [8; 13; 18; 23]%nat then Ascii.eqb c "-"%char
  else if (i =? 14)%nat then Ascii.eqb c "4"%char
  else if (i =? 19)%nat then existsb (Ascii.eqb c) (list_ascii_of_string "89ab")
  else is_lower_hex c.

Fixpoint uuid4_from (i : nat) (cs : list ascii) : bool :=
  match cs with
  | [] => true
  | c :: r => uuid4_char i c && uuid4_from (S i) r
  end.

Definition is_uuid4 (s : string) : bool :=
  (String.length s =? 36)%nat && uuid4_from 0 (list_ascii_of_string s).

Definition is_oneof (s : string) (opts : list string) : bool :=
  existsb (String.eqb s) opts.

Definition failed_fields (t : Transaction) : list string :=
  (if String.eqb (IdempotencyCacheKey t) "" then ["IdempotencyCacheKey"] else [])
  ++ (if String.eqb (Type_ t) "" || (20 <? String.length (Type_ t))%nat
         || negb (is_oneof (Type_ t) ["payment"; "withdrawal"; "disbursement"])
      then ["Type"] else [])
  ++ (if Z.eqb (Amount t) 0 then ["Amount"] else [])
  ++ (if String.eqb (ConsumerID t) "" || negb (is_uuid4 (ConsumerID t))
      then ["ConsumerID"] else []).

(** [Transaction.Validate]: [nil], or the validator's [ValidationErrors]. *)
Definition Validate (t : Transaction) : option error :=
  match failed_fields t with
  | [] => None
  | fs => Some (ValidationErrors fs)
  end.

End entity.

(** ** pkg/context-data/meta-context *)

Module metacontext.

Record IdemCompetencyMeta : Type := {
  Key : string;
  BodyHash : string;
  ResponsePayload : string;
  StatusCode : Z
}.

(** A [context.Context], as far as this program uses it: the value stored
    under [idemCompetencyMetaKey], if any. *)
Definition Context : Type := option IdemCompetencyMeta.

Definition Background : Context := None.

Definition InjectIdemCompetencyMeta (ctx : Context) (meta : IdemCompetencyMeta)
  : Context := Some meta.

(** The pair [(meta, ok)] is the option. *)
Definition ExtractIdemCompetencyMeta (ctx : Context) : option IdemCompetencyMeta :=
  ctx.

End metacontext.

(** ** The world a request runs in: environment, clock, Redis, PostgreSQL *)

(** A value stored in Redis is represented by what [json.Unmarshal] into an
    [IdempotencyCache] makes of its bytes: [JSONOf r] for bytes that decode
    to [r] (the bytes [json.Marshal r] writes), [Undecodable] for bytes it
    rejects. *)
Inductive Blob : Type :=
| JSONOf (r : entity.IdempotencyCache)
| Undecodable (bytes : string).

Record RedisEntry : Type := {
  blob : Blob;
  expireAt : option Z   (* expiry of the key on the server's clock, [None]: persistent *)
}.

(** The server counts a TTL from the moment it executes the command that
    sets it, on its own clock: [server_clock] is the reading of that clock
    when the server executes a command. It is not the reading [time.Now()]
    gave the process earlier in the same call. *)
Record RedisServer : Type := {
  redis_client : bool;  (* [cache.GetRedisClient()] returns a client *)
  redis_up : bool;      (* the server answers commands *)
  server_clock : Z;
  keyspace : gmap string RedisEntry
}.

Record Database : Type := {
  postgres_handle : bool;  (* [database.GetPostgres()] returns a handle *)
  postgres_up : bool;      (* the server answers statements *)
  consumers : list entity.Consumer;
  transactions : list entity.Transaction;
  idempotency_cache : list entity.IdempotencyCache
}.

Record World : Type := {
  environ : gmap string string;   (* the process environment *)
  clock : Z;                      (* [time.Now()] *)
  uuid_source : nat -> string;    (* the values [gen_random_uuid()] draws *)
  uuid_calls : nat;
  Redis : RedisServer;
  Postgres : Database
}.

Definition with_Redis (w : World) (r : RedisServer) : World :=
  {| environ := environ w; clock := clock w; uuid_source := uuid_source w;
     uuid_calls := uuid_calls w; Redis := r; Postgres := Postgres w |}.

Definition with_Postgres (w : World) (d : Database) : World :=
  {| environ := environ w; clock := clock w; uuid_source := uuid_source w;
     uuid_calls := uuid_calls w; Redis := Redis w; Postgres := d |}.

Definition with_uuid_calls (w : World) (n : nat) : World :=
  {| environ := environ w; clock := clock w; uuid_source := uuid_source w;
     uuid_calls := n; Redis := Redis w; Postgres := Postgres w |}.

Module os.
(** [os.Getenv]: the empty string when the variable is not set. *)
Definition Getenv (w : World) (name : string) : string :=
  default "" (environ w !! name).
End os.

(** Code that reads and writes the world and may fail: [(T, error)] with
    the state threaded through. *)
Definition M (A : Type) : Type := World -> result A * World.

Definition ret {A} (a : A) : M A := fun w => (Ok a, w).
Definition fail {A} (e : error) : M A := fun w => (Err e, w).
Definition bind {A B} (m : M A) (k : A -> M B) : M B :=
  fun w =>
    match m w with
    | (Ok a, w') => k a w'
    | (Err e, w') => (Err e, w')
    end.
Definition gets {A} (f : World -> A) : M A := fun w => (Ok (f w), w).

Declare Scope go_scope.
Delimit Scope go_scope with go.
Notation "x <- m ;; k" := (bind m (fun x => k))
  (at level 100, m at next level, right associativity) : go_scope.

(** ** pkg/util/redis-util *)

Module redis_util.

Definition expired (now : Z) (e : RedisEntry) : bool :=
  match expireAt e with
  | Some t => Z.leb t now
  | None => false
  end.

(** [client.Get(ctx, key).Bytes()] *)
Definition client_Get (w : World) (key : string) : result Blob :=
  if negb (redis_up (Redis w)) then Err (Errorf "dial tcp: connection refused")
  else
    match keyspace (Redis w) !! key with
    | Some e =>
        if expired (server_clock (Redis w)) e then Err RedisNil else Ok (blob e)
    | None => Err RedisNil
    end.

(** [client.Set(ctx, key, data, ttl).Err()]: a positive [ttl] sets the
    expiry of the key, counted from when the server executes the command;
    zero stores it without one. *)
Definition client_Set (key : string) (data : Blob) (ttl : Z) : M unit :=
  fun w =>
    if negb (redis_up (Redis w)) then (Err (Errorf "dial tcp: connection refused"), w)
    else
      let e := {| blob := data;
                  expireAt := if Z.ltb 0 ttl
                              then Some (server_clock (Redis w) + ttl) else None |} in
      (Ok tt,
       with_Redis w {| redis_client := redis_client (Redis w);
                       redis_up := redis_up (Redis w);
                       server_clock := server_clock (Redis w);
                       keyspace := <[key := e]> (keyspace (Redis w)) |}).

(** [SetJSON]: marshals the value and stores it with the TTL. *)
Definition SetJSON (key : string) (value : entity.IdempotencyCache) (ttl : Z)
  : M unit :=
  fun w =>
    if negb (redis_client (Redis w)) then (Err (Errorf "redis client is nil"), w)
    else client_Set key (JSONOf value) ttl w.

(** [GetJSON] at type [entity.IdempotencyCache]: the pointer and the
    error it returns. *)
Definition GetJSON (w : World) (key : string)
  : option entity.IdempotencyCache * option error :=
  if negb (redis_client (Redis w)) then (None, Some (Errorf "redis client is nil"))
  else
    match client_Get w key with
    | Err e => (None, Some e)
    | Ok (Undecodable _) => (None, Some (Errorf "json: cannot unmarshal"))
    | Ok (JSONOf r) => (Some r, None)
    end.

End redis_util.

(** ** gorm: handles, statements and transactions

    A transaction handle is its list of pending writes; the statements of a
    transaction see the committed tables with these writes applied, [Commit]
    applies them to the committed tables, [Rollback] drops them. *)

Module gorm.

Inductive Write : Type :=
| InsertTransaction (t : entity.Transaction)
| InsertIdempotencyCache (r : entity.IdempotencyCache).

Definition Tx : Type := list Write.

Definition apply_write (d : Database) (wr : Write) : Database :=
  match wr with
  | InsertTransaction t =>
      {| postgres_handle := postgres_handle d; postgres_up := postgres_up d;
         consumers := consumers d;
         transactions := transactions d ++ [t];
         idempotency_cache := idempotency_cache d |}
  | InsertIdempotencyCache r =>
      {| postgres_handle := postgres_handle d; postgres_up := postgres_up d;
         consumers := consumers d;
         transactions := transactions d;
         idempotency_cache := idempotency_cache d ++ [r] |}
  end.

Definition commit (d : Database) (tx : Tx) : Database :=
  List.fold_left apply_write tx d.

(** The tables as the statements of [tx] see them. *)
Definition view (w : World) (tx : Tx) : Database := commit (Postgres w) tx.

(** [db.Transaction(fc)] on the global handle: begin, run [fc], commit
    when it returns [nil], roll back when it returns an error. *)
Definition Transaction {A} (fc : Tx -> M (A * Tx)) : M A :=
  fun w =>
    if negb (postgres_up (Postgres w))
    then (Err (Errorf "failed to connect to the database"), w)
    else
      match fc [] w with
      | (Ok (a, tx), w') => (Ok a, with_Postgres w' (commit (Postgres w') tx))
      | (Err e, w') => (Err e, w')
      end.

End gorm.

(** ** internal/repository *)

Module repository.

Definition has_key (key : string) (r : entity.IdempotencyCache) : bool :=
  String.eqb (entity.Key r) key.

(** [tx.First(&idempotencyCache, "key = ?", key)] *)
Definition GetIdempotencyCacheByKey (tx : gorm.Tx) (key : string)
  : M entity.IdempotencyCache :=
  fun w =>
    let d := gorm.view w tx in
    if negb (postgres_up d) then (Err (Errorf "connection refused"), w)
    else
      match List.find (has_key key) (idempotency_cache d) with
      | Some r => (Ok r, w)
      | None => (Err ErrRecordNotFound, w)
      end.

(** [tx.Create(&key)]: the primary key must be new; gorm fills the
    zero-valued auto-time columns. *)
Definition CreateIdempotencyCache (tx : gorm.Tx) (key : entity.IdempotencyCache)
  : M (entity.IdempotencyCache * gorm.Tx) :=
  fun w =>
    let d := gorm.view w tx in
    if negb (postgres_up d)
    then (Err (Wrapf "failed to create idempotency cache" (Errorf "connection refused")), w)
    else if existsb (has_key (entity.Key key)) (idempotency_cache d)
    then (Err (Wrapf "failed to create idempotency cache"
                 (Errorf "duplicate key value violates unique constraint")), w)
    else
      let row :=
        {| entity.Key := entity.Key key;
           entity.BodyHash := entity.BodyHash key;
           entity.ResponsePayload := entity.ResponsePayload key;
           entity.CreatedAt :=
             if time.IsZero (entity.CreatedAt key) then clock w else entity.CreatedAt key;
           entity.UpdatedAt :=
             if time.IsZero (entity.UpdatedAt key) then clock w else entity.UpdatedAt key;
           entity.ExpiredAt := entity.ExpiredAt key |} in
      (Ok (row, (tx ++ [gorm.InsertIdempotencyCache row])%list), w).

(** [tx.Create(&t)]: the id defaults to [gen_random_uuid()]; the id and
    the idempotency key of a transaction are unique. *)
Definition CreateTransaction (tx : gorm.Tx) (t : entity.Transaction)
  : M (entity.Transaction * gorm.Tx) :=
  fun w =>
    let d := gorm.view w tx in
    if negb (postgres_up d)
    then (Err (Wrapf "failed to create transaction" (Errorf "connection refused")), w)
    else
      let id := if String.eqb (entity.ID t) ""
                then uuid_source w (uuid_calls w) else entity.ID t in
      let w1 := if String.eqb (entity.ID t) ""
                then with_uuid_calls w (S (uuid_calls w)) else w in
      if existsb (fun r => String.eqb (entity.ID r) id
                           || String.eqb (entity.IdempotencyCacheKey r)
                                         (entity.IdempotencyCacheKey t))
                 (transactions d)
      then (Err (Wrapf "failed to create transaction"
                   (Errorf "duplicate key value violates unique constraint")), w1)
      else
        let row :=
          {| entity.ID := id;
             entity.IdempotencyCacheKey := entity.IdempotencyCacheKey t;
             entity.Type_ := entity.Type_ t;
             entity.Amount := entity.Amount t;
             entity.Status := entity.Status t;
             entity.ConsumerID := entity.ConsumerID t;
             entity.TxCreatedAt :=
               match entity.TxCreatedAt t with Some c => Some c | None => Some (clock w) end;
             entity.TxUpdatedAt :=
               match entity.TxUpdatedAt t with Some c => Some c | None => Some (clock w) end |} in
        (Ok (row, (tx ++ [gorm.InsertTransaction row])%list), w1).

End repository.

(** ** internal/service *)

Module service.

Local Open Scope go_scope.

(** [m] run to its [(value, err)] pair, for the call sites that inspect
    the error instead of returning it. *)
Definition catch {A} (m : M A) : M (result A) :=
  fun w => let '(r, w') := m w in (Ok r, w').

(** The value of a [(T, error)] pair: the zero value next to an error. *)
Definition value_or {A} (zero : A) (r : result A) : A :=
  match r with Ok a => a | Err _ => zero end.

(** Modelled from the spec: [database.GetPostgres] (the package
    config/database is not part of this development): the handle to the
    durable store, [nil] when there is none. The result says whether a
    handle came back. *)
Definition GetPostgres : M bool := gets (fun w => postgres_handle (Postgres w)).

Definition has_id (id : string) (c : entity.Consumer) : bool :=
  String.eqb (entity.ConsumerKey c) id.

(** Modelled from the spec: the consumer service's [GetConsumerByID] (its
    source file is not part of this development): the consumer with that
    id, read through the global handle, or [gorm.ErrRecordNotFound]. *)
Definition GetConsumerByID (id : string) : M entity.Consumer :=
  ok <- GetPostgres ;;
  if negb ok then fail (Errorf "database connection is nil")
  else fun w =>
    if negb (postgres_up (Postgres w)) then (Err (Errorf "connection refused"), w)
    else
      match List.find (has_id id) (consumers (Postgres w)) with
      | Some c => (Ok c, w)
      | None => (Err ErrRecordNotFound, w)
      end.

(** Time to live for idempotency keys in Redis, set to 24 hours. *)
Definition ttl_hour : Z := 24.

Section WithMarshal.

(** [json.Marshal] of a transaction is the standard library's; the
    services are parametric in it. *)
Variable json_Marshal : entity.Transaction -> result string.

(** [idempotencyCacheService.CreateIdempotencyCache] *)
Definition CreateIdempotencyCache (ctx : metacontext.Context)
    (responsePayload : entity.Transaction) : M entity.IdempotencyCache :=
  db <- GetPostgres ;;
  if negb db then fail (Errorf "database connection is nil")
  else
    match metacontext.ExtractIdemCompetencyMeta ctx with
    | None => fail (Errorf "idempotency metadata not found in context")
    | Some meta =>
        let idemKey := metacontext.Key meta in
        let bodyHash := metacontext.BodyHash meta in
        match json_Marshal responsePayload with
        | Err err => fail (Wrapf "failed to marshal response payload" err)
        | Ok respStr =>
            now <- gets clock ;;
            ttlStr <- gets (fun w => os.Getenv w "IDEMPOTENCY_TTL_HOURS") ;;
            match strconv.Atoi ttlStr with
            | Err err => fail (Wrapf "invalid Idempotency TTL hours" err)
            | Ok ttl =>
                let idemData :=
                  {| entity.Key := idemKey;
                     entity.BodyHash := bodyHash;
                     entity.ResponsePayload := respStr;
                     entity.CreatedAt := now;
                     entity.UpdatedAt := time.zero;
                     entity.ExpiredAt := time.Add now (time.Hours ttl) |} in
                gorm.Transaction (fun tx =>
                  found <- catch (repository.GetIdempotencyCacheByKey tx idemKey) ;;
                  let existingIdem := value_or entity.zeroIdempotencyCache found in
                  _ <- match found with
                       | Err err =>
                           if negb (errors_Is err ErrRecordNotFound) then fail err
                           else ret tt
                       | Ok _ => ret tt
                       end ;;
                  if negb (String.eqb (entity.Key existingIdem) "")
                  then fail (Errorf ("idempotency key " ++ idemKey ++ " already exists"))
                  else
                    created <- repository.CreateIdempotencyCache tx idemData ;;
                    let '(createdIdemData, tx1) := created in
                    let ttl := ttl_hour * time.Hour in
                    idemPrefix <- gets (fun w => os.Getenv w "IDEMPOTENCY_PREFIX") ;;
                    let redisKey := idemPrefix ++ idemKey in
                    set <- catch (redis_util.SetJSON redisKey createdIdemData ttl) ;;
                    match set with
                    | Err err => fail (Wrapf "failed to set idempotency key in Redis" err)
                    | Ok _ => ret (createdIdemData, tx1)
                    end)
            end
        end
    end.

Definition with_IdempotencyCacheKey (t : entity.Transaction) (key : string)
  : entity.Transaction :=
  {| entity.ID := entity.ID t;
     entity.IdempotencyCacheKey := key;
     entity.Type_ := entity.Type_ t;
     entity.Amount := entity.Amount t;
     entity.Status := entity.Status t;
     entity.ConsumerID := entity.ConsumerID t;
     entity.TxCreatedAt := entity.TxCreatedAt t;
     entity.TxUpdatedAt := entity.TxUpdatedAt t |}.

Definition with_Status (t : entity.Transaction) (status : string)
  : entity.Transaction :=
  {| entity.ID := entity.ID t;
     entity.IdempotencyCacheKey := entity.IdempotencyCacheKey t;
     entity.Type_ := entity.Type_ t;
     entity.Amount := entity.Amount t;
     entity.Status := status;
     entity.ConsumerID := entity.ConsumerID t;
     entity.TxCreatedAt := entity.TxCreatedAt t;
     entity.TxUpdatedAt := entity.TxUpdatedAt t |}.

(** [transactionService.CreateTransaction] *)
Definition CreateTransaction (ctx : metacontext.Context) (t : entity.Transaction)
  : M entity.Transaction :=
  db <- GetPostgres ;;
  if negb db then fail (Errorf "database connection is nil")
  else
    match metacontext.ExtractIdemCompetencyMeta ctx with
    | None => fail (Errorf "idempotency meta not found in context")
    | Some meta =>
        let t := with_IdempotencyCacheKey t (metacontext.Key meta) in
        match entity.Validate t with
        | Some err => fail err
        | None =>
            gorm.Transaction (fun tx =>
              if String.eqb (entity.ConsumerID t) ""
              then fail (Errorf "consumer ID is required")
              else
                consumer <- GetConsumerByID (entity.ConsumerID t) ;;
                if negb (String.eqb (entity.ConsumerStatus consumer)
                                    entity.ConsumerStatusActive)
                then fail ErrInvalidData
                else
                  let t := with_Status t entity.TransactionStatusPending in
                  created <- repository.CreateTransaction tx t ;;
                  let '(createdTransaction, tx1) := created in
                  _ <- CreateIdempotencyCache ctx createdTransaction ;;
                  ret (createdTransaction, tx1))
        end
    end.

End WithMarshal.

End service.

(** ** pkg/util/http-util *)

(** [err.Error()] *)
Fixpoint error_message (e : error) : string :=
  match e with
  | ErrRecordNotFound => "record not found"
  | ErrInvalidData => "unsupported data"
  | RedisNil => "redis: nil"
  | ValidationErrors _ => "validation failed"
  | Errorf msg => msg
  | Wrapf msg cause => msg ++ ": " ++ error_message cause
  end.

Module httputil.

Inductive errbody : Type :=
| NoError
| ErrorText (s : string)
| ErrorFields (fields : list string).

Inductive payload : Type :=
| Nil
| JSON (v : json.value)
| TransactionData (t : entity.Transaction).

(** Modelled from the spec: the response envelope and the helpers that
    write it (the package's source file is not part of this development).
    The envelope is [{message, error, path, status, data, timestamp}];
    [path] and [timestamp] are copied from the request and the clock and
    are left out. Each helper writes the status of its name: 200, 201,
    400, 404, 405, 409, 500. *)
Record HttpResponse : Type := {
  Message : string;
  Error : errbody;
  Status : Z;
  Data : payload
}.

Definition Success (message : string) (data : payload) : HttpResponse :=
  {| Message := message; Error := NoError; Status := 200; Data := data |}.
Definition Created (message : string) (data : payload) : HttpResponse :=
  {| Message := message; Error := NoError; Status := 201; Data := data |}.
Definition BadRequest (message err : string) : HttpResponse :=
  {| Message := message; Error := ErrorText err; Status := 400; Data := Nil |}.
Definition BadRequestMap (message : string) (fields : list string) : HttpResponse :=
  {| Message := message; Error := ErrorFields fields; Status := 400; Data := Nil |}.
Definition NotFound (message err : string) : HttpResponse :=
  {| Message := message; Error := ErrorText err; Status := 404; Data := Nil |}.
Definition MethodNotAllowed (message err : string) : HttpResponse :=
  {| Message := message; Error := ErrorText err; Status := 405; Data := Nil |}.
Definition Conflict (message err : string) : HttpResponse :=
  {| Message := message; Error := ErrorText err; Status := 409; Data := Nil |}.
Definition InternalServerError (message err : string) : HttpResponse :=
  {| Message := message; Error := ErrorText err; Status := 500; Data := Nil |}.

(** A JSON value decoded into [any]: [null] is the nil interface. *)
Definition any_of_json (v : json.value) : payload :=
  match v with
  | json.Null => Nil
  | _ => JSON v
  end.

End httputil.

(** ** gin: the request a middleware sees and what it does with it *)

Module gin.

Record Request : Type := {
  Method : string;                 (* [c.Request.Method] *)
  GetHeader : string -> string;    (* [c.GetHeader]: empty when absent *)
  Body : result (list byte);       (* what reading [c.Request.Body] gives *)
  Ctx : metacontext.Context        (* [c.Request.Context()] *)
}.

(** A middleware either writes a response and calls [c.Abort()], or calls
    [c.Next()] with the request as it then stands. *)
Inductive Flow : Type :=
| Abort (resp : httputil.HttpResponse)
| Next (c : Request).

Definition with_Body (c : Request) (b : list byte) : Request :=
  {| Method := Method c; GetHeader := GetHeader c; Body := Ok b; Ctx := Ctx c |}.

Definition WithContext (c : Request) (ctx : metacontext.Context) : Request :=
  {| Method := Method c; GetHeader := GetHeader c; Body := Body c; Ctx := ctx |}.

(** [c.GetRawData()] *)
Definition GetRawData (c : Request) : result (list byte) := Body c.

End gin.

(** ** pkg/middleware/idempotency *)

Module idempotency.

(** The tests [err != nil] and [err == redis.Nil] on an error value, and
    [err.Error()]. *)
Definition not_nil (err : option error) : bool :=
  match err with Some _ => true | None => false end.
Definition is_RedisNil (err : option error) : bool :=
  match err with Some RedisNil => true | _ => false end.
Definition err_Error (err : option error) : string :=
  match err with Some e => error_message e | None => "" end.

(** [Enforce]: the handler function the middleware installs. *)
Definition Enforce (w : World) (c : gin.Request) : gin.Flow :=
  let idemEnabled := os.Getenv w "IDEMPOTENCY_ENABLED" in
  let idemKeyHdr := os.Getenv w "IDEMPOTENCY_KEY_HEADER" in
  let idemPrefix := os.Getenv w "IDEMPOTENCY_PREFIX" in
  if String.eqb idemEnabled "" || String.eqb idemKeyHdr "" || String.eqb idemPrefix ""
  then gin.Abort (httputil.InternalServerError "Internal Server Error"
         "Idempotency enabled, key header, or prefix environment variables are not set")
  else if negb (String.eqb idemEnabled "TRUE")
  then gin.Next c
  else if negb (String.eqb (gin.Method c) "POST")
          && negb (String.eqb (gin.Method c) "PUT")
          && negb (String.eqb (gin.Method c) "DELETE")
  then gin.Abort (httputil.MethodNotAllowed "Method Not Allowed"
         "Idempotency middleware only supports POST, PUT, or DELETE methods")
  else
    let idemKey := gin.GetHeader c idemKeyHdr in
    if String.eqb idemKey ""
    then gin.Abort (httputil.BadRequest "Bad Request"
           ("Idempotency key header '" ++ idemKeyHdr ++ "' is required"))
    else
      match gin.GetRawData c with
      | Err _ =>
          gin.Abort (httputil.InternalServerError "Internal Server Error"
            "Failed to read request body")
      | Ok bodyBytes =>
          let c := gin.with_Body c bodyBytes in
          match hash_util.Hash256Bytes bodyBytes with
          | Err _ =>
              gin.Abort (httputil.InternalServerError "Internal Server Error"
                "Failed to hash request body")
          | Ok bodyHash =>
              let redisKey := idemPrefix ++ idemKey in
              let '(cachedData, err) := redis_util.GetJSON w redisKey in
              if not_nil err && negb (is_RedisNil err)
              then gin.Abort (httputil.InternalServerError "Internal Server Error"
                     (err_Error err))
              else
                match cachedData with
                | Some cachedData =>
                    if negb (String.eqb (entity.BodyHash cachedData) bodyHash)
                    then gin.Abort (httputil.Conflict "Conflict"
                           "Request with the same Idempotency-Key but different body has already been processed")
                    else
                      if negb (String.eqb (entity.ResponsePayload cachedData) "")
                      then
                        match json.Unmarshal (entity.ResponsePayload cachedData) with
                        | Err _ =>
                            gin.Abort (httputil.InternalServerError
                              "Internal Server Error"
                              "Failed to unmarshal cached response payload")
                        | Ok respPayload =>
                            gin.Abort (httputil.Success "Request already processed"
                                         (httputil.any_of_json respPayload))
                        end
                      else
                        gin.Abort (httputil.Success "Request already processed"
                                     httputil.Nil)
                | None =>
                    let meta :=
                      {| metacontext.Key := idemKey;
                         metacontext.BodyHash := bodyHash;
                         metacontext.ResponsePayload := "";
                         metacontext.StatusCode := 0 |} in
                    let ctx := metacontext.InjectIdemCompetencyMeta (gin.Ctx c) meta in
                    gin.Next (gin.WithContext c ctx)
                end
          end
      end.

End idempotency.

(** ** internal/handler *)

Module handler.

Section WithCodecs.

(** gin's JSON binding of the request body and [json.Marshal] of a
    transaction are library code; the handler is parametric in them. *)
Variable ShouldBindJSON : list byte -> result entity.Transaction.
Variable json_Marshal : entity.Transaction -> result string.

(** [TransactionHandler.CreateTransaction] *)
Definition CreateTransaction (c : gin.Request) (w : World)
  : httputil.HttpResponse * World :=
  let bound :=
    match gin.Body c with
    | Ok b => ShouldBindJSON b
    | Err e => Err e
    end in
  match bound with
  | Err err => (httputil.BadRequest "Invalid request body" (error_message err), w)
  | Ok transaction =>
      match service.CreateTransaction json_Marshal (gin.Ctx c) transaction w with
      | (Err err, w') =>
          if errors_As_ValidationErrors err
          then (httputil.BadRequestMap "Failed to create transaction"
                  match err with ValidationErrors fs => fs | _ => [] end, w')
          else if errors_Is err ErrRecordNotFound
          then (httputil.NotFound "Consumer not found"
                  "No consumer found with the given ID", w')
          else if errors_Is err ErrInvalidData
          then (httputil.BadRequest "Invalid transaction data"
                  "Transaction data is invalid, this could be due to missing required fields or incorrect data types", w')
          else (httputil.InternalServerError "Failed to create transaction"
                  (error_message err), w')
      | (Ok createdTransaction, w') =>
          (httputil.Created "Transaction created successfully"
             (httputil.TransactionData createdTransaction), w')
      end
  end.

End WithCodecs.

End handler.

(** ** routes: the middleware in front of a handler *)

Module routes.

(** An HTTP request as the server receives it. *)
Record Incoming : Type := {
  Method : string;
  Header : string -> string;
  Body : result (list byte)
}.

(** The request gin hands to the chain: its context is the server's and
    carries no idempotency metadata. *)
Definition NewContext (r : Incoming) : gin.Request :=
  {| gin.Method := Method r; gin.GetHeader := Header r; gin.Body := Body r;
     gin.Ctx := metacontext.Background |}.

(** The chain [idempotency.Enforce(), h]: the handler [h] runs only when
    the middleware calls [c.Next()], on the request the middleware passes
    on; after [c.Abort()] the response is the middleware's. *)
Definition run (h : gin.Request -> World -> httputil.HttpResponse * World)
    (c : gin.Request) (w : World) : httputil.HttpResponse * World :=
  match idempotency.Enforce w c with
  | gin.Abort resp => (resp, w)
  | gin.Next c' => h c' w
  end.

(** A route registered as [POST(path, idempotency.Enforce(), h)]. *)
Definition serve (h : gin.Request -> World -> httputil.HttpResponse * World)
    (r : Incoming) (w : World) : httputil.HttpResponse * World :=
  run h (NewContext r) w.

End routes.

(** ** A concrete deployment, for running the definitions *)

Module sample.

Definition env (enabled ttl : string) : gmap string string :=
  <["IDEMPOTENCY_ENABLED" := enabled]>
    (<["IDEMPOTENCY_KEY_HEADER" := "Idempotency-Key"]>
       (<["IDEMPOTENCY_PREFIX" := "idempotency_cache:"]>
          (<["IDEMPOTENCY_TTL_HOURS" := ttl]> ∅))).

Definition K1 : string := "06f14f72-dfba-49ca-aa4e-d85b532ca0b7".
Definition consumerC : string := "a1b9d37e-2e7d-42b2-9d3e-7b492162905d".

Definition body (amount : string) : list byte :=
  list_byte_of_string
    ("{" ++ json.quoted "type" ++ ":" ++ json.quoted "payment" ++ ","
         ++ json.quoted "amount" ++ ":" ++ amount ++ ","
         ++ json.quoted "consumerId" ++ ":" ++ json.quoted consumerC ++ "}").
Definition body1 : list byte := body "150000".
Definition body2 : list byte := body "170000".

Definition hash1 : string :=
  Eval vm_compute in
    match hash_util.Hash256Bytes body1 with Ok h => h | Err _ => "" end.

Definition now : Z := 1750263599000000000.

(** The server executes a command two milliseconds after the process
    read [now]. *)
Definition lag : Z := 2000000.

Definition redis (up : bool) (ks : gmap string RedisEntry) : RedisServer :=
  {| redis_client := true; redis_up := up; server_clock := now + lag;
     keyspace := ks |}.

Definition database (rows : list entity.IdempotencyCache) : Database :=
  {| postgres_handle := true; postgres_up := true;
     consumers := [ {| entity.ConsumerKey := consumerC;
                       entity.ConsumerStatus := "active" |} ];
     transactions := [];
     idempotency_cache := rows |}.

Definition world (e : gmap string string) (r : RedisServer) (d : Database) : World :=
  {| environ := e; clock := now;
     uuid_source := fun _ => "147735b9-eff7-469d-ac85-3b8108825ce4";
     uuid_calls := 0; Redis := r; Postgres := d |}.

Definition header (key : string) (name : string) : string :=
  if String.eqb name "Idempotency-Key" then key else "".

Definition request (method key : string) (body : list byte) : gin.Request :=
  {| gin.Method := method; gin.GetHeader := header key;
     gin.Body := Ok body; gin.Ctx := metacontext.Background |}.

(** The record of a first execution under [K1] with [body1]. *)
Definition record (payload : string) : entity.IdempotencyCache :=
  {| entity.Key := K1; entity.BodyHash := hash1;
     entity.ResponsePayload := payload;
     entity.CreatedAt := now; entity.UpdatedAt := now;
     entity.ExpiredAt := now + 24 * time.Hour |}.

Definition cached (payload : string) : gmap string RedisEntry :=
  {[ "idempotency_cache:" ++ K1 :=
       {| blob := JSONOf (record payload); expireAt := Some (now + 24 * time.Hour) |} ]}.

Definition payload1 : string :=
  "{" ++ json.quoted "id" ++ ":" ++ json.quoted "147735b9-eff7-469d-ac85-3b8108825ce4"
      ++ "," ++ json.quoted "amount" ++ ":150000,"
      ++ json.quoted "status" ++ ":" ++ json.quoted "pending" ++ "}".

Definition transaction : entity.Transaction :=
  {| entity.ID := ""; entity.IdempotencyCacheKey := "";
     entity.Type_ := "payment"; entity.Amount := 15000000;
     entity.Status := ""; entity.ConsumerID := consumerC;
     entity.TxCreatedAt := None; entity.TxUpdatedAt := None |}.

Definition marshal (t : entity.Transaction) : result string :=
  Ok ("{" ++ json.quoted "id" ++ ":" ++ json.quoted (entity.ID t) ++ ","
          ++ json.quoted "status" ++ ":" ++ json.quoted (entity.Status t) ++ "}").

Definition bind_json (b : list byte) : result entity.Transaction :=
  if (List.length b =? 0)%nat then Err (Errorf "EOF") else Ok transaction.

Definition meta : metacontext.IdemCompetencyMeta :=
  {| metacontext.Key := K1; metacontext.BodyHash := hash1;
     metacontext.ResponsePayload := ""; metacontext.StatusCode := 0 |}.

Definition hash2 : string :=
  Eval vm_compute in
    match hash_util.Hash256Bytes body2 with Ok h => h | Err _ => "" end.

(** The same environment with one variable not set. *)
Definition env_without (name : string) : gmap string string :=
  delete name (env "TRUE" "24").

Definition incoming (method key : string) (body : list byte) : routes.Incoming :=
  {| routes.Method := method; routes.Header := header key;
     routes.Body := Ok body |}.

(** The record the record phase builds for [transaction] under [K1] when
    the configured TTL is [hours]. *)
Definition created (hours : Z) : entity.IdempotencyCache :=
  {| entity.Key := K1; entity.BodyHash := hash1;
     entity.ResponsePayload :=
       match marshal transaction with Ok s => s | Err _ => "" end;
     entity.CreatedAt := now; entity.UpdatedAt := now;
     entity.ExpiredAt := now + hours * time.Hour |}.

(** A deployment with the flag TRUE and a TTL of 24 hours. *)
Definition deployed (r : RedisServer) (d : Database) : World :=
  world (env "TRUE" "24") r d.

(** [K1] recorded for [body1], in the durable table and in the cache. *)
Definition cached_world (payload : string) : World :=
  deployed (redis true (cached payload)) (database [record payload]).

(** The transaction route. *)
Definition route (r : routes.Incoming) (w : World) : httputil.HttpResponse * World :=
  routes.serve (handler.CreateTransaction bind_json marshal) r w.

(** The world after the first request under [K1] (scenario A). *)
Definition after_A : World :=
  snd (route (incoming "POST" K1 body1) (deployed (redis true ∅) (database []))).

(** What [payload1] unmarshals to. *)
Definition replayed : json.value :=
  Eval vm_compute in
    match json.Unmarshal payload1 with Ok v => v | Err _ => json.Null end.

(** A marshaller that writes the status only, and writes JSON for every
    entity. *)
Definition marshal_status (t : entity.Transaction) : result string :=
  Ok ("{" ++ json.quoted "status" ++ ":"
          ++ json.quoted (if String.eqb (entity.Status t) "pending"
                          then "pending" else "other") ++ "}").

(** The world after the first request under [K1], recorded with
    [marshal_status]. *)
Definition recorded : World :=
  snd (routes.serve (handler.CreateTransaction bind_json marshal_status)
         (incoming "POST" K1 body1) (deployed (redis true ∅) (database []))).

(** [n] arrays, one inside the other. *)
Fixpoint brackets (c : ascii) (n : nat) (tail : string) : string :=
  match n with
  | O => tail
  | S k => String c (brackets c k tail)
  end.

Definition nested (n : nat) : string :=
  brackets "["%char n (brackets "]"%char n "").

End sample.

(** ** The rest of the services: reads and the update path *)

Definition with_clock (w : World) (t : Z) : World :=
  {| environ := environ w; clock := t; uuid_source := uuid_source w;
     uuid_calls := uuid_calls w; Redis := Redis w; Postgres := Postgres w |}.

(** gorm's [Save] on [idempotency_cache]. A handle is again its list of
    pending writes, here the rows saved. *)
Module gorm_save.

Definition Tx : Type := list entity.IdempotencyCache.

(** [UPDATE ... WHERE key = r.Key] on every column; when no row is
    affected, gorm inserts the row. *)
Definition save_row (rows : list entity.IdempotencyCache)
    (r : entity.IdempotencyCache) : list entity.IdempotencyCache :=
  if existsb (repository.has_key (entity.Key r)) rows
  then List.map (fun x => if repository.has_key (entity.Key r) x then r else x) rows
  else rows ++ [r].

Definition apply_save (d : Database) (r : entity.IdempotencyCache) : Database :=
  {| postgres_handle := postgres_handle d; postgres_up := postgres_up d;
     consumers := consumers d;
     transactions := transactions d;
     idempotency_cache := save_row (idempotency_cache d) r |}.

Definition commit (d : Database) (tx : Tx) : Database :=
  List.fold_left apply_save tx d.

Definition view (w : World) (tx : Tx) : Database := commit (Postgres w) tx.

(** [db.Transaction(fc)] on the global handle, for callbacks that save. *)
Definition Transaction {A} (fc : Tx -> M (A * Tx)) : M A :=
  fun w =>
    if negb (postgres_up (Postgres w))
    then (Err (Errorf "failed to connect to the database"), w)
    else
      match fc [] w with
      | (Ok (a, tx), w') => (Ok a, with_Postgres w' (commit (Postgres w') tx))
      | (Err e, w') => (Err e, w')
      end.

End gorm_save.

Module repository_more.

(** [idempotencyCacheRepository.UpdateIdempotencyCache]: [tx.Save(&key)].
    With a zero primary key [Save] is a [Create]; otherwise it updates the
    row and gorm stamps [UpdatedAt]. *)
Definition UpdateIdempotencyCache (tx : gorm_save.Tx) (key : entity.IdempotencyCache)
  : M (entity.IdempotencyCache * gorm_save.Tx) :=
  fun w =>
    let d := gorm_save.view w tx in
    if negb (postgres_up d)
    then (Err (Wrapf "failed to update idempotency cache" (Errorf "connection refused")), w)
    else if String.eqb (entity.Key key) ""
    then
      if existsb (repository.has_key "") (idempotency_cache d)
      then (Err (Wrapf "failed to update idempotency cache"
                   (Errorf "duplicate key value violates unique constraint")), w)
      else
        let row :=
          {| entity.Key := entity.Key key;
             entity.BodyHash := entity.BodyHash key;
             entity.ResponsePayload := entity.ResponsePayload key;
             entity.CreatedAt :=
               if time.IsZero (entity.CreatedAt key) then clock w else entity.CreatedAt key;
             entity.UpdatedAt :=
               if time.IsZero (entity.UpdatedAt key) then clock w else entity.UpdatedAt key;
             entity.ExpiredAt := entity.ExpiredAt key |} in
        (Ok (row, (tx ++ [row])%list), w)
    else
      let row :=
        {| entity.Key := entity.Key key;
           entity.BodyHash := entity.BodyHash key;
           entity.ResponsePayload := entity.ResponsePayload key;
           entity.CreatedAt := entity.CreatedAt key;
           entity.UpdatedAt := clock w;
           entity.ExpiredAt := entity.ExpiredAt key |} in
      (Ok (row, (tx ++ [row])%list), w).

Definition has_ID (id : string) (t : entity.Transaction) : bool :=
  String.eqb (entity.ID t) id.

(** [transactionRepository.GetTransactionByID]:
    [tx.First(&transaction, "id = ?", id)] *)
Definition GetTransactionByID (tx : gorm.Tx) (id : string) : M entity.Transaction :=
  fun w =>
    let d := gorm.view w tx in
    if negb (postgres_up d) then (Err (Errorf "connection refused"), w)
    else
      match List.find (has_ID id) (transactions d) with
      | Some t => (Ok t, w)
      | None => (Err ErrRecordNotFound, w)
      end.

End repository_more.

Module service_more.

Local Open Scope go_scope.

(** [idempotencyCacheService.GetIdempotencyCacheByKey]: the repository call
    on the global handle, which has no pending writes. *)
Definition GetIdempotencyCacheByKey (key : string) : M entity.IdempotencyCache :=
  db <- service.GetPostgres ;;
  if negb db then fail (Errorf "database connection is nil")
  else repository.GetIdempotencyCacheByKey [] key.

(** [transactionService.GetTransactionByID] *)
Definition GetTransactionByID (id : string) : M entity.Transaction :=
  db <- service.GetPostgres ;;
  if negb db then fail (Errorf "database connection is nil")
  else repository_more.GetTransactionByID [] id.

Definition with_payload (r : entity.IdempotencyCache) (payload : string) (now : Z)
  : entity.IdempotencyCache :=
  {| entity.Key := entity.Key r;
     entity.BodyHash := entity.BodyHash r;
     entity.ResponsePayload := payload;
     entity.CreatedAt := entity.CreatedAt r;
     entity.UpdatedAt := now;
     entity.ExpiredAt := entity.ExpiredAt r |}.

Section WithMarshal.

Variable json_Marshal : entity.Transaction -> result string.

(** [idempotencyCacheService.UpdateIdempotencyCache]. The record is read
    through the global handle ([db], not [tx]) inside the callback. *)
Definition UpdateIdempotencyCache (key : string) (responsePayload : entity.Transaction)
  : M entity.IdempotencyCache :=
  db <- service.GetPostgres ;;
  if negb db then fail (Errorf "database connection is nil")
  else
    match json_Marshal responsePayload with
    | Err err => fail (Wrapf "failed to marshal response payload" err)
    | Ok respStr =>
        gorm_save.Transaction (fun tx =>
          existingIdem <- repository.GetIdempotencyCacheByKey [] key ;;
          if String.eqb (entity.Key existingIdem) ""
          then fail (Errorf ("idempotency key " ++ key ++ " does not exist"))
          else
            now <- gets clock ;;
            let existingIdem := with_payload existingIdem respStr now in
            updated <- repository_more.UpdateIdempotencyCache tx existingIdem ;;
            let '(updatedIdemData, tx1) := updated in
            let ttl := service.ttl_hour * time.Hour in
            idemPrefix <- gets (fun w => os.Getenv w "IDEMPOTENCY_PREFIX") ;;
            let redisKey := idemPrefix ++ key in
            set <- service.catch (redis_util.SetJSON redisKey updatedIdemData ttl) ;;
            match set with
            | Err err => fail (Wrapf "failed to update idempotency key in Redis" err)
            | Ok _ => ret (updatedIdemData, tx1)
            end)
    end.

End WithMarshal.

End service_more.

(** ** internal/handler: reading a transaction back *)

Module handler_more.

(** [TransactionHandler.GetTransactionByID]; [id] is [c.Param("id")]. The
    route has no middleware in front of it. *)
Definition GetTransactionByID (id : string) (w : World)
  : httputil.HttpResponse * World :=
  if String.eqb id ""
  then (httputil.BadRequest "Invalid ID" "ID cannot be empty", w)
  else
    match service_more.GetTransactionByID id w with
    | (Err err, w') =>
        if errors_Is err ErrRecordNotFound
        then (httputil.NotFound "Transaction not found"
                "No transaction found with the given ID", w')
        else (httputil.InternalServerError "Failed to retrieve transaction"
                (error_message err), w')
    | (Ok transaction, w') =>
        (httputil.Success "Transaction retrieved successfully"
           (httputil.TransactionData transaction), w')
    end.

End handler_more.

(** ** config/cache: the process-wide Redis client *)

Module cache.

(** The options [redis.NewClient] is given. *)
Record Client : Type := {
  Addr : string;
  Username : string;
  Password : string;
  DB : Z
}.

(** The package variables, and the keys the server holds. [once] is
    whether the [sync.Once] has already run its function. *)
Record State : Type := {
  once : bool;
  RedisClient : option Client;
  RedisDB : string;
  RedisHost : string;
  RedisPort : string;
  RedisUser : string;
  RedisPass : string;
  IsFlushDB : string;
  keys : gmap string RedisEntry
}.

(** What the package does not decide: the environment, what the server
    answers to PING and FLUSHDB, and whether the logger's [Panic] and
    [Fatal] return to their caller (the logger is not part of this
    development; its other levels only write a line, as does a failure to
    close the connection). *)
Record Outside : Type := {
  getenv : string -> string;
  ping : option error;
  flush : option error;
  Panic_returns : bool;
  Fatal_returns : bool
}.

(** A call returns a value, or does not return (panic, exit). *)
Inductive outcome (A : Type) : Type :=
| Returns (a : A) (s : State)
| Stops (s : State).
Arguments Returns {A} a s.
Arguments Stops {A} s.

Definition set_once (b : bool) (s : State) : State :=
  {| once := b; RedisClient := RedisClient s; RedisDB := RedisDB s;
     RedisHost := RedisHost s; RedisPort := RedisPort s; RedisUser := RedisUser s;
     RedisPass := RedisPass s; IsFlushDB := IsFlushDB s; keys := keys s |}.

Definition set_RedisClient (c : option Client) (s : State) : State :=
  {| once := once s; RedisClient := c; RedisDB := RedisDB s;
     RedisHost := RedisHost s; RedisPort := RedisPort s; RedisUser := RedisUser s;
     RedisPass := RedisPass s; IsFlushDB := IsFlushDB s; keys := keys s |}.

Definition set_keys (k : gmap string RedisEntry) (s : State) : State :=
  {| once := once s; RedisClient := RedisClient s; RedisDB := RedisDB s;
     RedisHost := RedisHost s; RedisPort := RedisPort s; RedisUser := RedisUser s;
     RedisPass := RedisPass s; IsFlushDB := IsFlushDB s; keys := k |}.

Section WithOutside.

Variable o : Outside.

(** [LoadRedisEnv] *)
Definition LoadRedisEnv (s : State) : outcome bool :=
  let s :=
    {| once := once s; RedisClient := RedisClient s;
       RedisDB := getenv o "REDIS_DB";
       RedisHost := getenv o "REDIS_HOST";
       RedisPort := getenv o "REDIS_PORT";
       RedisUser := getenv o "REDIS_USER";
       RedisPass := getenv o "REDIS_PASS";
       IsFlushDB := getenv o "REDIS_FLUSH_DB";
       keys := keys s |} in
  if String.eqb (RedisDB s) "" || String.eqb (RedisHost s) ""
     || String.eqb (RedisPort s) ""
  then if Panic_returns o then Returns false s else Stops s
  else Returns true s.

(** The function [InitRedis] hands to [once.Do]; its result is the
    [isSuccess] it leaves. *)
Definition connect (s : State) : outcome bool :=
  match LoadRedisEnv s with
  | Stops s => Stops s
  | Returns false s => Returns false s
  | Returns true s =>
      let redisDb := match strconv.Atoi (RedisDB s) with Ok n => n | Err _ => 0 end in
      let s := set_RedisClient
                 (Some {| Addr := RedisHost s ++ ":" ++ RedisPort s;
                          Username := RedisUser s;
                          Password := RedisPass s;
                          DB := redisDb |}) s in
      match ping o with
      | Some _ => if Fatal_returns o then Returns false s else Stops s
      | None =>
          if String.eqb (IsFlushDB s) "TRUE"
          then
            match flush o with
            | Some _ => Returns false s
            | None => Returns true (set_keys ∅ s)
            end
          else Returns true s
      end
  end.

(** [InitRedis]: [once.Do] runs the function the first time only, and has
    run it even when the function did not return. *)
Definition InitRedis (s : State) : outcome bool :=
  if once s then Returns true s
  else
    match connect s with
    | Returns isSuccess s => Returns isSuccess (set_once true s)
    | Stops s => Stops (set_once true s)
    end.

(** [GetRedisClient] *)
Definition GetRedisClient (s : State) : outcome (option Client) :=
  match RedisClient s with
  | None =>
      match InitRedis s with
      | Stops s => Stops s
      | Returns false s => Returns None s
      | Returns true s => Returns (RedisClient s) s
      end
  | Some c => Returns (Some c) s
  end.

(** [CloseRedis] *)
Definition CloseRedis (s : State) : State :=
  match RedisClient s with
  | Some _ => set_RedisClient None s
  | None => set_RedisClient None (set_once false s)
  end.

End WithOutside.

End cache.

(** ** More of the concrete deployment *)

Module sample_more.

(** The first request under [K1] and the world it finds. *)
Definition first : routes.Incoming := sample.incoming "POST" sample.K1 sample.body1.
Definition start : World :=
  sample.deployed (sample.redis true ∅) (sample.database []).

(** The entity the first request creates. *)
Definition created_transaction : entity.Transaction :=
  Eval vm_compute in
    match fst (service.CreateTransaction sample.marshal (Some sample.meta)
                 sample.transaction start) with
    | Ok t => t
    | Err _ => entity.zeroTransaction
    end.

(** What [sample.marshal] wrote for it, unmarshalled. *)
Definition stored : json.value :=
  Eval vm_compute in
    match sample.marshal created_transaction with
    | Ok s => match json.Unmarshal s with Ok v => v | Err _ => json.Null end
    | Err _ => json.Null
    end.

(** The world with no consumer in the table. *)
Definition no_consumer : World :=
  sample.deployed (sample.redis true ∅)
    {| postgres_handle := true; postgres_up := true; consumers := [];
       transactions := []; idempotency_cache := [] |}.

(** The request as the handler gets it from the middleware. *)
Definition passed : gin.Request :=
  gin.WithContext (sample.request "POST" sample.K1 sample.body1) (Some sample.meta).

(** The record of [K1] after an update at [sample.now]. *)
Definition updated : entity.IdempotencyCache :=
  Eval vm_compute in
    match fst (service_more.UpdateIdempotencyCache sample.marshal sample.K1
                 sample.transaction (sample.cached_world sample.payload1)) with
    | Ok r => r
    | Err _ => entity.zeroIdempotencyCache
    end.

(** A process environment for the Redis client, a server that answers
    PING, and a logger whose [Panic] returns. *)
Definition outside (db flush_db : string) (flush : option error) : cache.Outside :=
  {| cache.getenv := fun name =>
       if String.eqb name "REDIS_DB" then db
       else if String.eqb name "REDIS_HOST" then "localhost"
       else if String.eqb name "REDIS_PORT" then "6379"
       else if String.eqb name "REDIS_FLUSH_DB" then flush_db
       else "";
     cache.ping := None;
     cache.flush := flush;
     cache.Panic_returns := true;
     cache.Fatal_returns := false |}.

(** The package variables when the process starts, with [K1] on the
    server. *)
Definition fresh : cache.State :=
  {| cache.once := false; cache.RedisClient := None; cache.RedisDB := "";
     cache.RedisHost := ""; cache.RedisPort := ""; cache.RedisUser := "";
     cache.RedisPass := ""; cache.IsFlushDB := "";
     cache.keys := sample.cached sample.payload1 |}.

(** The state after a first [GetRedisClient]. *)
Definition connected : cache.State :=
  match cache.GetRedisClient (outside "0" "FALSE" None) fresh with
  | cache.Returns _ s => s
  | cache.Stops s => s
  end.

End sample_more.

(** * Properties *)

(** ** What the statements below speak about *)

(** The three variables [Enforce] reads are all set. *)
Definition config_set (w : World) : Prop :=
  String.eqb (os.Getenv w "IDEMPOTENCY_ENABLED") "" = false
  /\ String.eqb (os.Getenv w "IDEMPOTENCY_KEY_HEADER") "" = false
  /\ String.eqb (os.Getenv w "IDEMPOTENCY_PREFIX") "" = false.

(** The enforcement flag is set to [TRUE]. *)
Definition flag_TRUE (w : World) : Prop :=
  os.Getenv w "IDEMPOTENCY_ENABLED" = "TRUE".

(** POST, PUT or DELETE. *)
Definition mutating (method : string) : bool :=
  String.eqb method "POST" || String.eqb method "PUT" || String.eqb method "DELETE".

(** The idempotency key a request declares. *)
Definition declared_key (w : World) (c : gin.Request) : string :=
  gin.GetHeader c (os.Getenv w "IDEMPOTENCY_KEY_HEADER").

(** The request gets as far as the lookup: [Enforce] queries the fast cache
    for [redisKey], holding [bodyHash] as the hash of the raw body. *)
Definition looks_up (w : World) (c : gin.Request) (redisKey bodyHash : string)
  : Prop :=
  config_set w
  /\ flag_TRUE w
  /\ mutating (gin.Method c) = true
  /\ String.eqb (declared_key w c) "" = false
  /\ (exists body, gin.Body c = Ok body
                   /\ hash_util.Hash256Bytes body = Ok bodyHash)
  /\ redisKey = os.Getenv w "IDEMPOTENCY_PREFIX" ++ declared_key w c.

(** The prefixed key under which a record is cached. *)
Definition cache_key (w : World) (key : string) : string :=
  os.Getenv w "IDEMPOTENCY_PREFIX" ++ key.

(** The fast cache cannot take a write: no client, or the server is down. *)
Definition cache_unavailable (w : World) : Prop :=
  redis_client (Redis w) = false \/ redis_up (Redis w) = false.

(** Every step of the record phase in front of the cache write succeeds:
    the handle and the server are there, the context carries the metadata,
    the response marshals, the TTL parses and the key is not yet recorded. *)
Definition reaches_cache_write (marshal : entity.Transaction -> result string)
    (ctx : metacontext.Context) (p : entity.Transaction) (w : World) : Prop :=
  postgres_handle (Postgres w) = true
  /\ postgres_up (Postgres w) = true
  /\ is_Ok (marshal p) = true
  /\ is_Ok (strconv.Atoi (os.Getenv w "IDEMPOTENCY_TTL_HOURS")) = true
  /\ exists meta, ctx = Some meta
       /\ List.find (repository.has_key (metacontext.Key meta))
            (idempotency_cache (Postgres w)) = None.

(** The record phase gets as far as the re-check of the durable record. *)
Definition reaches_recheck (marshal : entity.Transaction -> result string)
    (p : entity.Transaction) (w : World) : Prop :=
  postgres_handle (Postgres w) = true
  /\ postgres_up (Postgres w) = true
  /\ is_Ok (marshal p) = true
  /\ is_Ok (strconv.Atoi (os.Getenv w "IDEMPOTENCY_TTL_HOURS")) = true.

(** The stores of two worlds agree. *)
Definition same_stores (w w' : World) : Prop :=
  Postgres w' = Postgres w /\ Redis w' = Redis w /\ environ w' = environ w
  /\ clock w' = clock w.

(** The entry the record phase writes to Redis when the server executes
    the write at [instant] of its clock. *)
Definition cached_entry (instant : Z) (r : entity.IdempotencyCache) : RedisEntry :=
  {| blob := JSONOf r; expireAt := Some (instant + service.ttl_hour * time.Hour) |}.

(** Every record in the cache holds a payload [marshal] wrote. *)
Definition marshalled_payloads (marshal : entity.Transaction -> result string)
    (w : World) : Prop :=
  forall key e r,
    keyspace (Redis w) !! key = Some e -> blob e = JSONOf r ->
    exists t, marshal t = Ok (entity.ResponsePayload r).

Section ProgramWritten.

Variable ShouldBindJSON : list byte -> result entity.Transaction.
Variable json_Marshal : entity.Transaction -> result string.

(** The worlds whose cache holds nothing but what this program wrote. The
    program writes to the cache in the record phase of the transaction
    route and in [UpdateIdempotencyCache], nowhere else; anything else that
    happens to the world (the clocks, the environment, the tables, the
    servers going down or up, keys expiring, being evicted or flushed) adds
    no entry to the cache. *)
Inductive written_by_program : World -> Prop :=
| cache_empty (w : World) :
    keyspace (Redis w) = ∅ -> written_by_program w
| after_request (w : World) (r : routes.Incoming) :
    written_by_program w ->
    written_by_program
      (snd (routes.serve (handler.CreateTransaction ShouldBindJSON json_Marshal) r w))
| after_update (w : World) (key : string) (p : entity.Transaction) :
    written_by_program w ->
    written_by_program (snd (service_more.UpdateIdempotencyCache json_Marshal key p w))
| after_anything_else (w w' : World) :
    written_by_program w ->
    keyspace (Redis w') ⊆ keyspace (Redis w) ->
    written_by_program w'.

End ProgramWritten.

(** ** What the further properties speak about *)

(** The row [repository.CreateTransaction] inserts for [t] in [w]. *)
Definition inserted_transaction (w : World) (t : entity.Transaction) (key : string)
  : entity.Transaction :=
  {| entity.ID := if String.eqb (entity.ID t) ""
                  then uuid_source w (uuid_calls w) else entity.ID t;
     entity.IdempotencyCacheKey := key;
     entity.Type_ := entity.Type_ t;
     entity.Amount := entity.Amount t;
     entity.Status := entity.TransactionStatusPending;
     entity.ConsumerID := entity.ConsumerID t;
     entity.TxCreatedAt :=
       match entity.TxCreatedAt t with Some c => Some c | None => Some (clock w) end;
     entity.TxUpdatedAt :=
       match entity.TxUpdatedAt t with Some c => Some c | None => Some (clock w) end |}.

(** The id or the idempotency key of [t] is already taken by [r]. *)
Definition clashes (t r : entity.Transaction) : bool :=
  String.eqb (entity.ID r) (entity.ID t)
  || String.eqb (entity.IdempotencyCacheKey r) (entity.IdempotencyCacheKey t).

(** Every transaction has its idempotency record, and every record its
    transaction. *)
Definition tables_in_step (d : Database) : Prop :=
  forall key,
    List.In key (List.map entity.IdempotencyCacheKey (transactions d))
    <-> List.In key (List.map entity.Key (idempotency_cache d)).

(** Every entry of the fast cache under a prefixed key is a record of the
    durable table with that key. *)
Definition cache_mirrors_table (w : World) : Prop :=
  forall key e,
    keyspace (Redis w) !! cache_key w key = Some e ->
    exists r, blob e = JSONOf r /\ entity.Key r = key
              /\ List.In r (idempotency_cache (Postgres w)).

(** The metadata the middleware injects for a request. *)
Definition injected (w : World) (c : gin.Request) (bodyHash : string)
  : metacontext.IdemCompetencyMeta :=
  {| metacontext.Key := declared_key w c;
     metacontext.BodyHash := bodyHash;
     metacontext.ResponsePayload := "";
     metacontext.StatusCode := 0 |}.

(** The world at a later reading [t] of the cache server's clock. *)
Definition with_server_clock (w : World) (t : Z) : World :=
  with_Redis w {| redis_client := redis_client (Redis w);
                  redis_up := redis_up (Redis w);
                  server_clock := t;
                  keyspace := keyspace (Redis w) |}.

(** The required variables of [LoadRedisEnv] are all set. *)
Definition redis_env_set (o : cache.Outside) : Prop :=
  String.eqb (cache.getenv o "REDIS_DB") "" = false
  /\ String.eqb (cache.getenv o "REDIS_HOST") "" = false
  /\ String.eqb (cache.getenv o "REDIS_PORT") "" = false.

(** The client [InitRedis] builds from the environment. *)
Definition client_of_env (o : cache.Outside) : cache.Client :=
  {| cache.Addr := cache.getenv o "REDIS_HOST" ++ ":" ++ cache.getenv o "REDIS_PORT";
     cache.Username := cache.getenv o "REDIS_USER";
     cache.Password := cache.getenv o "REDIS_PASS";
     cache.DB := match strconv.Atoi (cache.getenv o "REDIS_DB") with
                 | Ok n => n
                 | Err _ => 0
                 end |}.

(** ** The fingerprint hasher *)

Lemma length_be_bytes32 (w : Z) : List.length (hash_util.be_bytes32 w) = 4%nat.
Proof. reflexivity. Qed.

Lemma length_Sum256 (b : list byte) : List.length (hash_util.Sum256 b) = 32%nat.
Proof.
  unfold hash_util.Sum256. cbv zeta.
  rewrite !List.length_app, !length_be_bytes32. reflexivity.
Qed.

Lemma length_EncodeToString (src : list byte) :
  String.length (hash_util.EncodeToString src) = (2 * List.length src)%nat.
Proof.
  induction src as [|v rest IH]; [reflexivity|].
  cbn [hash_util.EncodeToString String.length List.length].
  rewrite IH. lia.
Qed.

Lemma hex_digit_high (v : byte) :
  hash_util.is_hex_digit (hash_util.hex_digit (Z.shiftr (hash_util.byte_to_Z v) 4)) = true.
Proof. destruct v; vm_compute; reflexivity. Qed.

Lemma hex_digit_low (v : byte) :
  hash_util.is_hex_digit (hash_util.hex_digit (Z.land (hash_util.byte_to_Z v) 15)) = true.
Proof. destruct v; vm_compute; reflexivity. Qed.

Lemma EncodeToString_hex (src : list byte) :
  List.forallb hash_util.is_hex_digit
    (list_ascii_of_string (hash_util.EncodeToString src)) = true.
Proof.
  induction src as [|v rest IH]; [reflexivity|].
  cbn [hash_util.EncodeToString list_ascii_of_string List.forallb].
  rewrite hex_digit_high, hex_digit_low, IH. reflexivity.
Qed.

Lemma Hash256Bytes_nonempty (b : list byte) :
  b <> [] -> hash_util.Hash256Bytes b = Ok (hash_util.EncodeToString (hash_util.Sum256 b)).
Proof.
  intros Hb. unfold hash_util.Hash256Bytes.
  destruct b as [|x b']; [congruence|]. reflexivity.
Qed.

(** C9. The fingerprint hasher is a function of the bytes alone: equal byte
    sequences hash to equal results; every non-empty sequence gets a digest of
    exactly 64 lower-case hexadecimal characters (the hex form of the 32
    SHA-256 bytes); the empty sequence gets an error and no digest. *)
Theorem C9_hasher_deterministic_fixed_length_rejects_empty :
  (forall b b' : list byte,
      b = b' -> hash_util.Hash256Bytes b = hash_util.Hash256Bytes b')
  /\ (forall b : list byte,
        b <> [] ->
        exists d, hash_util.Hash256Bytes b = Ok d
                  /\ d = hash_util.EncodeToString (hash_util.Sum256 b)
                  /\ String.length d = 64%nat
                  /\ List.forallb hash_util.is_hex_digit (list_ascii_of_string d) = true)
  /\ hash_util.Hash256Bytes [] = Err (Errorf "input byte slice cannot be empty")
  /\ (forall d, hash_util.Hash256Bytes [] <> Ok d).
Proof.
  split; [intros b b' ->; reflexivity|].
  split.
  - intros b Hb. eexists. split; [apply Hash256Bytes_nonempty; exact Hb|].
    split; [reflexivity|]. split.
    + rewrite length_EncodeToString, length_Sum256. reflexivity.
    + apply EncodeToString_hex.
  - split; [reflexivity|]. intros d. cbn. discriminate.
Qed.

(** ** The middleware *)

Lemma not_mutating_guard (m : string) :
  negb (String.eqb m "POST") && negb (String.eqb m "PUT")
  && negb (String.eqb m "DELETE") = negb (mutating m).
Proof.
  unfold mutating.
  destruct (String.eqb m "POST"), (String.eqb m "PUT"), (String.eqb m "DELETE");
    reflexivity.
Qed.

(** After [c.Abort()] the handler does not run: the chain answers with the
    middleware's response and the world is the one the request found. *)
Lemma run_Abort (w : World) (c : gin.Request) (resp : httputil.HttpResponse) :
  idempotency.Enforce w c = gin.Abort resp ->
  forall h, routes.run h c w = (resp, w).
Proof. intros H h. unfold routes.run. rewrite H. reflexivity. Qed.

Lemma run_Next (w : World) (c c' : gin.Request) :
  idempotency.Enforce w c = gin.Next c' ->
  forall h, routes.run h c w = h c' w.
Proof. intros H h. unfold routes.run. rewrite H. reflexivity. Qed.

(** The checks of [Enforce] in front of the lookup, for a request that
    passes them all. *)
Ltac enforce_to_lookup H body :=
  let Hen := fresh "Hen" in
  let Hhd := fresh "Hhd" in
  let Hpx := fresh "Hpx" in
  let Hflag := fresh "Hflag" in
  let Hm := fresh "Hm" in
  let Hk := fresh "Hk" in
  let Hbody := fresh "Hbody" in
  let Hhash := fresh "Hhash" in
  destruct H as ((Hen & Hhd & Hpx) & Hflag & Hm & Hk & (body & Hbody & Hhash) & ->);
  unfold flag_TRUE in Hflag; unfold declared_key in *;
  unfold idempotency.Enforce; cbv zeta;
  rewrite not_mutating_guard, Hm, Hhd, Hpx, Hflag; cbn [String.eqb Ascii.eqb Bool.eqb orb negb];
  rewrite Hk; unfold gin.GetRawData; rewrite Hbody, Hhash.

(** C10. Whatever the request and the rest of the world, if any of
    IDEMPOTENCY_ENABLED, IDEMPOTENCY_KEY_HEADER or IDEMPOTENCY_PREFIX is
    empty, the middleware aborts with the 500 response and the handler does
    not run. This holds before every other rule, the disabled short-circuit
    included: nothing is assumed about the flag beyond the hypothesis, so an
    unset flag does not disable enforcement, it fails the request. *)
Theorem C10_empty_config_aborts_with_500 (w : World) (c : gin.Request) :
  os.Getenv w "IDEMPOTENCY_ENABLED" = ""
  \/ os.Getenv w "IDEMPOTENCY_KEY_HEADER" = ""
  \/ os.Getenv w "IDEMPOTENCY_PREFIX" = "" ->
  let resp :=
    httputil.InternalServerError "Internal Server Error"
      "Idempotency enabled, key header, or prefix environment variables are not set" in
  idempotency.Enforce w c = gin.Abort resp
  /\ httputil.Status resp = 500
  /\ forall h, routes.run h c w = (resp, w).
Proof.
  intros H resp.
  assert (E : idempotency.Enforce w c = gin.Abort resp).
  { unfold idempotency.Enforce. cbv zeta.
    destruct H as [H | [H | H]]; rewrite H; cbn [String.eqb orb];
      rewrite ?orb_true_r; reflexivity. }
  split; [exact E|]. split; [reflexivity|]. apply run_Abort. exact E.
Qed.

(** C7, as amended. With the three variables set and the flag TRUE, the
    rules apply in order: a method other than POST, PUT and DELETE gets the
    405 response; otherwise an absent or empty key header gets the 400
    response. In both cases the handler does not run and the world is left
    as it was, so no record is created. *)
Theorem C7_method_then_key_rules (w : World) (c : gin.Request) :
  config_set w ->
  flag_TRUE w ->
  (mutating (gin.Method c) = false ->
   let resp :=
     httputil.MethodNotAllowed "Method Not Allowed"
       "Idempotency middleware only supports POST, PUT, or DELETE methods" in
   idempotency.Enforce w c = gin.Abort resp
   /\ httputil.Status resp = 405
   /\ forall h, routes.run h c w = (resp, w))
  /\ (mutating (gin.Method c) = true ->
      declared_key w c = "" ->
      let resp :=
        httputil.BadRequest "Bad Request"
          ("Idempotency key header '" ++ os.Getenv w "IDEMPOTENCY_KEY_HEADER"
           ++ "' is required") in
      idempotency.Enforce w c = gin.Abort resp
      /\ httputil.Status resp = 400
      /\ forall h, routes.run h c w = (resp, w)).
Proof.
  intros (Hen & Hhd & Hpx) Hflag. unfold flag_TRUE in Hflag.
  split.
  - intros Hm resp.
    assert (E : idempotency.Enforce w c = gin.Abort resp).
    { unfold idempotency.Enforce. cbv zeta.
      rewrite not_mutating_guard, Hm, Hhd, Hpx, Hflag. reflexivity. }
    split; [exact E|]. split; [reflexivity|]. apply run_Abort. exact E.
  - intros Hm Hk resp. unfold declared_key in Hk.
    assert (E : idempotency.Enforce w c = gin.Abort resp).
    { unfold idempotency.Enforce. cbv zeta.
      rewrite not_mutating_guard, Hm, Hhd, Hpx, Hflag.
      cbn [String.eqb Ascii.eqb Bool.eqb orb negb]. rewrite Hk. reflexivity. }
    split; [exact E|]. split; [reflexivity|]. apply run_Abort. exact E.
Qed.

(** C2. A request that gets as far as the lookup and whose key is found in
    the fast cache with another body hash gets the 409 response; the handler
    does not run and the world (the cached record, the durable record and
    the business entity with it) is left as it was. *)
Theorem C2_hit_with_other_hash_conflicts
    (w : World) (c : gin.Request) (redisKey bodyHash : string)
    (cachedData : entity.IdempotencyCache) :
  looks_up w c redisKey bodyHash ->
  redis_util.GetJSON w redisKey = (Some cachedData, None) ->
  String.eqb (entity.BodyHash cachedData) bodyHash = false ->
  let resp :=
    httputil.Conflict "Conflict"
      "Request with the same Idempotency-Key but different body has already been processed" in
  idempotency.Enforce w c = gin.Abort resp
  /\ httputil.Status resp = 409
  /\ forall h, routes.run h c w = (resp, w).
Proof.
  intros H Hget Hne resp.
  assert (E : idempotency.Enforce w c = gin.Abort resp).
  { enforce_to_lookup H body. rewrite Hget. cbn [idempotency.not_nil andb].
    rewrite Hne. reflexivity. }
  split; [exact E|]. split; [reflexivity|]. apply run_Abort. exact E.
Qed.

(** C8. In the lookup, an error of the fast cache other than the key miss
    ([redis.Nil]) is fatal: the request gets the 500 response carrying the
    error, the handler does not run, and nothing further (no durable lookup,
    no write) happens: the world is left as it was. *)
Theorem C8_cache_error_in_lookup_is_fatal
    (w : World) (c : gin.Request) (redisKey bodyHash : string)
    (cachedData : option entity.IdempotencyCache) (e : error) :
  looks_up w c redisKey bodyHash ->
  redis_util.GetJSON w redisKey = (cachedData, Some e) ->
  e <> RedisNil ->
  let resp :=
    httputil.InternalServerError "Internal Server Error" (error_message e) in
  idempotency.Enforce w c = gin.Abort resp
  /\ httputil.Status resp = 500
  /\ forall h, routes.run h c w = (resp, w).
Proof.
  intros H Hget Hne resp.
  assert (E : idempotency.Enforce w c = gin.Abort resp).
  { enforce_to_lookup H body. rewrite Hget.
    destruct e; try congruence; reflexivity. }
  split; [exact E|]. split; [reflexivity|]. apply run_Abort. exact E.
Qed.

(** A store-level outage is such an error: with no client or with the
    server down, [GetJSON] returns an error that is not the key miss. *)
Lemma GetJSON_outage (w : World) (key : string) :
  cache_unavailable w ->
  exists e, redis_util.GetJSON w key = (None, Some e) /\ e <> RedisNil.
Proof.
  intros [H | H]; unfold redis_util.GetJSON, redis_util.client_Get.
  - rewrite H. eexists; split; [reflexivity | discriminate].
  - destruct (redis_client (Redis w)); cbn [negb]; rewrite ?H;
      eexists; (split; [reflexivity | discriminate]).
Qed.

(** With no client or with the server down, the lookup fails the request. *)
Lemma Enforce_outage_is_fatal
    (w : World) (c : gin.Request) (redisKey bodyHash : string) :
  looks_up w c redisKey bodyHash ->
  cache_unavailable w ->
  exists msg,
    idempotency.Enforce w c
    = gin.Abort (httputil.InternalServerError "Internal Server Error" msg).
Proof.
  intros H Hout.
  destruct (GetJSON_outage w redisKey Hout) as (e & Hget & Hne).
  exists (error_message e).
  enforce_to_lookup H body. rewrite Hget.
  destruct e; try congruence; reflexivity.
Qed.

(** A miss: the key is not in the fast cache, the request goes on to the
    handler with its body restored and the metadata in its context. *)
Lemma Enforce_miss_proceeds
    (w : World) (c : gin.Request) (redisKey bodyHash : string) (body : list byte) :
  looks_up w c redisKey bodyHash ->
  gin.Body c = Ok body ->
  redis_util.GetJSON w redisKey = (None, Some RedisNil) ->
  idempotency.Enforce w c
  = gin.Next (gin.WithContext (gin.with_Body c body)
                (Some {| metacontext.Key := declared_key w c;
                         metacontext.BodyHash := bodyHash;
                         metacontext.ResponsePayload := "";
                         metacontext.StatusCode := 0 |})).
Proof.
  intros H Hb Hget.
  enforce_to_lookup H body'. rewrite Hget.
  assert (body' = body) by congruence. subst body'. reflexivity.
Qed.

(** The record [GetJSON] finds is in the cache. *)
Lemma GetJSON_found (w : World) (key : string) (r : entity.IdempotencyCache) :
  redis_util.GetJSON w key = (Some r, None) ->
  exists e, keyspace (Redis w) !! key = Some e /\ blob e = JSONOf r.
Proof.
  unfold redis_util.GetJSON, redis_util.client_Get.
  destruct (negb (redis_client (Redis w))); [discriminate|].
  destruct (negb (redis_up (Redis w))); [discriminate|].
  destruct (keyspace (Redis w) !! key) as [e|]; [|discriminate].
  destruct (redis_util.expired _ e); [discriminate|].
  destruct (blob e) as [r0|bytes] eqn:Hb; [|discriminate].
  intros [= <-]. eauto.
Qed.

(** What [Enforce] answers on a hit with the hash of the body, whatever
    the record holds: the handler is never reached. *)
Lemma Enforce_hit_with_same_hash
    (w : World) (c : gin.Request) (redisKey bodyHash : string)
    (cachedData : entity.IdempotencyCache) :
  looks_up w c redisKey bodyHash ->
  redis_util.GetJSON w redisKey = (Some cachedData, None) ->
  entity.BodyHash cachedData = bodyHash ->
  idempotency.Enforce w c
  = if negb (String.eqb (entity.ResponsePayload cachedData) "")
    then match json.Unmarshal (entity.ResponsePayload cachedData) with
         | Err _ => gin.Abort (httputil.InternalServerError
                      "Internal Server Error"
                      "Failed to unmarshal cached response payload")
         | Ok v => gin.Abort (httputil.Success "Request already processed"
                                (httputil.any_of_json v))
         end
    else gin.Abort (httputil.Success "Request already processed" httputil.Nil).
Proof.
  intros H Hget Heq.
  enforce_to_lookup H body. rewrite Hget. cbn [idempotency.not_nil andb].
  rewrite Heq, String.eqb_refl. reflexivity.
Qed.

Lemma Unmarshal_empty : json.Unmarshal "" = Err (Errorf "invalid JSON input").
Proof. reflexivity. Qed.

(** ** The record phase *)

(** Case analysis on the next test of a hypothesis about the result of a
    service call. *)
Ltac break_hyp H :=
  match type of H with
  | context [match ?x with _ => _ end] =>
      lazymatch x with
      | context [match _ with _ => _ end] => fail
      | _ => destruct x eqn:?
      end
  | context [if ?x then _ else _] =>
      lazymatch x with
      | context [if _ then _ else _] => fail
      | context [match _ with _ => _ end] => fail
      | _ => destruct x eqn:?
      end
  end.

(** The service calls of a hypothesis, laid open down to the statements. *)
Ltac unfold_service H :=
  cbv beta delta [service.CreateIdempotencyCache service.CreateTransaction
    bind gets ret fail service.GetPostgres service.GetConsumerByID
    service.catch service.value_or gorm.Transaction
    repository.GetIdempotencyCacheByKey repository.CreateTransaction
    repository.CreateIdempotencyCache redis_util.SetJSON redis_util.client_Set
    metacontext.ExtractIdemCompetencyMeta] in H.

Lemma existsb_false_find {A} (f : A -> bool) (l : list A) :
  existsb f l = false -> List.find f l = None.
Proof.
  induction l as [|x l IH]; cbn; [reflexivity|].
  destruct (f x); cbn; [discriminate | exact IH].
Qed.

Lemma find_None_existsb {A} (f : A -> bool) (l : list A) :
  List.find f l = None -> existsb f l = false.
Proof.
  induction l as [|x l IH]; cbn; [reflexivity|].
  destruct (f x); cbn; [discriminate | exact IH].
Qed.

(** What a successful record phase did: it found no record under the key,
    built the record from the metadata, the marshalled response and the
    configured TTL, wrote it to Redis and committed it. *)
Lemma CreateIdempotencyCache_Ok marshal ctx p w created w' :
  service.CreateIdempotencyCache marshal ctx p w = (Ok created, w') ->
  exists meta respStr ttl,
    ctx = Some meta
    /\ marshal p = Ok respStr
    /\ strconv.Atoi (os.Getenv w "IDEMPOTENCY_TTL_HOURS") = Ok ttl
    /\ created =
         {| entity.Key := metacontext.Key meta;
            entity.BodyHash := metacontext.BodyHash meta;
            entity.ResponsePayload := respStr;
            entity.CreatedAt := clock w;
            entity.UpdatedAt := clock w;
            entity.ExpiredAt := time.Add (clock w) (time.Hours ttl) |}
    /\ List.find (repository.has_key (metacontext.Key meta))
         (idempotency_cache (Postgres w)) = None
    /\ redis_client (Redis w) = true /\ redis_up (Redis w) = true
    /\ postgres_handle (Postgres w) = true /\ postgres_up (Postgres w) = true
    /\ w' = with_Postgres
              (with_Redis w
                 {| redis_client := redis_client (Redis w);
                    redis_up := redis_up (Redis w);
                    server_clock := server_clock (Redis w);
                    keyspace := <[cache_key w (metacontext.Key meta)
                                   := cached_entry (server_clock (Redis w)) created]>
                                  (keyspace (Redis w)) |})
              (gorm.apply_write (Postgres w) (gorm.InsertIdempotencyCache created)).
Proof.
  intros H. unfold_service H.
  repeat (break_hyp H; cbn beta iota zeta in H; simplify_eq).
  all: unfold gorm.view, gorm.commit in *; cbn [fold_left entity.Key] in *.
  all: try match goal with
           | F : existsb _ _ = false, G : List.find _ _ = Some _ |- _ =>
               apply existsb_false_find in F; congruence
           end.
  all: repeat match goal with
              | F : negb _ = false |- _ => apply negb_false_iff in F
              end.
  all: match goal with
       | |- context [time.IsZero (clock ?w0)] =>
           assert (Hc : (if time.IsZero (clock w0) then clock w0 else clock w0)
                        = clock w0)
             by (destruct (time.IsZero (clock w0)); reflexivity)
       end.
  all: unfold cached_entry, cache_key.
  all: cbn [entity.Key entity.BodyHash entity.ResponsePayload entity.CreatedAt
            entity.UpdatedAt entity.ExpiredAt].
  all: rewrite !Hc.
  all: eexists _, _, _.
  all: repeat (split; [first [reflexivity | eassumption]|]).
  all: reflexivity.
Qed.

(** A failed record phase leaves the world as it was. *)
Lemma CreateIdempotencyCache_Err marshal ctx p w e w' :
  service.CreateIdempotencyCache marshal ctx p w = (Err e, w') -> w' = w.
Proof.
  intros H. unfold_service H.
  repeat (break_hyp H; cbn beta iota zeta in H; simplify_eq); reflexivity.
Qed.

Ltac unfold_transaction H :=
  cbv beta delta [service.CreateTransaction
    bind gets ret fail service.GetPostgres service.GetConsumerByID
    gorm.Transaction repository.CreateTransaction
    metacontext.ExtractIdemCompetencyMeta] in H.

(** A failed business transaction leaves the tables and the cache as they
    were. *)
Lemma CreateTransaction_Err marshal ctx t w e w' :
  service.CreateTransaction marshal ctx t w = (Err e, w') -> same_stores w w'.
Proof.
  intros H. unfold_transaction H.
  repeat (break_hyp H; cbn beta iota zeta in H; simplify_eq).
  all: try match goal with
       | H : service.CreateIdempotencyCache _ _ _ _ = (Err _, _) |- _ =>
           apply CreateIdempotencyCache_Err in H; subst
       end.
  all: repeat split; reflexivity.
Qed.

(** A successful business transaction ran a successful record phase on
    the same stores, then committed the entity. *)
Lemma CreateTransaction_Ok marshal ctx t w created w' :
  service.CreateTransaction marshal ctx t w = (Ok created, w') ->
  exists w1 record w2,
    same_stores w w1
    /\ service.CreateIdempotencyCache marshal ctx created w1 = (Ok record, w2)
    /\ w' = with_Postgres w2
              (gorm.apply_write (Postgres w2) (gorm.InsertTransaction created)).
Proof.
  intros H. unfold_transaction H.
  repeat (break_hyp H; cbn beta iota zeta in H; simplify_eq).
  all: eexists _, _, _; (split; [|split; [eassumption | reflexivity]]).
  all: repeat split; reflexivity.
Qed.

(** A cache that cannot take a write fails [SetJSON] and keeps the world. *)
Lemma SetJSON_unavailable (w : World) key value ttl :
  cache_unavailable w ->
  exists e, redis_util.SetJSON key value ttl w = (Err e, w).
Proof.
  intros [H | H]; unfold redis_util.SetJSON, redis_util.client_Set.
  - rewrite H. eexists; reflexivity.
  - destruct (redis_client (Redis w)); cbn [negb]; rewrite ?H; eexists; reflexivity.
Qed.

(** When every step in front of it succeeds, the only error left is the
    one of the cache write. *)
Lemma CreateIdempotencyCache_Err_at_cache_write marshal ctx p w e w' :
  reaches_cache_write marshal ctx p w ->
  service.CreateIdempotencyCache marshal ctx p w = (Err e, w') ->
  exists cause, e = Wrapf "failed to set idempotency key in Redis" cause.
Proof.
  intros (Hh & Hu & Hm & Ha & meta & -> & Hf) H. unfold_service H.
  unfold gorm.view, gorm.commit in H. cbn [fold_left] in H.
  repeat (break_hyp H; cbn beta iota zeta in H; simplify_eq).
  all: try (rewrite ?Hh, ?Hu in *; cbn in *; congruence).
  all: try (eexists; reflexivity).
  match goal with
  | F : List.find _ _ = None |- _ => apply find_None_existsb in F
  end.
  cbn [entity.Key] in *. congruence.
Qed.

(** C3, as amended. The record phase writes the record to the fast cache
    inside the transaction it opened for the durable insert, before that
    transaction commits, and a failure of the write is fatal. When the fast
    cache cannot take the write, [CreateIdempotencyCache] returns an error
    and leaves the world as it was, with no durable record;
    [CreateTransaction] returns an error too, with the tables and the cache
    as they were, so the business entity is rolled back with it; and when
    every step in front of the cache write succeeds, the error is the one
    of the cache write. *)
Theorem C3_cache_write_failure_rolls_back
    (marshal : entity.Transaction -> result string)
    (ctx : metacontext.Context) (t : entity.Transaction) (w : World) :
  cache_unavailable w ->
  (exists e, service.CreateIdempotencyCache marshal ctx t w = (Err e, w))
  /\ (exists e w', service.CreateTransaction marshal ctx t w = (Err e, w')
                    /\ Postgres w' = Postgres w /\ Redis w' = Redis w)
  /\ (reaches_cache_write marshal ctx t w ->
      exists cause,
        service.CreateIdempotencyCache marshal ctx t w
        = (Err (Wrapf "failed to set idempotency key in Redis" cause), w)).
Proof.
  intros Hcache.
  assert (Hidem : forall p w1, Redis w1 = Redis w ->
            exists e, service.CreateIdempotencyCache marshal ctx p w1 = (Err e, w1)).
  { intros p w1 Hr.
    destruct (service.CreateIdempotencyCache marshal ctx p w1) as [[created|e] w'] eqn:E.
    - apply CreateIdempotencyCache_Ok in E
        as (meta & respStr & ttl & _ & _ & _ & _ & _ & Hc & Hu & _).
      rewrite Hr in Hc, Hu. destruct Hcache; congruence.
    - pose proof (CreateIdempotencyCache_Err _ _ _ _ _ _ E). subst. eauto. }
  split; [apply Hidem; reflexivity|]. split.
  - destruct (service.CreateTransaction marshal ctx t w) as [[created|e] w'] eqn:E.
    + apply CreateTransaction_Ok in E as (w1 & record & w2 & (_ & Hr & _) & E & _).
      destruct (Hidem created w1 Hr) as [e He]. congruence.
    + apply CreateTransaction_Err in E as (Hp & Hr & _). eauto.
  - intros Hreach. destruct (Hidem t w eq_refl) as [e He].
    destruct (CreateIdempotencyCache_Err_at_cache_write _ _ _ _ _ _ Hreach He)
      as [cause ->].
    eauto.
Qed.

(** When the re-check is reached and finds the record, the error is the
    one of the re-check. *)
Lemma CreateIdempotencyCache_Err_at_recheck marshal meta p w existing e w' :
  reaches_recheck marshal p w ->
  List.find (repository.has_key (metacontext.Key meta))
    (idempotency_cache (Postgres w)) = Some existing ->
  String.eqb (metacontext.Key meta) "" = false ->
  service.CreateIdempotencyCache marshal (Some meta) p w = (Err e, w') ->
  e = Errorf ("idempotency key " ++ metacontext.Key meta ++ " already exists").
Proof.
  intros (Hh & Hu & Hm & Ha) Hf Hk H. unfold_service H.
  unfold gorm.view, gorm.commit in H. cbn [fold_left] in H.
  assert (Hkey : entity.Key existing = metacontext.Key meta).
  { apply find_some in Hf as [_ Hf]. apply String.eqb_eq. exact Hf. }
  repeat (break_hyp H; cbn beta iota zeta in H; simplify_eq).
  all: try (rewrite ?Hh, ?Hu in *; cbn in *; congruence).
  all: try reflexivity.
  all: cbn [service.value_or] in *; rewrite Hkey, Hk in *; discriminate.
Qed.

(** C4. When a durable record under the key of the request already exists,
    the record phase finds it in its re-check and the whole unit of work
    fails: [CreateTransaction] returns an error and leaves the tables and
    the cache as they were, so neither a new business entity nor a second
    idempotency record is persisted; [CreateIdempotencyCache] itself returns
    an error for every payload; and when the re-check is reached with a key
    that is not empty, that error is "idempotency key ... already exists". *)
Theorem C4_existing_durable_record_aborts_unit_of_work
    (marshal : entity.Transaction -> result string)
    (meta : metacontext.IdemCompetencyMeta) (t : entity.Transaction)
    (w : World) (existing : entity.IdempotencyCache) :
  List.find (repository.has_key (metacontext.Key meta))
    (idempotency_cache (Postgres w)) = Some existing ->
  (exists e w', service.CreateTransaction marshal (Some meta) t w = (Err e, w')
                /\ transactions (Postgres w') = transactions (Postgres w)
                /\ idempotency_cache (Postgres w') = idempotency_cache (Postgres w)
                /\ Redis w' = Redis w)
  /\ (forall p, exists e,
        service.CreateIdempotencyCache marshal (Some meta) p w = (Err e, w))
  /\ (forall p, reaches_recheck marshal p w ->
        String.eqb (metacontext.Key meta) "" = false ->
        service.CreateIdempotencyCache marshal (Some meta) p w
        = (Err (Errorf ("idempotency key " ++ metacontext.Key meta
                        ++ " already exists")), w)).
Proof.
  intros Hf.
  assert (Hidem : forall p w1, Postgres w1 = Postgres w ->
            exists e, service.CreateIdempotencyCache marshal (Some meta) p w1
                      = (Err e, w1)).
  { intros p w1 Hp.
    destruct (service.CreateIdempotencyCache marshal (Some meta) p w1)
      as [[created|e] w'] eqn:E.
    - apply CreateIdempotencyCache_Ok in E
        as (meta' & respStr & ttl & Hctx & _ & _ & _ & Hnone & _).
      injection Hctx as <-. rewrite Hp in Hnone. congruence.
    - pose proof (CreateIdempotencyCache_Err _ _ _ _ _ _ E). subst. eauto. }
  split; [|split].
  - destruct (service.CreateTransaction marshal (Some meta) t w)
      as [[created|e] w'] eqn:E.
    + apply CreateTransaction_Ok in E as (w1 & record & w2 & (Hp & _) & E & _).
      destruct (Hidem created w1 Hp) as [e He]. congruence.
    + apply CreateTransaction_Err in E as (Hp & Hr & _).
      exists e, w'. rewrite Hp. auto.
  - intros p. apply Hidem. reflexivity.
  - intros p Hreach Hk. destruct (Hidem p w eq_refl) as [e He].
    rewrite He. f_equal. f_equal.
    eapply CreateIdempotencyCache_Err_at_recheck; eassumption.
Qed.

Lemma Hours_24 : time.Hours 24 = 24 * time.Hour.
Proof. reflexivity. Qed.

(** A duration of [n] hours fits 64 bits up to 2562047 hours. *)
Lemma Hours_in_range (n : Z) :
  -2562047 <= n <= 2562047 -> time.Hours n = n * time.Hour.
Proof.
  intros Hn. unfold time.Hours, time.int64, time.Hour.
  rewrite (Z.mod_small (n + 2 ^ 63)) by lia.
  replace (n + 2 ^ 63 - 2 ^ 63) with n by lia.
  rewrite Z.mod_small by lia. lia.
Qed.

(** C5, as amended. For every successfully recorded request the durable
    record expires at its creation time, the [time.Now()] the record phase
    read, plus IDEMPOTENCY_TTL_HOURS hours as a 64-bit duration: exactly
    that many hours for a value between -2562047 and 2562047. The
    fast-cache entry written with it carries the fixed TTL of 24 hours,
    whatever the configured TTL, counted by the cache server from the
    moment it executes the write. So the cache entry's horizon is no later
    than the durable record's exactly when the configured duration is at
    least 24 hours plus the time between the creation timestamp and the
    execution of the write; with a write that is not executed before the
    timestamp was read, it is later whenever the configured duration is
    under 24 hours. *)
Theorem C5_durable_ttl_configured_cache_ttl_fixed
    (marshal : entity.Transaction -> result string)
    (ctx : metacontext.Context) (p : entity.Transaction) (w w' : World)
    (created : entity.IdempotencyCache) :
  service.CreateIdempotencyCache marshal ctx p w = (Ok created, w') ->
  exists ttl entry,
    strconv.Atoi (os.Getenv w "IDEMPOTENCY_TTL_HOURS") = Ok ttl
    /\ List.In created (idempotency_cache (Postgres w'))
    /\ entity.CreatedAt created = clock w
    /\ entity.ExpiredAt created = clock w + time.Hours ttl
    /\ (-2562047 <= ttl <= 2562047 ->
        entity.ExpiredAt created = clock w + ttl * time.Hour)
    /\ keyspace (Redis w') !! cache_key w (entity.Key created) = Some entry
    /\ blob entry = JSONOf created
    /\ expireAt entry = Some (server_clock (Redis w) + 24 * time.Hour)
    /\ (server_clock (Redis w) + 24 * time.Hour <= entity.ExpiredAt created
        <-> (server_clock (Redis w) - clock w) + 24 * time.Hour <= time.Hours ttl)
    /\ (clock w <= server_clock (Redis w) ->
        time.Hours ttl < 24 * time.Hour ->
        entity.ExpiredAt created < server_clock (Redis w) + 24 * time.Hour).
Proof.
  intros H.
  apply CreateIdempotencyCache_Ok in H
    as (meta & respStr & ttl & _ & _ & Ha & Hc & _ & _ & _ & _ & _ & ->).
  assert (Hk : entity.Key created = metacontext.Key meta) by (rewrite Hc; reflexivity).
  assert (Hca : entity.CreatedAt created = clock w) by (rewrite Hc; reflexivity).
  assert (Hex : entity.ExpiredAt created = clock w + time.Hours ttl)
    by (rewrite Hc; reflexivity).
  clear Hc.
  exists ttl, (cached_entry (server_clock (Redis w)) created).
  split; [exact Ha|]. split.
  { cbn. apply in_or_app. right. left. reflexivity. }
  split; [exact Hca|]. split; [exact Hex|]. split.
  { intros Hr. rewrite Hex, (Hours_in_range ttl Hr). reflexivity. }
  split.
  { cbn. rewrite Hk. apply lookup_insert_eq. }
  split; [reflexivity|]. split; [reflexivity|]. split.
  - rewrite Hex. lia.
  - intros Hlag Hlt. rewrite Hex. lia.
Qed.

(** Without metadata in the context the transaction service fails before
    it touches anything. *)
Lemma CreateTransaction_without_meta marshal t w :
  exists msg, service.CreateTransaction marshal metacontext.Background t w
              = (Err (Errorf msg), w).
Proof.
  unfold service.CreateTransaction, bind, gets, service.GetPostgres, fail.
  cbn. destruct (postgres_handle (Postgres w)); cbn; eexists; reflexivity.
Qed.

(** C6, as amended. With the three variables set and the flag different
    from TRUE, the middleware passes every request on unchanged, whatever
    its method, key header and body: the chain answers what the handler
    answers on that request, as if the middleware were absent. No
    idempotency record is created: the transaction route leaves the world
    as it was (its service finds no metadata in the context and fails before
    any write), answering 400 or 500. *)
Theorem C6_flag_off_passes_every_request_through
    (ShouldBindJSON : list byte -> result entity.Transaction)
    (marshal : entity.Transaction -> result string) (w : World) :
  config_set w ->
  String.eqb (os.Getenv w "IDEMPOTENCY_ENABLED") "TRUE" = false ->
  (forall c, idempotency.Enforce w c = gin.Next c)
  /\ (forall h c, routes.run h c w = h c w)
  /\ (forall r,
        let out := routes.serve (handler.CreateTransaction ShouldBindJSON marshal) r w in
        snd out = w
        /\ (httputil.Status (fst out) = 400 \/ httputil.Status (fst out) = 500)).
Proof.
  intros (Hen & Hhd & Hpx) Hflag.
  assert (E : forall c, idempotency.Enforce w c = gin.Next c).
  { intros c. unfold idempotency.Enforce. cbv zeta.
    rewrite Hen, Hhd, Hpx, Hflag. reflexivity. }
  split; [exact E|]. split.
  - intros h c. apply run_Next. apply E.
  - intros r out. subst out. unfold routes.serve.
    rewrite (run_Next _ _ _ (E _)).
    unfold handler.CreateTransaction. cbn [routes.NewContext gin.Body gin.Ctx].
    destruct (match routes.Body r with
              | Ok b => ShouldBindJSON b
              | Err e => Err e
              end) as [t|e].
    + destruct (CreateTransaction_without_meta marshal t w) as [msg ->].
      cbn. auto.
    + cbn. auto.
Qed.

(** ** What the program writes to the cache *)

Lemma same_stores_refl (w : World) : same_stores w w.
Proof. repeat split. Qed.

Ltac unfold_update H :=
  cbv beta delta [service_more.UpdateIdempotencyCache service_more.with_payload
    bind gets ret fail service.GetPostgres service.catch gorm_save.Transaction
    repository.GetIdempotencyCacheByKey repository_more.UpdateIdempotencyCache
    redis_util.SetJSON redis_util.client_Set] in H.

(** What [UpdateIdempotencyCache] does to the cache: nothing, or it puts
    the updated record, with the marshalled payload, under one key. *)
Lemma UpdateIdempotencyCache_keyspace marshal key p w res w' :
  service_more.UpdateIdempotencyCache marshal key p w = (res, w') ->
  keyspace (Redis w') = keyspace (Redis w)
  \/ exists updated k,
       marshal p = Ok (entity.ResponsePayload updated)
       /\ keyspace (Redis w')
          = <[k := cached_entry (server_clock (Redis w)) updated]> (keyspace (Redis w)).
Proof.
  intros H. unfold_update H.
  repeat (break_hyp H; cbn beta iota zeta in H; simplify_eq).
  all: try (left; reflexivity).
  all: right; eexists _, _; split; [|reflexivity]; reflexivity.
Qed.

(** The two ways the transaction handler ends: it created the entity, or
    it answered 400, 404 or 500 and left the stores as they were. *)
Lemma handler_CreateTransaction_inv
    (bind_json : list byte -> result entity.Transaction)
    (marshal : entity.Transaction -> result string)
    (c : gin.Request) (w : World) (resp : httputil.HttpResponse) (w' : World) :
  handler.CreateTransaction bind_json marshal c w = (resp, w') ->
  (exists b t created,
      gin.Body c = Ok b /\ bind_json b = Ok t
      /\ service.CreateTransaction marshal (gin.Ctx c) t w = (Ok created, w')
      /\ resp = httputil.Created "Transaction created successfully"
                  (httputil.TransactionData created))
  \/ (List.In (httputil.Status resp) [400; 404; 500] /\ same_stores w w').
Proof.
  unfold handler.CreateTransaction.
  destruct (gin.Body c) as [b|e] eqn:Hb.
  - destruct (bind_json b) as [t|e] eqn:Hbind.
    + destruct (service.CreateTransaction marshal (gin.Ctx c) t w)
        as [[created|e] w1] eqn:Hs.
      * intros [= <- <-]. left. exists b, t, created. auto.
      * apply CreateTransaction_Err in Hs.
        destruct (errors_As_ValidationErrors e);
          [|destruct (errors_Is e ErrRecordNotFound);
            [|destruct (errors_Is e ErrInvalidData)]];
          intros [= <- <-]; right; (split; [cbn; auto | exact Hs]).
    + intros [= <- <-]. right. split; [cbn; auto | apply same_stores_refl].
  - intros [= <- <-]. right. split; [cbn; auto | apply same_stores_refl].
Qed.

(** What a successful [CreateTransaction] does to the cache: it puts the
    record, with the marshalled entity as its payload, under one key. *)
Lemma CreateTransaction_keyspace marshal ctx t w created w' :
  service.CreateTransaction marshal ctx t w = (Ok created, w') ->
  exists record k,
    marshal created = Ok (entity.ResponsePayload record)
    /\ keyspace (Redis w')
       = <[k := cached_entry (server_clock (Redis w)) record]> (keyspace (Redis w)).
Proof.
  intros H.
  apply CreateTransaction_Ok in H as (w1 & record & w2 & (_ & Hr & _) & H & ->).
  apply CreateIdempotencyCache_Ok in H
    as (meta & respStr & ttl & _ & Hm & _ & Hrec & _ & _ & _ & _ & _ & ->).
  exists record, (cache_key w1 (metacontext.Key meta)).
  split; [rewrite Hrec; exact Hm|].
  cbn [with_Postgres with_Redis Redis keyspace]. rewrite Hr. reflexivity.
Qed.

(** What a request to the transaction route does to the cache. *)
Lemma serve_keyspace
    (bind_json : list byte -> result entity.Transaction)
    (marshal : entity.Transaction -> result string)
    (r : routes.Incoming) (w : World) :
  let w' := snd (routes.serve (handler.CreateTransaction bind_json marshal) r w) in
  keyspace (Redis w') = keyspace (Redis w)
  \/ exists created record k,
       marshal created = Ok (entity.ResponsePayload record)
       /\ keyspace (Redis w')
          = <[k := cached_entry (server_clock (Redis w)) record]> (keyspace (Redis w)).
Proof.
  unfold routes.serve, routes.run.
  destruct (idempotency.Enforce w (routes.NewContext r)) as [resp|c'];
    [left; reflexivity|].
  destruct (handler.CreateTransaction bind_json marshal c' w) as [resp w'] eqn:H.
  cbn [snd].
  apply handler_CreateTransaction_inv in H
    as [(b & t & created & _ & _ & Hs & _) | (_ & _ & Hr & _)].
  - right. apply CreateTransaction_keyspace in Hs as (record & k & Hm & Hk).
    exists created, record, k. auto.
  - left. rewrite Hr. reflexivity.
Qed.

(** The cache of a world the program wrote holds marshalled payloads only. *)
Lemma program_writes_marshalled_payloads
    (bind_json : list byte -> result entity.Transaction)
    (marshal : entity.Transaction -> result string) (w : World) :
  written_by_program bind_json marshal w -> marshalled_payloads marshal w.
Proof.
  induction 1 as [w Hempty | w r _ IH | w key p _ IH | w w' _ IH Hsub];
    intros k e rec Hl Hb.
  - rewrite Hempty, lookup_empty in Hl. discriminate.
  - destruct (serve_keyspace bind_json marshal r w)
      as [Hk | (created & record & k0 & Hm & Hk)]; rewrite Hk in Hl.
    + exact (IH k e rec Hl Hb).
    + destruct (decide (k = k0)) as [->|Hne].
      * rewrite lookup_insert_eq in Hl. injection Hl as <-.
        cbn [cached_entry blob] in Hb. injection Hb as <-. eauto.
      * rewrite lookup_insert_ne in Hl by congruence. exact (IH k e rec Hl Hb).
  - destruct (service_more.UpdateIdempotencyCache marshal key p w) as [res w'] eqn:E.
    cbn [snd] in Hl.
    apply UpdateIdempotencyCache_keyspace in E as [Hk | (updated & k0 & Hm & Hk)];
      rewrite Hk in Hl.
    + exact (IH k e rec Hl Hb).
    + destruct (decide (k = k0)) as [->|Hne].
      * rewrite lookup_insert_eq in Hl. injection Hl as <-.
        cbn [cached_entry blob] in Hb. injection Hb as <-. eauto.
      * rewrite lookup_insert_ne in Hl by congruence. exact (IH k e rec Hl Hb).
  - apply (IH k e rec); [|exact Hb].
    eapply lookup_weaken; eassumption.
Qed.


(** C1. For every request that gets as far as the lookup and whose key is
    found in the fast cache with the hash of its body, the handler is never
    invoked and the world is left as it was, whatever the record holds.
    When the cache holds what this program wrote (the record phase and
    [UpdateIdempotencyCache] are its only writers, and both store what
    [json.Marshal] returned, which [json.Unmarshal] accepts), the
    middleware deserializes the stored response payload and returns it with
    status 200, "Request already processed". *)
Theorem C1_hit_with_same_hash_replays
    (bind_json : list byte -> result entity.Transaction)
    (marshal : entity.Transaction -> result string)
    (w : World) (c : gin.Request) (redisKey bodyHash : string)
    (cachedData : entity.IdempotencyCache) :
  looks_up w c redisKey bodyHash ->
  redis_util.GetJSON w redisKey = (Some cachedData, None) ->
  entity.BodyHash cachedData = bodyHash ->
  (exists resp, idempotency.Enforce w c = gin.Abort resp
                /\ forall h, routes.run h c w = (resp, w))
  /\ ((forall t s, marshal t = Ok s -> is_Ok (json.Unmarshal s) = true) ->
      written_by_program bind_json marshal w ->
      exists v,
        json.Unmarshal (entity.ResponsePayload cachedData) = Ok v
        /\ let resp := httputil.Success "Request already processed"
                         (httputil.any_of_json v) in
           idempotency.Enforce w c = gin.Abort resp
           /\ httputil.Status resp = 200
           /\ httputil.Message resp = "Request already processed"
           /\ forall h, routes.run h c w = (resp, w)).
Proof.
  intros H Hget Heq.
  pose proof (Enforce_hit_with_same_hash _ _ _ _ _ H Hget Heq) as E.
  split.
  - destruct (String.eqb (entity.ResponsePayload cachedData) "");
      cbn [negb] in E;
      [| destruct (json.Unmarshal (entity.ResponsePayload cachedData))];
      eexists; (split; [exact E | apply run_Abort; exact E]).
  - intros Hvalid Hw.
    destruct (GetJSON_found _ _ _ Hget) as (e & Hl & Hb).
    destruct (program_writes_marshalled_payloads _ _ _ Hw _ _ _ Hl Hb) as (t & Hm).
    apply Hvalid in Hm.
    destruct (json.Unmarshal (entity.ResponsePayload cachedData)) as [v|err] eqn:Hv;
      [|discriminate].
    exists v. split; [reflexivity|]. intros resp.
    assert (E' : idempotency.Enforce w c = gin.Abort resp).
    { rewrite E.
      destruct (String.eqb (entity.ResponsePayload cachedData) "") eqn:Hp;
        [|reflexivity].
      apply String.eqb_eq in Hp. rewrite Hp, Unmarshal_empty in Hv. discriminate. }
    split; [exact E'|]. split; [reflexivity|]. split; [reflexivity|].
    apply run_Abort. exact E'.
Qed.

(** * Further properties *)

(** ** More of the middleware *)

(** What the handler can be handed: the request untouched when the flag is
    off, or, after a miss, the request with its body restored and the key
    and the hash of that body in its context. *)
Lemma Enforce_Next_inv (w : World) (c c' : gin.Request) :
  idempotency.Enforce w c = gin.Next c' ->
  (config_set w
   /\ String.eqb (os.Getenv w "IDEMPOTENCY_ENABLED") "TRUE" = false
   /\ c' = c)
  \/ (exists body bodyHash,
        looks_up w c (cache_key w (declared_key w c)) bodyHash
        /\ gin.Body c = Ok body
        /\ redis_util.GetJSON w (cache_key w (declared_key w c)) = (None, Some RedisNil)
        /\ c' = gin.WithContext (gin.with_Body c body)
                  (Some {| metacontext.Key := declared_key w c;
                           metacontext.BodyHash := bodyHash;
                           metacontext.ResponsePayload := "";
                           metacontext.StatusCode := 0 |})).
Proof.
  unfold idempotency.Enforce, looks_up, config_set, flag_TRUE, cache_key,
    declared_key, gin.GetRawData.
  cbv zeta. rewrite not_mutating_guard.
  destruct (String.eqb (os.Getenv w "IDEMPOTENCY_ENABLED") "") eqn:Hen;
    [discriminate|].
  destruct (String.eqb (os.Getenv w "IDEMPOTENCY_KEY_HEADER") "") eqn:Hhd;
    [discriminate|].
  destruct (String.eqb (os.Getenv w "IDEMPOTENCY_PREFIX") "") eqn:Hpx;
    [discriminate|].
  cbn [orb].
  destruct (String.eqb (os.Getenv w "IDEMPOTENCY_ENABLED") "TRUE") eqn:Hflag;
    cbn [negb].
  2: { intros [= <-]. left. auto. }
  apply String.eqb_eq in Hflag.
  destruct (mutating (gin.Method c)) eqn:Hm; cbn [negb]; [|discriminate].
  destruct (String.eqb (gin.GetHeader c (os.Getenv w "IDEMPOTENCY_KEY_HEADER")) "")
    eqn:Hk; [discriminate|].
  destruct (gin.Body c) as [body|] eqn:Hb; [|discriminate].
  destruct (hash_util.Hash256Bytes body) as [bodyHash|] eqn:Hh; [|discriminate].
  destruct (redis_util.GetJSON w
              (os.Getenv w "IDEMPOTENCY_PREFIX"
               ++ gin.GetHeader c (os.Getenv w "IDEMPOTENCY_KEY_HEADER")))
    as [cachedData err] eqn:Hget.
  assert (Hshape : (exists r, cachedData = Some r /\ err = None)
                   \/ (exists e, cachedData = None /\ err = Some e)).
  { revert Hget. unfold redis_util.GetJSON.
    destruct (negb (redis_client (Redis w))); [intros [= <- <-]; eauto|].
    destruct (redis_util.client_Get w _) as [[r|bytes]|e]; intros [= <- <-]; eauto. }
  destruct Hshape as [(r & -> & ->) | (e & -> & ->)].
  - cbn [idempotency.not_nil andb].
    destruct (negb (String.eqb (entity.BodyHash r) bodyHash)); [discriminate|].
    destruct (negb (String.eqb (entity.ResponsePayload r) "")); [|discriminate].
    destruct (json.Unmarshal (entity.ResponsePayload r)); discriminate.
  - destruct e; cbn [idempotency.not_nil idempotency.is_RedisNil andb negb];
      try discriminate.
    intros [= <-]. right. exists body, bodyHash.
    split.
    { split; [auto|]. split; [assumption|]. split; [reflexivity|].
      split; [reflexivity|]. split; [eauto | reflexivity]. }
    split; [reflexivity|]. split; [reflexivity|]. reflexivity.
Qed.

(** X1. The middleware hands a request to the handler in exactly two
    cases: with the three variables set and the flag different from TRUE,
    the request as it came; or, with the flag TRUE, a mutating method, a
    key and a readable non-empty body, when the fast cache answers the key
    miss, and then the request carries its body again and, in its context,
    the declared key with the SHA-256 fingerprint of that body. *)
Theorem Enforce_passes_exactly_flag_off_or_miss (w : World) (c c' : gin.Request) :
  idempotency.Enforce w c = gin.Next c'
  <-> (config_set w
       /\ String.eqb (os.Getenv w "IDEMPOTENCY_ENABLED") "TRUE" = false
       /\ c' = c)
      \/ (exists body bodyHash,
            looks_up w c (cache_key w (declared_key w c)) bodyHash
            /\ gin.Body c = Ok body
            /\ redis_util.GetJSON w (cache_key w (declared_key w c))
               = (None, Some RedisNil)
            /\ c' = gin.WithContext (gin.with_Body c body)
                      (Some {| metacontext.Key := declared_key w c;
                               metacontext.BodyHash := bodyHash;
                               metacontext.ResponsePayload := "";
                               metacontext.StatusCode := 0 |})).
Proof.
  split; [apply Enforce_Next_inv|].
  intros [((Hen & Hhd & Hpx) & Hf & ->) | (body & bodyHash & Hl & Hb & Hg & ->)].
  - unfold idempotency.Enforce. cbv zeta. rewrite Hen, Hhd, Hpx, Hf. reflexivity.
  - eapply Enforce_miss_proceeds; eassumption.
Qed.

(** X2. When the middleware answers by itself, its status is one of 200,
    400, 405, 409 and 500. *)
Theorem Enforce_Abort_statuses (w : World) (c : gin.Request)
    (resp : httputil.HttpResponse) :
  idempotency.Enforce w c = gin.Abort resp ->
  List.In (httputil.Status resp) [200; 400; 405; 409; 500].
Proof.
  unfold idempotency.Enforce. cbv zeta.
  repeat match goal with
         | |- context [if ?b then _ else _] => destruct b
         | |- context [match ?x with _ => _ end] => destruct x
         end.
  all: intros [= <-]; cbn; auto 10.
Qed.

(** X3. With enforcement on, a mutating method and a key, a request whose
    body is empty or cannot be read gets the 500 response and never reaches
    the handler: the chain answers with it and leaves the world as it was. *)
Theorem Enforce_empty_body_is_rejected (w : World) (c : gin.Request) :
  config_set w ->
  flag_TRUE w ->
  mutating (gin.Method c) = true ->
  String.eqb (declared_key w c) "" = false ->
  (gin.Body c = Ok [] ->
   let resp := httputil.InternalServerError "Internal Server Error"
                 "Failed to hash request body" in
   idempotency.Enforce w c = gin.Abort resp
   /\ forall h, routes.run h c w = (resp, w))
  /\ (forall e, gin.Body c = Err e ->
      let resp := httputil.InternalServerError "Internal Server Error"
                    "Failed to read request body" in
      idempotency.Enforce w c = gin.Abort resp
      /\ forall h, routes.run h c w = (resp, w)).
Proof.
  intros (Hen & Hhd & Hpx) Hflag Hm Hk. unfold flag_TRUE in Hflag.
  unfold declared_key in Hk.
  split; [intros Hb resp | intros e Hb resp].
  all: assert (E : idempotency.Enforce w c = gin.Abort resp)
         by (unfold idempotency.Enforce; cbv zeta;
             rewrite not_mutating_guard, Hm, Hhd, Hpx, Hflag;
             cbn [String.eqb Ascii.eqb Bool.eqb orb negb];
             rewrite Hk; unfold gin.GetRawData; rewrite Hb; reflexivity).
  all: split; [exact E | apply run_Abort; exact E].
Qed.

(** ** The JSON helpers of redis-util *)

(** X6. [SetJSON] then [GetJSON], for a TTL of whole milliseconds (what the
    client sends): [SetJSON] succeeds exactly when there is a client and
    the server answers; once it has succeeded, [GetJSON] on that key gives
    the value back as long as the server's clock is before the instant of
    the write plus the TTL, and the key miss [redis.Nil] from then on; a TTL
    of zero keeps the value for good; every other key reads as before the
    write; and the tables are not touched. *)
Theorem SetJSON_then_GetJSON
    (key : string) (value : entity.IdempotencyCache) (ttl : Z) (w : World) :
  0 <= ttl ->
  (1000000 | ttl) ->
  (is_Ok (fst (redis_util.SetJSON key value ttl w))
   = redis_client (Redis w) && redis_up (Redis w))
  /\ forall w', redis_util.SetJSON key value ttl w = (Ok tt, w') ->
       Postgres w' = Postgres w
       /\ (forall t, 0 < ttl -> t < server_clock (Redis w) + ttl ->
             redis_util.GetJSON (with_server_clock w' t) key = (Some value, None))
       /\ (forall t, 0 < ttl -> server_clock (Redis w) + ttl <= t ->
             redis_util.GetJSON (with_server_clock w' t) key = (None, Some RedisNil))
       /\ (forall t, ttl = 0 ->
             redis_util.GetJSON (with_server_clock w' t) key = (Some value, None))
       /\ (forall t key', key' <> key ->
             redis_util.GetJSON (with_server_clock w' t) key'
             = redis_util.GetJSON (with_server_clock w t) key').
Proof.
  intros Hpos _. unfold redis_util.SetJSON, redis_util.client_Set.
  destruct (redis_client (Redis w)) eqn:Hc; cbn [negb andb];
    [|split; [reflexivity | discriminate]].
  destruct (redis_up (Redis w)) eqn:Hu; cbn [negb];
    [|split; [reflexivity | discriminate]].
  split; [reflexivity|]. intros w' [= <-].
  split; [reflexivity|].
  unfold redis_util.GetJSON, redis_util.client_Get, redis_util.expired,
    with_server_clock.
  cbn [with_Redis Redis redis_client redis_up server_clock keyspace negb].
  rewrite Hc, Hu. cbn [negb]. rewrite !lookup_insert_eq. cbn [expireAt blob].
  split; [|split; [|split]].
  - intros t Ht Hlt. destruct (Z.ltb_spec 0 ttl); [|lia].
    destruct (Z.leb_spec (server_clock (Redis w) + ttl) t); [lia | reflexivity].
  - intros t Ht Hle. destruct (Z.ltb_spec 0 ttl); [|lia].
    destruct (Z.leb_spec (server_clock (Redis w) + ttl) t); [reflexivity | lia].
  - intros t ->. reflexivity.
  - intros t key' Hne. rewrite lookup_insert_ne by congruence. reflexivity.
Qed.

(** ** More of the fingerprint hasher *)

Lemma hex_pair_determines_byte (v v' : byte) :
  hash_util.hex_digit (Z.shiftr (hash_util.byte_to_Z v) 4)
  = hash_util.hex_digit (Z.shiftr (hash_util.byte_to_Z v') 4) ->
  hash_util.hex_digit (Z.land (hash_util.byte_to_Z v) 15)
  = hash_util.hex_digit (Z.land (hash_util.byte_to_Z v') 15) ->
  v = v'.
Proof.
  pose (idx := fun c : ascii =>
                 let n := Z.of_nat (nat_of_ascii c) in
                 if Z.ltb n 58 then n - 48 else n - 87).
  assert (D : forall u : byte,
             hash_util.byte_of_Z
               (16 * idx (hash_util.hex_digit (Z.shiftr (hash_util.byte_to_Z u) 4))
                + idx (hash_util.hex_digit (Z.land (hash_util.byte_to_Z u) 15))) = u)
    by (intros u; destruct u; vm_compute; reflexivity).
  intros Hhi Hlo. rewrite <- (D v), <- (D v'), Hhi, Hlo. reflexivity.
Qed.

Lemma EncodeToString_injective (a b : list byte) :
  hash_util.EncodeToString a = hash_util.EncodeToString b -> a = b.
Proof.
  revert b. induction a as [|v a IH]; intros [|v' b] H; cbn in H;
    try discriminate; [reflexivity|].
  injection H as Hhi Hlo Hrest.
  f_equal; [apply hex_pair_determines_byte; assumption | apply IH; exact Hrest].
Qed.

(** X4. The hex form loses nothing of the digest: two inputs get the same
    fingerprint exactly when their SHA-256 digests are equal, and the
    encoder is injective on byte sequences. *)
Theorem Hash256Bytes_equal_iff_digests_equal :
  (forall a b : list byte,
      hash_util.EncodeToString a = hash_util.EncodeToString b -> a = b)
  /\ (forall (a b : list byte) (d e : string),
        hash_util.Hash256Bytes a = Ok d ->
        hash_util.Hash256Bytes b = Ok e ->
        (d = e <-> hash_util.Sum256 a = hash_util.Sum256 b)).
Proof.
  split; [exact EncodeToString_injective|].
  intros a b d e. unfold hash_util.Hash256Bytes.
  destruct (List.length a =? 0)%nat; [discriminate|].
  destruct (List.length b =? 0)%nat; [discriminate|].
  intros Hd He.
  apply (f_equal (fun r => match r with Ok x => x | Err _ => "" end)) in Hd, He.
  cbv beta iota in Hd, He. subst d e. split.
  - apply EncodeToString_injective.
  - intros ->. reflexivity.
Qed.

(** X5. The two entry points of the hasher agree: a string is rejected
    exactly when it is empty, as is its byte slice, and otherwise it gets
    the fingerprint of its bytes. *)
Theorem Hash256String_agrees_with_Hash256Bytes (s : string) :
  (s = "" ->
   hash_util.Hash256String s = Err (Errorf "input string cannot be empty")
   /\ hash_util.Hash256Bytes (list_byte_of_string s)
      = Err (Errorf "input byte slice cannot be empty"))
  /\ (s <> "" ->
      exists d, hash_util.Hash256String s = Ok d
                /\ hash_util.Hash256Bytes (list_byte_of_string s) = Ok d
                /\ String.length d = 64%nat).
Proof.
  split.
  - intros ->. split; reflexivity.
  - intros Hs. destruct s as [|c s]; [congruence|].
    eexists. split; [reflexivity|]. split; [reflexivity|].
    rewrite length_EncodeToString, length_Sum256. reflexivity.
Qed.

(** ** More of the record phase *)

(** What a successful business transaction did, step by step. *)
Lemma CreateTransaction_Ok_full marshal ctx t w created w' :
  service.CreateTransaction marshal ctx t w = (Ok created, w') ->
  exists meta consumer record respStr ttl,
    ctx = Some meta
    /\ entity.Validate (service.with_IdempotencyCacheKey t (metacontext.Key meta)) = None
    /\ List.find (service.has_id (entity.ConsumerID t)) (consumers (Postgres w))
       = Some consumer
    /\ entity.ConsumerStatus consumer = entity.ConsumerStatusActive
    /\ created = inserted_transaction w t (metacontext.Key meta)
    /\ existsb (clashes created) (transactions (Postgres w)) = false
    /\ marshal created = Ok respStr
    /\ strconv.Atoi (os.Getenv w "IDEMPOTENCY_TTL_HOURS") = Ok ttl
    /\ record =
         {| entity.Key := metacontext.Key meta;
            entity.BodyHash := metacontext.BodyHash meta;
            entity.ResponsePayload := respStr;
            entity.CreatedAt := clock w;
            entity.UpdatedAt := clock w;
            entity.ExpiredAt := clock w + time.Hours ttl |}
    /\ List.find (repository.has_key (metacontext.Key meta))
         (idempotency_cache (Postgres w)) = None
    /\ transactions (Postgres w') = (transactions (Postgres w) ++ [created])%list
    /\ idempotency_cache (Postgres w') = (idempotency_cache (Postgres w) ++ [record])%list
    /\ consumers (Postgres w') = consumers (Postgres w)
    /\ Redis w' =
         {| redis_client := true; redis_up := true;
            server_clock := server_clock (Redis w);
            keyspace := <[cache_key w (metacontext.Key meta)
                           := cached_entry (server_clock (Redis w)) record]>
                          (keyspace (Redis w)) |}
    /\ environ w' = environ w /\ clock w' = clock w
    /\ postgres_handle (Postgres w) = true /\ postgres_up (Postgres w) = true
    /\ postgres_handle (Postgres w') = true /\ postgres_up (Postgres w') = true.
Proof.
  intros H. unfold_transaction H.
  repeat (break_hyp H; cbn beta iota zeta in H; simplify_eq).
  all: match goal with
       | E : service.CreateIdempotencyCache _ _ _ _ = (Ok _, _) |- _ =>
           apply CreateIdempotencyCache_Ok in E
             as (meta & respStr & ttl & Hctx & Hm & Ha & Hrec & Hnone
                 & Hrc & Hru & _ & _ & ->)
       end.
  all: injection Hctx as <-.
  all: unfold gorm.view, gorm.commit in *; cbn [fold_left] in *.
  all: repeat match goal with
              | F : negb _ = false |- _ => apply negb_false_iff in F
              end.
  all: match goal with
       | F : String.eqb (entity.ConsumerStatus ?c) _ = true |- _ =>
           apply String.eqb_eq in F; eexists _, c, _, respStr, ttl
       end.
  all: unfold inserted_transaction, clashes, service.with_Status,
         service.with_IdempotencyCacheKey, os.Getenv, time.Add, cache_key,
         cached_entry in *.
  all: cbn [entity.ID entity.IdempotencyCacheKey entity.Type_ entity.Amount
            entity.Status entity.ConsumerID entity.TxCreatedAt entity.TxUpdatedAt
            Postgres Redis environ clock with_Postgres with_Redis with_uuid_calls
            gorm.apply_write transactions idempotency_cache consumers
            postgres_handle postgres_up
            uuid_source uuid_calls app fold_left] in *.
  all: rewrite ?Hrc, ?Hru in *.
  all: repeat match goal with
              | F : String.eqb ?x "" = _ |- _ => rewrite F in *
              | F : entity.TxCreatedAt _ = _ |- _ => rewrite F in *
              | F : entity.TxUpdatedAt _ = _ |- _ => rewrite F in *
              end.
  all: subst.
  all: repeat (split; [first [reflexivity | eassumption]|]).
  all: first [reflexivity | eassumption].
Qed.

(** X7. A successful [CreateTransaction] is a dual write: it appends
    exactly one row to [transactions] and exactly one record to
    [idempotency_cache], both under the key of the request's context; the
    entity is pending, keeps the type and the non-zero amount it came with,
    and belongs to an active consumer; the record holds the fingerprint of
    the context and the marshalled entity, and from that instant the fast
    cache answers the prefixed key with that record. *)
Theorem CreateTransaction_success_is_a_dual_write
    (marshal : entity.Transaction -> result string) (ctx : metacontext.Context)
    (t created : entity.Transaction) (w w' : World) :
  service.CreateTransaction marshal ctx t w = (Ok created, w') ->
  exists meta record consumer,
    ctx = Some meta
    /\ transactions (Postgres w') = (transactions (Postgres w) ++ [created])%list
    /\ idempotency_cache (Postgres w')
       = (idempotency_cache (Postgres w) ++ [record])%list
    /\ entity.IdempotencyCacheKey created = metacontext.Key meta
    /\ entity.Key record = metacontext.Key meta
    /\ entity.BodyHash record = metacontext.BodyHash meta
    /\ marshal created = Ok (entity.ResponsePayload record)
    /\ entity.Status created = entity.TransactionStatusPending
    /\ entity.Type_ created = entity.Type_ t
    /\ entity.Amount created = entity.Amount t
    /\ entity.Amount created <> 0
    /\ List.In consumer (consumers (Postgres w))
    /\ entity.ConsumerKey consumer = entity.ConsumerID created
    /\ entity.ConsumerStatus consumer = entity.ConsumerStatusActive
    /\ redis_util.GetJSON w' (cache_key w (metacontext.Key meta)) = (Some record, None).
Proof.
  intros H.
  apply CreateTransaction_Ok_full in H
    as (meta & consumer & record & respStr & ttl & -> & Hv & Hc & Hact & -> & Hcl
        & Hm & Ha & Hrec & Hnone & Ht & Hi & _ & Hr & _ & Hclk & _).
  exists meta, record, consumer. subst record.
  split; [reflexivity|]. split; [exact Ht|]. split; [exact Hi|].
  do 3 (split; [reflexivity|]). split; [exact Hm|].
  do 3 (split; [reflexivity|]). split.
  { cbn [inserted_transaction entity.Amount]. intros Hz.
    unfold entity.Validate in Hv.
    destruct (entity.failed_fields _) eqn:Hf; [|discriminate].
    unfold entity.failed_fields in Hf.
    cbn [service.with_IdempotencyCacheKey entity.Amount] in Hf.
    rewrite Hz in Hf. cbn [Z.eqb] in Hf.
    repeat match type of Hf with
           | context [if ?b then _ else _] => destruct b
           end; discriminate. }
  apply find_some in Hc as [Hin Hid]. apply String.eqb_eq in Hid.
  split; [exact Hin|]. split; [exact Hid|]. split; [exact Hact|].
  unfold redis_util.GetJSON, redis_util.client_Get, redis_util.expired.
  rewrite Hr. cbn [redis_client redis_up server_clock keyspace negb].
  rewrite lookup_insert_eq. cbn [cached_entry expireAt blob].
  destruct (Z.leb_spec (server_clock (Redis w) + service.ttl_hour * time.Hour)
              (server_clock (Redis w))) as [Hle|]; [|reflexivity].
  unfold service.ttl_hour, time.Hour in Hle. lia.
Qed.

(** X8. The transaction handler answers 201, 400, 404 or 500. Short of
    201 the tables and the cache are as the request found them; with 201
    the response carries the created entity, and that entity and one
    idempotency record are what the tables have gained. *)
Theorem handler_CreateTransaction_all_or_nothing
    (bind_json : list byte -> result entity.Transaction)
    (marshal : entity.Transaction -> result string)
    (c : gin.Request) (w : World) :
  let out := handler.CreateTransaction bind_json marshal c w in
  List.In (httputil.Status (fst out)) [201; 400; 404; 500]
  /\ (httputil.Status (fst out) <> 201 -> same_stores w (snd out))
  /\ (httputil.Status (fst out) = 201 ->
      exists created record,
        httputil.Data (fst out) = httputil.TransactionData created
        /\ transactions (Postgres (snd out))
           = (transactions (Postgres w) ++ [created])%list
        /\ idempotency_cache (Postgres (snd out))
           = (idempotency_cache (Postgres w) ++ [record])%list
        /\ entity.Key record = entity.IdempotencyCacheKey created).
Proof.
  intros out. subst out.
  destruct (handler.CreateTransaction bind_json marshal c w) as [resp w'] eqn:H.
  cbn [fst snd].
  apply handler_CreateTransaction_inv in H
    as [(b & t & created & Hb & Hbind & Hs & ->) | (Hst & Hsame)].
  - split; [cbn; auto|]. split; [cbn; congruence|]. intros _.
    apply CreateTransaction_Ok_full in Hs
      as (meta & consumer & record & respStr & ttl & _ & _ & _ & _ & -> & _
          & _ & _ & -> & _ & Ht & Hi & _).
    eexists _, _. split; [reflexivity|]. split; [exact Ht|].
    split; [exact Hi | reflexivity].
  - split; [cbn in Hst |- *; tauto|]. split; [intros _; exact Hsame|].
    intros H201. rewrite H201 in Hst. cbn in Hst.
    repeat destruct Hst as [Hst|Hst]; try discriminate; contradiction.
Qed.

(** X9. What the service rejects in front of any write, with the
    metadata in the context and the handle there: an entity that fails
    validation gets 400 with the failed fields, one whose consumer is not in
    the table gets 404, one whose consumer is not active gets 400; each time
    the world is exactly as before. *)
Theorem handler_CreateTransaction_rejects_before_writing
    (bind_json : list byte -> result entity.Transaction)
    (marshal : entity.Transaction -> result string)
    (c : gin.Request) (w : World) (b : list byte) (t : entity.Transaction)
    (meta : metacontext.IdemCompetencyMeta) :
  gin.Body c = Ok b ->
  bind_json b = Ok t ->
  gin.Ctx c = Some meta ->
  postgres_handle (Postgres w) = true ->
  let t' := service.with_IdempotencyCacheKey t (metacontext.Key meta) in
  (entity.failed_fields t' <> [] ->
   handler.CreateTransaction bind_json marshal c w
   = (httputil.BadRequestMap "Failed to create transaction" (entity.failed_fields t'), w))
  /\ (entity.failed_fields t' = [] -> postgres_up (Postgres w) = true ->
      List.find (service.has_id (entity.ConsumerID t)) (consumers (Postgres w)) = None ->
      handler.CreateTransaction bind_json marshal c w
      = (httputil.NotFound "Consumer not found" "No consumer found with the given ID", w))
  /\ (entity.failed_fields t' = [] -> postgres_up (Postgres w) = true ->
      forall consumer,
        List.find (service.has_id (entity.ConsumerID t)) (consumers (Postgres w))
        = Some consumer ->
        entity.ConsumerStatus consumer <> entity.ConsumerStatusActive ->
        handler.CreateTransaction bind_json marshal c w
        = (httputil.BadRequest "Invalid transaction data"
             "Transaction data is invalid, this could be due to missing required fields or incorrect data types", w)).
Proof.
  intros Hb Hbind Hctx Hh t'.
  assert (Hid : entity.failed_fields t' = [] ->
                String.eqb (entity.ConsumerID t) "" = false).
  { unfold entity.failed_fields. subst t'.
    cbn [service.with_IdempotencyCacheKey entity.ConsumerID].
    destruct (String.eqb (entity.ConsumerID t) ""); [|reflexivity].
    cbn [orb]. intros Hf. exfalso. apply (f_equal (@List.length string)) in Hf.
    rewrite !List.length_app in Hf. cbn [List.length] in Hf. lia. }
  subst t'.
  assert (Hrun : handler.CreateTransaction bind_json marshal c w
                 = match entity.failed_fields
                           (service.with_IdempotencyCacheKey t (metacontext.Key meta)) with
                   | [] =>
                       handler.CreateTransaction bind_json marshal c w
                   | f :: fs =>
                       (httputil.BadRequestMap "Failed to create transaction" (f :: fs), w)
                   end).
  { destruct (entity.failed_fields _) as [|f fs] eqn:Hf; [reflexivity|].
    cbv beta iota zeta delta [handler.CreateTransaction service.CreateTransaction
      bind gets fail service.GetPostgres metacontext.ExtractIdemCompetencyMeta
      entity.Validate].
    rewrite Hb, Hbind, Hctx, Hh. cbv beta iota zeta delta [negb]. rewrite Hf.
    reflexivity. }
  assert (Hgo : entity.failed_fields
                  (service.with_IdempotencyCacheKey t (metacontext.Key meta)) = [] ->
                postgres_up (Postgres w) = true ->
                handler.CreateTransaction bind_json marshal c w
                = match List.find (service.has_id (entity.ConsumerID t))
                          (consumers (Postgres w)) with
                  | None =>
                      (httputil.NotFound "Consumer not found"
                         "No consumer found with the given ID", w)
                  | Some consumer =>
                      if String.eqb (entity.ConsumerStatus consumer)
                           entity.ConsumerStatusActive
                      then handler.CreateTransaction bind_json marshal c w
                      else (httputil.BadRequest "Invalid transaction data"
                              "Transaction data is invalid, this could be due to missing required fields or incorrect data types", w)
                  end).
  { intros Hf Hup.
    destruct (List.find _ _) as [consumer|] eqn:Hfind;
      [destruct (String.eqb (entity.ConsumerStatus consumer) _) eqn:Hact;
       [reflexivity|]|].
    all: cbv beta iota zeta delta [handler.CreateTransaction service.CreateTransaction
           bind gets fail service.GetPostgres metacontext.ExtractIdemCompetencyMeta
           entity.Validate gorm.Transaction service.GetConsumerByID].
    all: rewrite Hb, Hbind, Hctx, Hh; cbv beta iota zeta delta [negb]; rewrite Hf.
    all: cbn [service.with_IdempotencyCacheKey entity.ConsumerID].
    all: rewrite Hup, (Hid Hf), Hh; cbv beta iota zeta delta [negb].
    all: rewrite Hup, Hfind; cbv beta iota zeta delta [negb]; rewrite ?Hact.
    all: reflexivity. }
  split; [|split].
  - intros Hf. rewrite Hrun.
    destruct (entity.failed_fields _) as [|f fs]; [congruence | reflexivity].
  - intros Hf Hup Hnone. rewrite (Hgo Hf Hup), Hnone. reflexivity.
  - intros Hf Hup consumer Hsome Hst. rewrite (Hgo Hf Hup), Hsome.
    destruct (String.eqb_spec (entity.ConsumerStatus consumer)
                entity.ConsumerStatusActive) as [E|_]; [congruence|].
    reflexivity.
Qed.

Lemma Validate_None_ConsumerID (t : entity.Transaction) :
  entity.Validate t = None -> String.eqb (entity.ConsumerID t) "" = false.
Proof.
  unfold entity.Validate, entity.failed_fields.
  destruct (String.eqb (entity.ConsumerID t) ""); [|reflexivity].
  cbn [orb]. intros H. exfalso.
  destruct (_ ++ _)%list eqn:Hf; [|discriminate].
  apply (f_equal (@List.length string)) in Hf.
  rewrite !List.length_app in Hf. cbn [List.length] in Hf. lia.
Qed.

Lemma CreateIdempotencyCache_other_errors marshal ctx p w w' :
  service.CreateIdempotencyCache marshal ctx p w
  <> (Err (Errorf "consumer ID is required"), w').
Proof.
  intros H. unfold_service H.
  repeat (break_hyp H; cbn beta iota zeta in H; simplify_eq).
  all: cbn in *; discriminate.
Qed.

(** X10. The check [consumer ID is required] inside the transaction can
    never fire: an entity with no consumer id has already failed
    validation. No call of [CreateTransaction] returns that error. *)
Theorem CreateTransaction_never_reports_missing_consumer_id
    (marshal : entity.Transaction -> result string) (ctx : metacontext.Context)
    (t : entity.Transaction) (w : World) :
  fst (service.CreateTransaction marshal ctx t w)
  <> Err (Errorf "consumer ID is required").
Proof.
  destruct (service.CreateTransaction marshal ctx t w) as [r w'] eqn:H.
  cbn [fst]. intros ->. unfold_transaction H.
  repeat (break_hyp H; cbn beta iota zeta in H; simplify_eq).
  all: try match goal with
           | E : entity.Validate _ = None, F : String.eqb _ "" = true |- _ =>
               apply Validate_None_ConsumerID in E; congruence
           end.
  all: try match goal with
           | E : entity.Validate _ = Some _ |- _ =>
               unfold entity.Validate in E;
               destruct (entity.failed_fields _); discriminate
           end.
  all: match goal with
       | E : service.CreateIdempotencyCache _ _ _ _ = (Err _, _) |- _ =>
           exact (CreateIdempotencyCache_other_errors _ _ _ _ _ E)
       end.
Qed.

(** ** The route: middleware, handler and service together *)

Lemma Enforce_Abort_not_201 (w : World) (c : gin.Request)
    (resp : httputil.HttpResponse) :
  idempotency.Enforce w c = gin.Abort resp -> httputil.Status resp <> 201.
Proof.
  unfold idempotency.Enforce. cbv zeta.
  repeat match goal with
         | |- context [if ?b then _ else _] => destruct b
         | |- context [match ?x with _ => _ end] => destruct x
         end.
  all: intros [= <-]; cbn; discriminate.
Qed.

(** The transaction route ends in one of two ways: the request passed the
    middleware on a miss and the service created the entity, or the answer
    is not 201 and the stores are as they were. *)
Lemma serve_CreateTransaction_inv
    (bind_json : list byte -> result entity.Transaction)
    (marshal : entity.Transaction -> result string)
    (r : routes.Incoming) (w : World) (resp : httputil.HttpResponse) (w' : World) :
  routes.serve (handler.CreateTransaction bind_json marshal) r w = (resp, w') ->
  (exists body bodyHash t created,
      looks_up w (routes.NewContext r)
        (cache_key w (declared_key w (routes.NewContext r))) bodyHash
      /\ routes.Body r = Ok body
      /\ redis_util.GetJSON w (cache_key w (declared_key w (routes.NewContext r)))
         = (None, Some RedisNil)
      /\ bind_json body = Ok t
      /\ service.CreateTransaction marshal
           (Some (injected w (routes.NewContext r) bodyHash)) t w = (Ok created, w')
      /\ resp = httputil.Created "Transaction created successfully"
                  (httputil.TransactionData created))
  \/ (httputil.Status resp <> 201 /\ same_stores w w').
Proof.
  unfold routes.serve, routes.run.
  destruct (idempotency.Enforce w (routes.NewContext r)) as [resp0|c'] eqn:E.
  - intros [= <- <-]. right. split; [|apply same_stores_refl].
    eapply Enforce_Abort_not_201; exact E.
  - intros H. apply handler_CreateTransaction_inv in H
      as [(b & t & created & Hb & Hbind & Hs & ->) | (Hst & Hsame)].
    + apply Enforce_Next_inv in E
        as [(_ & _ & ->) | (body & bodyHash & Hl & Hbody & Hget & ->)].
      * cbn [routes.NewContext gin.Ctx] in Hs.
        destruct (CreateTransaction_without_meta marshal t w) as [msg Hm].
        congruence.
      * left. cbn [gin.WithContext gin.with_Body gin.Body gin.Ctx] in Hb, Hs.
        injection Hb as <-.
        exists body, bodyHash, t, created. unfold injected. auto 10.
    + right. split; [|exact Hsame]. intros H201. rewrite H201 in Hst.
      cbn in Hst. repeat destruct Hst as [Hst|Hst]; try discriminate; contradiction.
Qed.

Lemma append_cancel_l (p a b : string) : p ++ a = p ++ b -> a = b.
Proof.
  induction p as [|c p IH]; cbn; intros H; [exact H|].
  injection H as H. apply IH. exact H.
Qed.

(** X11. The two tables stay in step: if every transaction has its
    idempotency record and every record its transaction, the same holds
    after any request to the transaction route, whatever its outcome. *)
Theorem serve_keeps_tables_in_step
    (bind_json : list byte -> result entity.Transaction)
    (marshal : entity.Transaction -> result string)
    (r : routes.Incoming) (w : World) :
  tables_in_step (Postgres w) ->
  tables_in_step
    (Postgres (snd (routes.serve (handler.CreateTransaction bind_json marshal) r w))).
Proof.
  intros Hinv.
  destruct (routes.serve _ r w) as [resp w'] eqn:H. cbn [snd].
  apply serve_CreateTransaction_inv in H
    as [(body & bodyHash & t & created & _ & _ & _ & _ & Hs & _) | (_ & Hp & _)].
  - apply CreateTransaction_Ok_full in Hs
      as (meta & consumer & record & respStr & ttl & [= <-] & _ & _ & _ & -> & _
          & _ & _ & -> & _ & Ht & Hi & _).
    intros key. rewrite Ht, Hi, !List.map_app, !List.in_app_iff.
    cbn [List.map List.In inserted_transaction entity.IdempotencyCacheKey entity.Key].
    rewrite (Hinv key). reflexivity.
  - rewrite Hp. exact Hinv.
Qed.

(** X12. The fast cache only mirrors the durable table: if every entry
    under a prefixed key holds a record of [idempotency_cache] with that
    key, the same holds after any request to the transaction route. *)
Theorem serve_keeps_cache_mirroring_table
    (bind_json : list byte -> result entity.Transaction)
    (marshal : entity.Transaction -> result string)
    (r : routes.Incoming) (w : World) :
  cache_mirrors_table w ->
  cache_mirrors_table
    (snd (routes.serve (handler.CreateTransaction bind_json marshal) r w)).
Proof.
  intros Hinv.
  destruct (routes.serve _ r w) as [resp w'] eqn:H. cbn [snd].
  apply serve_CreateTransaction_inv in H
    as [(body & bodyHash & t & created & _ & _ & _ & _ & Hs & _)
       | (_ & Hp & Hr & He & _)].
  - apply CreateTransaction_Ok_full in Hs
      as (meta & consumer & record & respStr & ttl & [= <-] & _ & _ & _ & _ & _
          & _ & _ & Hrec & _ & _ & Hi & _ & Hr & He & _).
    intros key e. unfold cache_key, os.Getenv. rewrite He, Hr, Hi.
    cbn [keyspace]. fold (os.Getenv w "IDEMPOTENCY_PREFIX").
    fold (cache_key w key).
    destruct (decide (cache_key w key
                      = cache_key w (metacontext.Key (injected w (routes.NewContext r) bodyHash))))
      as [Heq|Hne].
    + rewrite Heq, lookup_insert_eq. intros [= <-].
      apply append_cancel_l in Heq.
      exists record. split; [reflexivity|]. split.
      * rewrite Heq, Hrec. reflexivity.
      * apply List.in_or_app. right. left. reflexivity.
    + rewrite lookup_insert_ne by congruence. intros Hl.
      destruct (Hinv key e Hl) as (r0 & Hb & Hk & Hin).
      exists r0. split; [exact Hb|]. split; [exact Hk|].
      apply List.in_or_app. left. exact Hin.
  - intros key e. unfold cache_key, os.Getenv. rewrite He, Hr, Hp.
    apply Hinv.
Qed.

Lemma looks_up_environ (w w' : World) (c : gin.Request) (redisKey bodyHash : string) :
  environ w' = environ w ->
  looks_up w c redisKey bodyHash -> looks_up w' c redisKey bodyHash.
Proof.
  unfold looks_up, config_set, flag_TRUE, declared_key, os.Getenv.
  intros ->. exact (fun H => H).
Qed.

Lemma cache_key_environ (w w' : World) (key : string) :
  environ w' = environ w -> cache_key w' key = cache_key w key.
Proof. unfold cache_key, os.Getenv. intros ->. reflexivity. Qed.

Lemma declared_key_environ (w w' : World) (c : gin.Request) :
  environ w' = environ w -> declared_key w' c = declared_key w c.
Proof. unfold declared_key, os.Getenv. intros ->. reflexivity. Qed.

(** A hit with the hash of the body and a payload that unmarshals. *)
Lemma Enforce_hit_replays
    (w : World) (c : gin.Request) (redisKey bodyHash : string)
    (cachedData : entity.IdempotencyCache) (v : json.value) :
  looks_up w c redisKey bodyHash ->
  redis_util.GetJSON w redisKey = (Some cachedData, None) ->
  entity.BodyHash cachedData = bodyHash ->
  json.Unmarshal (entity.ResponsePayload cachedData) = Ok v ->
  idempotency.Enforce w c
  = gin.Abort (httputil.Success "Request already processed" (httputil.any_of_json v)).
Proof.
  intros H Hget Heq Hv.
  enforce_to_lookup H body. rewrite Hget. cbn [idempotency.not_nil andb].
  rewrite Heq, String.eqb_refl. cbn [negb].
  destruct (String.eqb (entity.ResponsePayload cachedData) "") eqn:Hp.
  - apply String.eqb_eq in Hp. rewrite Hp in Hv. vm_compute in Hv. discriminate.
  - cbn [negb]. rewrite Hv. reflexivity.
Qed.

(** A hit with another hash. *)
Lemma Enforce_hit_conflicts
    (w : World) (c : gin.Request) (redisKey bodyHash : string)
    (cachedData : entity.IdempotencyCache) :
  looks_up w c redisKey bodyHash ->
  redis_util.GetJSON w redisKey = (Some cachedData, None) ->
  entity.BodyHash cachedData <> bodyHash ->
  idempotency.Enforce w c
  = gin.Abort (httputil.Conflict "Conflict"
      "Request with the same Idempotency-Key but different body has already been processed").
Proof.
  intros H Hget Hne.
  enforce_to_lookup H body. rewrite Hget. cbn [idempotency.not_nil andb].
  destruct (String.eqb_spec (entity.BodyHash cachedData) bodyHash); [congruence|].
  reflexivity.
Qed.

(** What the fast cache answers for the key of a recorded request in a
    later world that holds the same entries. *)
Lemma GetJSON_after_record (w w' w2 : World) (key : string)
    (record : entity.IdempotencyCache) :
  Redis w' = {| redis_client := true; redis_up := true;
                server_clock := server_clock (Redis w);
                keyspace := <[key := cached_entry (server_clock (Redis w)) record]>
                              (keyspace (Redis w)) |} ->
  redis_client (Redis w2) = true ->
  redis_up (Redis w2) = true ->
  keyspace (Redis w2) = keyspace (Redis w') ->
  redis_util.GetJSON w2 key
  = if Z.leb (server_clock (Redis w) + 24 * time.Hour) (server_clock (Redis w2))
    then (None, Some RedisNil)
    else (Some record, None).
Proof.
  intros Hr Hc Hu Hk. unfold redis_util.GetJSON, redis_util.client_Get,
    redis_util.expired.
  rewrite Hc, Hu, Hk, Hr. cbn [keyspace negb].
  rewrite lookup_insert_eq. cbn [cached_entry expireAt blob].
  unfold service.ttl_hour.
  destruct (Z.leb (server_clock (Redis w) + 24 * time.Hour) (server_clock (Redis w2)));
    reflexivity.
Qed.

(** X13. At most once, within the day: after the transaction route has
    answered 201 to a request, the same request never reaches the handler
    again in any later world with the same environment in which the cache
    still holds its entries and answers, as long as the server's clock is
    before the instant of the write plus 24 hours, whatever has become of
    the tables. It is answered 200 with the stored response, read back from
    the record (what [json.Marshal] wrote, unmarshalled), and the world is
    left as it is, so that the retry can be repeated at will. *)
Theorem retry_within_a_day_is_replayed
    (bind_json : list byte -> result entity.Transaction)
    (marshal : entity.Transaction -> result string)
    (r : routes.Incoming) (w : World) (resp : httputil.HttpResponse) (w' : World) :
  routes.serve (handler.CreateTransaction bind_json marshal) r w = (resp, w') ->
  httputil.Status resp = 201 ->
  exists created respStr,
    resp = httputil.Created "Transaction created successfully"
             (httputil.TransactionData created)
    /\ marshal created = Ok respStr
    /\ forall w2 v,
         environ w2 = environ w' ->
         redis_client (Redis w2) = true ->
         redis_up (Redis w2) = true ->
         keyspace (Redis w2) = keyspace (Redis w') ->
         server_clock (Redis w2) < server_clock (Redis w) + 24 * time.Hour ->
         json.Unmarshal respStr = Ok v ->
         routes.serve (handler.CreateTransaction bind_json marshal) r w2
         = (httputil.Success "Request already processed" (httputil.any_of_json v), w2).
Proof.
  intros H H201.
  apply serve_CreateTransaction_inv in H
    as [(body & bodyHash & t0 & created & Hl & Hbody & _ & Hbind & Hs & ->)
       | (Hne & _)]; [|congruence].
  apply CreateTransaction_Ok_full in Hs
    as (meta & consumer & record & respStr & ttl & [= <-] & _ & _ & _ & Hcr & _
        & Hm & _ & Hrec & _ & _ & _ & _ & Hr & He & _).
  exists created, respStr. split; [reflexivity|]. split; [exact Hm|].
  intros w2 v He2 Hc2 Hu2 Hk2 Ht Hv. unfold routes.serve. apply run_Abort.
  eapply Enforce_hit_replays.
  - apply (looks_up_environ w); [congruence | exact Hl].
  - rewrite (GetJSON_after_record w w' w2
               (cache_key w (declared_key w (routes.NewContext r))) record
               Hr Hc2 Hu2 Hk2).
    destruct (Z.leb_spec (server_clock (Redis w) + 24 * time.Hour)
                (server_clock (Redis w2))); [lia | reflexivity].
  - rewrite Hrec. reflexivity.
  - rewrite Hrec. exact Hv.
Qed.

(** X14. Within the day, the key of a recorded request is bound to its
    body: in such a later world, a request to the route with a mutating
    method, the same key and a body with another fingerprint gets the 409
    response, does not reach the handler and changes nothing. *)
Theorem other_body_within_a_day_conflicts
    (bind_json : list byte -> result entity.Transaction)
    (marshal : entity.Transaction -> result string)
    (r : routes.Incoming) (w : World) (resp : httputil.HttpResponse) (w' : World) :
  routes.serve (handler.CreateTransaction bind_json marshal) r w = (resp, w') ->
  httputil.Status resp = 201 ->
  forall (r' : routes.Incoming) (body body' : list byte) (h h' : string) (w2 : World),
    routes.Body r = Ok body -> hash_util.Hash256Bytes body = Ok h ->
    routes.Body r' = Ok body' -> hash_util.Hash256Bytes body' = Ok h' ->
    h' <> h ->
    mutating (routes.Method r') = true ->
    declared_key w (routes.NewContext r') = declared_key w (routes.NewContext r) ->
    environ w2 = environ w' ->
    redis_client (Redis w2) = true ->
    redis_up (Redis w2) = true ->
    keyspace (Redis w2) = keyspace (Redis w') ->
    server_clock (Redis w2) < server_clock (Redis w) + 24 * time.Hour ->
    routes.serve (handler.CreateTransaction bind_json marshal) r' w2
    = (httputil.Conflict "Conflict"
         "Request with the same Idempotency-Key but different body has already been processed",
       w2).
Proof.
  intros H H201 r' body body' h h' w2 Hb Hh Hb' Hh' Hne Hmut Hkey He2 Hc2 Hu2 Hk2 Ht.
  apply serve_CreateTransaction_inv in H
    as [(body0 & bodyHash & t0 & created & Hl & Hbody & _ & Hbind & Hs & ->)
       | (Hne' & _)]; [|congruence].
  apply CreateTransaction_Ok_full in Hs
    as (meta & consumer & record & respStr & ttl & [= <-] & _ & _ & _ & Hcr & _
        & Hm & _ & Hrec & _ & _ & _ & _ & Hr & He & _).
  assert (bodyHash = h).
  { destruct Hl as (_ & _ & _ & _ & (b & Hb0 & Hh0) & _).
    cbn [routes.NewContext gin.Body] in Hb0. congruence. }
  subst bodyHash.
  unfold routes.serve. apply run_Abort.
  eapply (Enforce_hit_conflicts _ _
            (cache_key w (declared_key w (routes.NewContext r))) h' record).
  - apply (looks_up_environ w); [congruence|].
    destruct Hl as (Hcfg & Hflag & _ & Hk & _ & _).
    split; [exact Hcfg|]. split; [exact Hflag|]. split; [exact Hmut|].
    split; [rewrite Hkey; exact Hk|]. split; [exists body'; auto|].
    unfold cache_key. rewrite Hkey. reflexivity.
  - rewrite (GetJSON_after_record w w' w2
               (cache_key w (declared_key w (routes.NewContext r))) record
               Hr Hc2 Hu2 Hk2).
    destruct (Z.leb_spec (server_clock (Redis w) + 24 * time.Hour)
                (server_clock (Redis w2))); [lia | reflexivity].
  - rewrite Hrec. cbn [entity.BodyHash injected metacontext.BodyHash]. congruence.
Qed.

Lemma key_taken_clashes (key : string) (t : entity.Transaction)
    (rows : list entity.Transaction) :
  List.In key (List.map entity.IdempotencyCacheKey rows) ->
  entity.IdempotencyCacheKey t = key ->
  existsb (clashes t) rows = true.
Proof.
  intros Hin Hk. apply List.in_map_iff in Hin as (x & Hx & Hin).
  apply List.existsb_exists. exists x. split; [exact Hin|].
  unfold clashes. rewrite Hx, Hk, String.eqb_refl. apply orb_true_r.
Qed.

(** X16. A key is spent for good: once a transaction or a record under the
    key a request declares is in the tables, the transaction route never
    answers that request with 201 again, and leaves the tables and the
    cache as they are, whatever the body, the clock and the cache hold. *)
Theorem spent_key_never_creates_again
    (bind_json : list byte -> result entity.Transaction)
    (marshal : entity.Transaction -> result string)
    (r : routes.Incoming) (w : World) :
  List.In (declared_key w (routes.NewContext r))
    (List.map entity.IdempotencyCacheKey (transactions (Postgres w)))
  \/ List.In (declared_key w (routes.NewContext r))
       (List.map entity.Key (idempotency_cache (Postgres w))) ->
  let out := routes.serve (handler.CreateTransaction bind_json marshal) r w in
  httputil.Status (fst out) <> 201 /\ same_stores w (snd out).
Proof.
  intros Hin out. subst out.
  destruct (routes.serve _ r w) as [resp w'] eqn:H. cbn [fst snd].
  apply serve_CreateTransaction_inv in H
    as [(body & bodyHash & t & created & _ & _ & _ & _ & Hs & _) | Hok];
    [exfalso | exact Hok].
  apply CreateTransaction_Ok_full in Hs
    as (meta & consumer & record & respStr & ttl & [= <-] & _ & _ & _ & Hcr & Hcl
        & _ & _ & _ & Hnone & _).
  destruct Hin as [Hin | Hin].
  - rewrite (key_taken_clashes _ created _ Hin) in Hcl; [discriminate|].
    rewrite Hcr. reflexivity.
  - apply List.in_map_iff in Hin as (x & Hx & Hin).
    apply (List.find_none _ _ Hnone) in Hin.
    unfold repository.has_key in Hin.
    cbn [injected metacontext.Key] in Hin. rewrite Hx, String.eqb_refl in Hin.
    discriminate.
Qed.

(** With the key taken by a transaction, an entity that passes validation
    and belongs to an active consumer fails on the unique constraint. *)
Lemma CreateTransaction_key_taken marshal meta t w consumer :
  postgres_handle (Postgres w) = true ->
  postgres_up (Postgres w) = true ->
  entity.Validate (service.with_IdempotencyCacheKey t (metacontext.Key meta)) = None ->
  List.find (service.has_id (entity.ConsumerID t)) (consumers (Postgres w))
  = Some consumer ->
  entity.ConsumerStatus consumer = entity.ConsumerStatusActive ->
  List.In (metacontext.Key meta)
    (List.map entity.IdempotencyCacheKey (transactions (Postgres w))) ->
  exists w1,
    service.CreateTransaction marshal (Some meta) t w
    = (Err (Wrapf "failed to create transaction"
              (Errorf "duplicate key value violates unique constraint")), w1)
    /\ same_stores w w1.
Proof.
  intros Hh Hup Hv Hc Hact Hin.
  destruct (service.CreateTransaction marshal (Some meta) t w) as [[created|e] w1] eqn:H.
  - exfalso.
    apply CreateTransaction_Ok_full in H
      as (meta' & consumer' & record & respStr & ttl & [= <-] & _ & _ & _ & Hcr & Hcl & _).
    rewrite (key_taken_clashes _ created _ Hin) in Hcl; [discriminate|].
    rewrite Hcr. reflexivity.
  - exists w1. split; [|eapply CreateTransaction_Err; exact H].
    f_equal. f_equal. unfold_transaction H.
    unfold gorm.view, gorm.commit in H. cbn [fold_left] in H.
    apply Validate_None_ConsumerID in Hv as Hid.
    repeat (break_hyp H; cbn beta iota zeta in H; simplify_eq).
    all: try (rewrite ?Hh, ?Hup in *; cbn in *; congruence).
    all: try reflexivity.
    all: try match goal with
             | F : negb (String.eqb _ _) = true |- _ =>
                 cbn [service.with_IdempotencyCacheKey entity.ConsumerID] in *;
                 simplify_eq; rewrite Hact in F; discriminate
             end.
    all: exfalso.
    all: match goal with
         | F : existsb _ (transactions _) = false |- _ =>
             cbn [service.with_Status service.with_IdempotencyCacheKey
                  entity.IdempotencyCacheKey] in F;
             apply List.in_map_iff in Hin as (x & Hx & Hin);
             rewrite <- Bool.not_true_iff_false in F; apply F;
             apply List.existsb_exists; exists x; split; [exact Hin|];
             rewrite Hx, String.eqb_refl; apply orb_true_r
         end.
Qed.

(** X15. After the day, the retry is lost: in a later world with the same
    environment and tables in which the cache answers and holds the same
    entries, once the server's clock has reached the instant of the write
    plus 24 hours, the same request is a miss for the middleware and
    reaches the handler again; the transaction under its key is still in
    the table, the insert fails on the unique constraint, and the client
    gets a 500 response instead of the stored one. Nothing is written. The
    durable record's own expiry is never consulted. *)
Theorem retry_after_a_day_fails
    (bind_json : list byte -> result entity.Transaction)
    (marshal : entity.Transaction -> result string)
    (r : routes.Incoming) (w : World) (resp : httputil.HttpResponse) (w' : World) :
  routes.serve (handler.CreateTransaction bind_json marshal) r w = (resp, w') ->
  httputil.Status resp = 201 ->
  forall w2,
    environ w2 = environ w' ->
    Postgres w2 = Postgres w' ->
    redis_client (Redis w2) = true ->
    redis_up (Redis w2) = true ->
    keyspace (Redis w2) = keyspace (Redis w') ->
    server_clock (Redis w) + 24 * time.Hour <= server_clock (Redis w2) ->
    let out := routes.serve (handler.CreateTransaction bind_json marshal) r w2 in
    httputil.Status (fst out) = 500
    /\ httputil.Message (fst out) = "Failed to create transaction"
    /\ same_stores w2 (snd out).
Proof.
  intros H H201 w2 He2' Hp2 Hc2 Hu2 Hk2 Ht out. subst out.
  apply serve_CreateTransaction_inv in H
    as [(body & bodyHash & t0 & created & Hl & Hbody & _ & Hbind & Hs & ->)
       | (Hne & _)]; [|congruence].
  apply CreateTransaction_Ok_full in Hs
    as (meta & consumer & record & respStr & ttl & [= <-] & Hv & Hc & Hact & Hcr & _
        & _ & _ & _ & _ & Htx & _ & Hcons & Hr & He & _ & _ & _ & Hh' & Hup').
  assert (He2 : environ w2 = environ w) by congruence.
  assert (Hmiss : idempotency.Enforce w2 (routes.NewContext r)
                  = gin.Next (gin.WithContext (gin.with_Body (routes.NewContext r) body)
                                (Some (injected w2 (routes.NewContext r) bodyHash)))).
  { apply (Enforce_miss_proceeds w2 (routes.NewContext r)
             (cache_key w (declared_key w (routes.NewContext r))) bodyHash body).
    - apply (looks_up_environ w); [exact He2 | exact Hl].
    - exact Hbody.
    - rewrite (GetJSON_after_record w w' w2
                 (cache_key w (declared_key w (routes.NewContext r))) record
                 Hr Hc2 Hu2 Hk2).
      destruct (Z.leb_spec (server_clock (Redis w) + 24 * time.Hour)
                  (server_clock (Redis w2))); [reflexivity | lia]. }
  unfold routes.serve. rewrite (run_Next _ _ _ Hmiss).
  unfold handler.CreateTransaction.
  cbn [gin.WithContext gin.with_Body gin.Body gin.Ctx]. rewrite Hbind.
  destruct (CreateTransaction_key_taken marshal
              (injected w2 (routes.NewContext r) bodyHash) t0 w2 consumer)
    as (w3 & -> & Hsame).
  - rewrite Hp2. exact Hh'.
  - rewrite Hp2. exact Hup'.
  - cbn [injected metacontext.Key]. rewrite (declared_key_environ w w2 _ He2).
    exact Hv.
  - rewrite Hp2, Hcons. exact Hc.
  - exact Hact.
  - cbn [injected metacontext.Key]. rewrite (declared_key_environ w w2 _ He2).
    rewrite Hp2, Htx, List.map_app.
    apply List.in_or_app. right. left. rewrite Hcr. reflexivity.
  - cbn. split; [reflexivity|]. split; [reflexivity | exact Hsame].
Qed.

(** ** Reading back what was written *)

Lemma find_app_new {A} (f : A -> bool) (l : list A) (x : A) :
  List.find f l = None -> f x = true -> List.find f (l ++ [x]) = Some x.
Proof.
  induction l as [|y l IH]; cbn; intros Hn Hx; [rewrite Hx; reflexivity|].
  destruct (f y); [discriminate|]. apply IH; assumption.
Qed.

(** X17. Insert, then look up: the record a successful record phase
    returns is the one [GetIdempotencyCacheByKey] then reads from the
    durable table under its key, and the one [GetJSON] reads from the fast
    cache under the prefixed key; neither read changes the world. *)
Theorem record_is_read_back
    (marshal : entity.Transaction -> result string) (ctx : metacontext.Context)
    (p : entity.Transaction) (w w' : World) (created : entity.IdempotencyCache) :
  service.CreateIdempotencyCache marshal ctx p w = (Ok created, w') ->
  service_more.GetIdempotencyCacheByKey (entity.Key created) w' = (Ok created, w')
  /\ redis_util.GetJSON w' (cache_key w' (entity.Key created)) = (Some created, None).
Proof.
  intros H.
  apply CreateIdempotencyCache_Ok in H
    as (meta & respStr & ttl & _ & _ & _ & Hrec & Hnone & Hc & Hu & Hh & Hup & ->).
  assert (Hk : entity.Key created = metacontext.Key meta) by (rewrite Hrec; reflexivity).
  split.
  - cbv beta iota zeta delta [service_more.GetIdempotencyCacheByKey bind gets fail
      service.GetPostgres repository.GetIdempotencyCacheByKey gorm.view gorm.commit].
    cbn [fold_left with_Postgres with_Redis Postgres gorm.apply_write
         postgres_handle postgres_up idempotency_cache].
    rewrite Hh, Hup.
    cbn [negb fold_left with_Postgres with_Redis Postgres gorm.apply_write
         postgres_handle postgres_up idempotency_cache].
    rewrite Hk.
    rewrite (find_app_new _ _ created Hnone); [reflexivity|].
    unfold repository.has_key. rewrite Hk. apply String.eqb_refl.
  - unfold redis_util.GetJSON, redis_util.client_Get, redis_util.expired, cache_key,
      os.Getenv.
    cbn [with_Postgres with_Redis Redis environ clock redis_client redis_up
         server_clock keyspace].
    rewrite Hc, Hu. cbn [negb]. fold (os.Getenv w "IDEMPOTENCY_PREFIX").
    fold (cache_key w (entity.Key created)). rewrite Hk, lookup_insert_eq.
    cbn [cached_entry expireAt blob].
    destruct (Z.leb_spec (server_clock (Redis w) + service.ttl_hour * time.Hour)
                (server_clock (Redis w))) as [Hle|]; [|reflexivity].
    unfold service.ttl_hour, time.Hour in Hle. lia.
Qed.

Lemma no_clash_no_such_id (t : entity.Transaction) (rows : list entity.Transaction) :
  existsb (clashes t) rows = false ->
  List.find (repository_more.has_ID (entity.ID t)) rows = None.
Proof.
  induction rows as [|x l IH]; [reflexivity|].
  cbn [existsb List.find]. unfold clashes at 1, repository_more.has_ID at 1.
  destruct (String.eqb (entity.ID x) (entity.ID t)); cbn [orb]; [discriminate|].
  intros H. apply orb_false_iff in H as [_ H]. exact (IH H).
Qed.

(** X18. Create, then get by id: the entity a successful
    [CreateTransaction] returns is the one [GetTransactionByID] then finds
    under its id, and the handler of GET /transactions/:id answers 200 with
    it, without changing the world. *)
Theorem transaction_is_read_back
    (marshal : entity.Transaction -> result string) (ctx : metacontext.Context)
    (t created : entity.Transaction) (w w' : World) :
  service.CreateTransaction marshal ctx t w = (Ok created, w') ->
  service_more.GetTransactionByID (entity.ID created) w' = (Ok created, w')
  /\ (entity.ID created <> "" ->
      handler_more.GetTransactionByID (entity.ID created) w'
      = (httputil.Success "Transaction retrieved successfully"
           (httputil.TransactionData created), w')).
Proof.
  intros H.
  apply CreateTransaction_Ok_full in H
    as (meta & consumer & record & respStr & ttl & _ & _ & _ & _ & Hcr & Hcl & _ & _
        & _ & _ & Htx & _ & _ & _ & _ & _ & _ & _ & Hh' & Hup').
  assert (Hget : service_more.GetTransactionByID (entity.ID created) w'
                 = (Ok created, w')).
  { cbv beta iota zeta delta [service_more.GetTransactionByID bind gets fail
      service.GetPostgres repository_more.GetTransactionByID gorm.view gorm.commit].
    rewrite Hh'. cbv beta iota zeta delta [negb]. cbn [fold_left].
    rewrite Hup'. cbv beta iota zeta delta [negb]. rewrite Htx.
    rewrite (find_app_new _ _ created); [reflexivity| |].
    - apply no_clash_no_such_id. exact Hcl.
    - unfold repository_more.has_ID. apply String.eqb_refl. }
  split; [exact Hget|]. intros Hid.
  unfold handler_more.GetTransactionByID. rewrite Hget.
  destruct (String.eqb_spec (entity.ID created) ""); [congruence | reflexivity].
Qed.

(** ** The update path *)

(** A failed update leaves the world as it was. *)
Lemma UpdateIdempotencyCache_Err marshal key p w e w' :
  service_more.UpdateIdempotencyCache marshal key p w = (Err e, w') -> w' = w.
Proof.
  intros H. unfold_update H.
  repeat (break_hyp H; cbn beta iota zeta in H; simplify_eq); reflexivity.
Qed.

(** What a successful update did. *)
Lemma UpdateIdempotencyCache_Ok marshal key p w updated w' :
  service_more.UpdateIdempotencyCache marshal key p w = (Ok updated, w') ->
  exists existing respStr,
    List.find (repository.has_key key) (idempotency_cache (Postgres w)) = Some existing
    /\ marshal p = Ok respStr
    /\ updated = service_more.with_payload existing respStr (clock w)
    /\ redis_client (Redis w) = true /\ redis_up (Redis w) = true
    /\ postgres_handle (Postgres w) = true /\ postgres_up (Postgres w) = true
    /\ idempotency_cache (Postgres w')
       = gorm_save.save_row (idempotency_cache (Postgres w)) updated
    /\ transactions (Postgres w') = transactions (Postgres w)
    /\ consumers (Postgres w') = consumers (Postgres w)
    /\ keyspace (Redis w')
       = <[cache_key w key := cached_entry (server_clock (Redis w)) updated]>
           (keyspace (Redis w))
    /\ environ w' = environ w.
Proof.
  intros H. unfold_update H.
  unfold gorm.view, gorm.commit, gorm_save.view, gorm_save.commit in H.
  cbn [fold_left] in H.
  repeat (break_hyp H; cbn beta iota zeta in H; simplify_eq).
  all: cbn [entity.Key] in *; try congruence.
  all: repeat match goal with
              | F : negb _ = false |- _ => apply negb_false_iff in F
              end.
  all: eexists _, _.
  all: repeat (split; [first [reflexivity | eassumption]|]).
  all: first [reflexivity | eassumption].
Qed.

(** X19. Updating a key that has no record: [UpdateIdempotencyCache] fails
    and leaves the world as it was; with the handle and the server there
    and a payload that marshals, the error is gorm's record-not-found, so
    the test for an empty key that follows the lookup has nothing to catch
    for a key that is not empty. *)
Theorem UpdateIdempotencyCache_unknown_key
    (marshal : entity.Transaction -> result string) (key : string)
    (p : entity.Transaction) (w : World) :
  List.find (repository.has_key key) (idempotency_cache (Postgres w)) = None ->
  (exists e, service_more.UpdateIdempotencyCache marshal key p w = (Err e, w))
  /\ (postgres_handle (Postgres w) = true ->
      postgres_up (Postgres w) = true ->
      is_Ok (marshal p) = true ->
      service_more.UpdateIdempotencyCache marshal key p w = (Err ErrRecordNotFound, w)).
Proof.
  intros Hnone.
  assert (Herr : exists e, service_more.UpdateIdempotencyCache marshal key p w
                           = (Err e, w)).
  { destruct (service_more.UpdateIdempotencyCache marshal key p w)
      as [[updated|e] w'] eqn:E.
    - apply UpdateIdempotencyCache_Ok in E as (existing & respStr & Hf & _).
      congruence.
    - apply UpdateIdempotencyCache_Err in E as ->. eauto. }
  split; [exact Herr|]. intros Hh Hup Hm.
  destruct Herr as [e He]. rewrite He. f_equal. f_equal.
  unfold_update He.
  unfold gorm.view, gorm.commit in He. cbn [fold_left] in He.
  repeat (break_hyp He; cbn beta iota zeta in He; simplify_eq).
  all: try reflexivity.
  all: rewrite ?Hh, ?Hup in *; cbn in *; congruence.
Qed.

(** X20. What a successful update changes and what it keeps: the record
    under the key gets the marshalled payload and the time of the update,
    and keeps its key, its body hash, its creation time and its durable
    expiry; the table keeps its length and the other tables their rows; the
    cache entry under the prefixed key is overwritten with the updated
    record and a fresh TTL of 24 hours, so an update extends the life of the
    cache entry but not that of the durable record. *)
Theorem UpdateIdempotencyCache_success
    (marshal : entity.Transaction -> result string) (key : string)
    (p : entity.Transaction) (w w' : World) (updated : entity.IdempotencyCache) :
  service_more.UpdateIdempotencyCache marshal key p w = (Ok updated, w') ->
  exists existing,
    List.find (repository.has_key key) (idempotency_cache (Postgres w)) = Some existing
    /\ marshal p = Ok (entity.ResponsePayload updated)
    /\ entity.UpdatedAt updated = clock w
    /\ entity.Key updated = key
    /\ entity.BodyHash updated = entity.BodyHash existing
    /\ entity.CreatedAt updated = entity.CreatedAt existing
    /\ entity.ExpiredAt updated = entity.ExpiredAt existing
    /\ List.In updated (idempotency_cache (Postgres w'))
    /\ List.length (idempotency_cache (Postgres w'))
       = List.length (idempotency_cache (Postgres w))
    /\ transactions (Postgres w') = transactions (Postgres w)
    /\ keyspace (Redis w') !! cache_key w key
       = Some {| blob := JSONOf updated;
                 expireAt := Some (server_clock (Redis w) + 24 * time.Hour) |}.
Proof.
  intros H.
  apply UpdateIdempotencyCache_Ok in H
    as (existing & respStr & Hf & Hm & -> & _ & _ & _ & _ & Hi & Ht & _ & Hk & _).
  pose proof (List.find_some _ _ Hf) as [Hin Hkey].
  apply String.eqb_eq in Hkey.
  assert (Hex : existsb (repository.has_key (entity.Key existing))
                  (idempotency_cache (Postgres w)) = true).
  { apply List.existsb_exists. exists existing. split; [exact Hin|].
    apply String.eqb_refl. }
  exists existing. split; [exact Hf|]. split; [exact Hm|].
  split; [reflexivity|]. split; [exact Hkey|].
  do 3 (split; [reflexivity|]).
  unfold gorm_save.save_row in Hi.
  cbn [service_more.with_payload entity.Key] in Hi. rewrite Hex in Hi.
  split; [|split; [|split]].
  - rewrite Hi. apply List.in_map_iff. exists existing. split; [|exact Hin].
    unfold repository.has_key. rewrite String.eqb_refl. reflexivity.
  - rewrite Hi. apply List.length_map.
  - exact Ht.
  - rewrite Hk. apply lookup_insert_eq.
Qed.

(** X21. An update with the cache down: when there is no client or the
    server does not answer, [UpdateIdempotencyCache] returns an error and
    leaves the world as it was: the update of the durable row is rolled
    back with it. *)
Theorem UpdateIdempotencyCache_cache_failure_rolls_back
    (marshal : entity.Transaction -> result string) (key : string)
    (p : entity.Transaction) (w : World) :
  cache_unavailable w ->
  exists e, service_more.UpdateIdempotencyCache marshal key p w = (Err e, w).
Proof.
  intros Hcache.
  destruct (service_more.UpdateIdempotencyCache marshal key p w)
    as [[updated|e] w'] eqn:E.
  - apply UpdateIdempotencyCache_Ok in E
      as (existing & respStr & _ & _ & _ & Hc & Hu & _).
    destruct Hcache; congruence.
  - apply UpdateIdempotencyCache_Err in E as ->. eauto.
Qed.

(** ** config/cache *)

(** X22. [InitRedis] connects at most once: once a call has returned,
    whatever it returned, every later call returns [true] at once and
    changes nothing, whatever the environment and the server have become;
    and the first call does not touch the keys unless REDIS_FLUSH_DB is
    TRUE. *)
Theorem InitRedis_runs_once (o : cache.Outside) (s s' : cache.State) (b : bool) :
  cache.InitRedis o s = cache.Returns b s' ->
  cache.once s' = true
  /\ (forall o', cache.InitRedis o' s' = cache.Returns true s')
  /\ (cache.getenv o "REDIS_FLUSH_DB" <> "TRUE" -> cache.keys s' = cache.keys s).
Proof.
  unfold cache.InitRedis.
  destruct (cache.once s) eqn:Hon.
  - intros [= <- <-]. split; [exact Hon|]. split; [|reflexivity].
    intros o'. rewrite Hon. reflexivity.
  - destruct (cache.connect o s) as [isSuccess s1|s1] eqn:Hc; [|discriminate].
    intros [= <- <-]. split; [reflexivity|]. split; [reflexivity|].
    intros Hflush. cbn [cache.set_once cache.keys].
    revert Hc. unfold cache.connect, cache.LoadRedisEnv. cbn [cache.RedisDB
      cache.RedisHost cache.RedisPort cache.IsFlushDB].
    repeat match goal with
           | |- context [if ?x then _ else _] => destruct x eqn:?
           | |- context [match cache.ping o with _ => _ end] => destruct (cache.ping o)
           | |- context [match cache.flush o with _ => _ end] => destruct (cache.flush o)
           end.
    all: try discriminate.
    all: try (intros [= <- <-]; reflexivity).
    all: try match goal with
             | F : String.eqb _ "TRUE" = true |- _ =>
                 apply String.eqb_eq in F; cbn in F; congruence
             end.
Qed.

Ltac state_fields :=
  cbn [cache.RedisDB cache.RedisHost cache.RedisPort cache.RedisUser cache.RedisPass
       cache.IsFlushDB cache.RedisClient cache.once cache.keys orb].

Ltac run_connect :=
  unfold cache.GetRedisClient, cache.InitRedis, cache.connect, cache.LoadRedisEnv,
    cache.CloseRedis, cache.set_RedisClient, cache.set_once, cache.set_keys;
  state_fields.

(** X23. The first [GetRedisClient] of a process, with the required
    variables set and a server that answers PING: it returns the client
    built from the environment, at host:port, on the database REDIS_DB
    names, and on database 0 when REDIS_DB is not a number (the error of
    [strconv.Atoi] is dropped); the keys are flushed exactly when
    REDIS_FLUSH_DB is TRUE, and then only if the flush succeeds. *)
Theorem GetRedisClient_first_connects (o : cache.Outside) (s : cache.State) :
  cache.once s = false ->
  cache.RedisClient s = None ->
  redis_env_set o ->
  cache.ping o = None ->
  (cache.getenv o "REDIS_FLUSH_DB" = "TRUE" -> cache.flush o = None) ->
  exists s',
    cache.GetRedisClient o s = cache.Returns (Some (client_of_env o)) s'
    /\ cache.RedisClient s' = Some (client_of_env o)
    /\ cache.once s' = true
    /\ (is_Ok (strconv.Atoi (cache.getenv o "REDIS_DB")) = false ->
        cache.DB (client_of_env o) = 0)
    /\ cache.keys s' = if String.eqb (cache.getenv o "REDIS_FLUSH_DB") "TRUE"
                       then ∅ else cache.keys s.
Proof.
  intros Hon Hcl (Hdb & Hhost & Hport) Hping Hflush.
  assert (Hzero : is_Ok (strconv.Atoi (cache.getenv o "REDIS_DB")) = false ->
                  cache.DB (client_of_env o) = 0).
  { unfold client_of_env. cbn [cache.DB].
    destruct (strconv.Atoi (cache.getenv o "REDIS_DB")); [discriminate | reflexivity]. }
  destruct s as [on cl db host port user pass fl ks].
  cbn [cache.once cache.RedisClient] in Hon, Hcl. subst on cl.
  run_connect. rewrite Hdb, Hhost, Hport. state_fields. rewrite Hping. state_fields.
  destruct (String.eqb (cache.getenv o "REDIS_FLUSH_DB") "TRUE") eqn:Hf.
  - apply String.eqb_eq in Hf. rewrite (Hflush Hf). state_fields.
    eexists. split; [reflexivity|]. split; [reflexivity|]. split; [reflexivity|].
    split; [exact Hzero | reflexivity].
  - eexists. split; [reflexivity|]. split; [reflexivity|]. split; [reflexivity|].
    split; [exact Hzero | reflexivity].
Qed.

(** X24. A failed start is final: when a required variable is missing and
    the logger's [Panic] returns, the first [GetRedisClient] returns no
    client, and so does every later call, also after the environment has
    been repaired, because the [sync.Once] has run. *)
Theorem GetRedisClient_failed_start_is_final (o : cache.Outside) (s : cache.State) :
  cache.once s = false ->
  cache.RedisClient s = None ->
  cache.getenv o "REDIS_DB" = "" \/ cache.getenv o "REDIS_HOST" = ""
  \/ cache.getenv o "REDIS_PORT" = "" ->
  cache.Panic_returns o = true ->
  exists s',
    cache.GetRedisClient o s = cache.Returns None s'
    /\ forall o', cache.GetRedisClient o' s' = cache.Returns None s'.
Proof.
  intros Hon Hcl Hmiss Hpanic.
  assert (Hguard : String.eqb (cache.getenv o "REDIS_DB") ""
                   || String.eqb (cache.getenv o "REDIS_HOST") ""
                   || String.eqb (cache.getenv o "REDIS_PORT") "" = true).
  { destruct Hmiss as [H | [H | H]]; rewrite H; cbn [String.eqb orb];
      rewrite ?orb_true_r; reflexivity. }
  destruct s as [on cl db host port user pass fl ks].
  cbn [cache.once cache.RedisClient] in Hon, Hcl. subst on cl.
  run_connect. rewrite Hguard, Hpanic. state_fields.
  eexists. split; [reflexivity|]. intros o'. reflexivity.
Qed.

(** X25. A failed flush is reported once: with the server answering PING,
    REDIS_FLUSH_DB set to TRUE and a flush that fails, the first
    [GetRedisClient] returns no client although one has been created and is
    kept; every later call returns that client; the keys are untouched. *)
Theorem GetRedisClient_failed_flush_is_reported_once
    (o : cache.Outside) (s : cache.State) (e : error) :
  cache.once s = false ->
  cache.RedisClient s = None ->
  redis_env_set o ->
  cache.ping o = None ->
  cache.getenv o "REDIS_FLUSH_DB" = "TRUE" ->
  cache.flush o = Some e ->
  exists s',
    cache.GetRedisClient o s = cache.Returns None s'
    /\ (forall o', cache.GetRedisClient o' s'
                   = cache.Returns (Some (client_of_env o)) s')
    /\ cache.keys s' = cache.keys s.
Proof.
  intros Hon Hcl (Hdb & Hhost & Hport) Hping Hf Hflush.
  destruct s as [on cl db host port user pass fl ks].
  cbn [cache.once cache.RedisClient] in Hon, Hcl. subst on cl.
  run_connect. rewrite Hdb, Hhost, Hport. state_fields. rewrite Hping. state_fields.
  rewrite Hf. cbn [String.eqb Ascii.eqb Bool.eqb]. rewrite Hflush. state_fields.
  eexists. split; [reflexivity|]. split; [|reflexivity].
  intros o'. reflexivity.
Qed.

(** X26. [CloseRedis] and the [sync.Once]: closing a connected client drops
    it but leaves the [sync.Once] as run, so the next [GetRedisClient]
    returns no client and does not reconnect; only a second [CloseRedis],
    which finds no client, resets the [sync.Once], and then
    [GetRedisClient] connects again as a first call does. *)
Theorem CloseRedis_needs_two_calls_to_reconnect
    (o : cache.Outside) (s : cache.State) (c : cache.Client) :
  cache.RedisClient s = Some c ->
  cache.once s = true ->
  cache.GetRedisClient o (cache.CloseRedis s) = cache.Returns None (cache.CloseRedis s)
  /\ cache.once (cache.CloseRedis (cache.CloseRedis s)) = false
  /\ cache.RedisClient (cache.CloseRedis (cache.CloseRedis s)) = None
  /\ (redis_env_set o ->
      cache.ping o = None ->
      cache.getenv o "REDIS_FLUSH_DB" <> "TRUE" ->
      exists s',
        cache.GetRedisClient o (cache.CloseRedis (cache.CloseRedis s))
        = cache.Returns (Some (client_of_env o)) s').
Proof.
  intros Hcl Hon.
  destruct s as [on cl db host port user pass fl ks].
  cbn [cache.once cache.RedisClient] in Hon, Hcl. subst on cl.
  split; [reflexivity|]. split; [reflexivity|]. split; [reflexivity|].
  intros (Hdb & Hhost & Hport) Hping Hf.
  run_connect. rewrite Hdb, Hhost, Hport. state_fields. rewrite Hping. state_fields.
  destruct (String.eqb_spec (cache.getenv o "REDIS_FLUSH_DB") "TRUE");
    [congruence|].
  eexists. reflexivity.
Qed.

(** * The statements at concrete inputs *)

(** ** The claims at concrete inputs *)

Lemma sample_looks_up (r : RedisServer) (d : Database) (method : string)
    (body : list byte) (hash : string) :
  mutating method = true ->
  hash_util.Hash256Bytes body = Ok hash ->
  looks_up (sample.deployed r d) (sample.request method sample.K1 body)
    ("idempotency_cache:" ++ sample.K1) hash.
Proof.
  intros Hm Hh. unfold looks_up, config_set, flag_TRUE.
  split; [repeat split|]. split; [reflexivity|]. split; [exact Hm|].
  split; [reflexivity|]. split; [|reflexivity].
  exists body. split; [reflexivity | exact Hh].
Qed.

Lemma sample_hash1 : hash_util.Hash256Bytes sample.body1 = Ok sample.hash1.
Proof. vm_compute. reflexivity. Qed.

Lemma sample_hash2 : hash_util.Hash256Bytes sample.body2 = Ok sample.hash2.
Proof. vm_compute. reflexivity. Qed.

Lemma sample_marshal_status_valid (t : entity.Transaction) (s : string) :
  sample.marshal_status t = Ok s -> is_Ok (json.Unmarshal s) = true.
Proof.
  unfold sample.marshal_status. intros [= <-].
  destruct (String.eqb (entity.Status t) "pending"); vm_compute; reflexivity.
Qed.

Lemma sample_recorded_looks_up :
  looks_up sample.recorded (sample.request "POST" sample.K1 sample.body1)
    ("idempotency_cache:" ++ sample.K1) sample.hash1.
Proof.
  unfold looks_up, config_set, flag_TRUE.
  split; [repeat split; vm_compute; reflexivity|].
  split; [vm_compute; reflexivity|]. split; [reflexivity|].
  split; [vm_compute; reflexivity|]. split; [|vm_compute; reflexivity].
  exists sample.body1. split; [reflexivity | exact sample_hash1].
Qed.

(** C1 at a concrete input: the first request under K1 is recorded, its
    retry is answered from the cache with what the record holds. *)
Lemma C1_witness_retry_is_replayed :
  written_by_program sample.bind_json sample.marshal_status sample.recorded
  /\ (exists r, redis_util.GetJSON sample.recorded ("idempotency_cache:" ++ sample.K1)
                = (Some r, None)
                /\ entity.BodyHash r = sample.hash1)
  /\ idempotency.Enforce sample.recorded (sample.request "POST" sample.K1 sample.body1)
     = gin.Abort (httputil.Success "Request already processed"
                    (httputil.JSON (json.Object [("status", json.Str "pending")]))).
Proof.
  assert (Hw : written_by_program sample.bind_json sample.marshal_status
                 sample.recorded)
    by (apply after_request; apply cache_empty; reflexivity).
  destruct (redis_util.GetJSON sample.recorded ("idempotency_cache:" ++ sample.K1))
    as [[r|] err] eqn:Hget; [|vm_compute in Hget; discriminate].
  assert (Herr : err = None) by (vm_compute in Hget; congruence).
  assert (Hhash : entity.BodyHash r = sample.hash1)
    by (vm_compute in Hget; injection Hget as <- _; reflexivity).
  assert (Hpay : entity.ResponsePayload r
                 = "{" ++ json.quoted "status" ++ ":" ++ json.quoted "pending" ++ "}")
    by (vm_compute in Hget; injection Hget as <- _; reflexivity).
  subst err.
  split; [exact Hw|]. split; [exists r; split; [reflexivity | exact Hhash]|].
  destruct (C1_hit_with_same_hash_replays sample.bind_json sample.marshal_status
              sample.recorded (sample.request "POST" sample.K1 sample.body1)
              ("idempotency_cache:" ++ sample.K1) sample.hash1 r
              sample_recorded_looks_up Hget Hhash) as (_ & Hreplay).
  destruct (Hreplay sample_marshal_status_valid Hw) as (v & Hv & HE & _).
  rewrite Hpay in Hv. vm_compute in Hv. injection Hv as <-. exact HE.
Defined.

(** C2 at a concrete input: K1 is cached for body1, the request carries
    body2. *)
Lemma C2_witness_other_body_conflicts :
  redis_util.GetJSON (sample.cached_world sample.payload1)
    ("idempotency_cache:" ++ sample.K1)
  = (Some (sample.record sample.payload1), None)
  /\ String.eqb (entity.BodyHash (sample.record sample.payload1)) sample.hash2 = false
  /\ idempotency.Enforce (sample.cached_world sample.payload1)
       (sample.request "POST" sample.K1 sample.body2)
     = gin.Abort (httputil.Conflict "Conflict"
         "Request with the same Idempotency-Key but different body has already been processed").
Proof.
  split; [vm_compute; reflexivity|]. split; [vm_compute; reflexivity|].
  apply (C2_hit_with_other_hash_conflicts
           (sample.cached_world sample.payload1)
           (sample.request "POST" sample.K1 sample.body2)
           ("idempotency_cache:" ++ sample.K1) sample.hash2
           (sample.record sample.payload1)
           (sample_looks_up _ _ "POST" _ _ eq_refl sample_hash2)).
  - vm_compute; reflexivity.
  - vm_compute; reflexivity.
Defined.

(** C8 at a concrete input: the Redis server is down. *)
Lemma C8_witness_redis_down :
  redis_util.GetJSON (sample.deployed (sample.redis false ∅) (sample.database []))
    ("idempotency_cache:" ++ sample.K1)
  = (None, Some (Errorf "dial tcp: connection refused"))
  /\ idempotency.Enforce (sample.deployed (sample.redis false ∅) (sample.database []))
       (sample.request "POST" sample.K1 sample.body1)
     = gin.Abort (httputil.InternalServerError "Internal Server Error"
                    "dial tcp: connection refused").
Proof.
  split; [vm_compute; reflexivity|].
  apply (C8_cache_error_in_lookup_is_fatal
           (sample.deployed (sample.redis false ∅) (sample.database []))
           (sample.request "POST" sample.K1 sample.body1)
           ("idempotency_cache:" ++ sample.K1) sample.hash1 None
           (Errorf "dial tcp: connection refused")
           (sample_looks_up _ _ "POST" _ _ eq_refl sample_hash1)).
  - vm_compute; reflexivity.
  - discriminate.
Defined.

(** C10 at a concrete input: the flag is not set, the other two are. *)
Lemma C10_witness_flag_not_set :
  os.Getenv (sample.world (sample.env_without "IDEMPOTENCY_ENABLED")
               (sample.redis true ∅) (sample.database []))
    "IDEMPOTENCY_ENABLED" = ""
  /\ idempotency.Enforce
       (sample.world (sample.env_without "IDEMPOTENCY_ENABLED")
          (sample.redis true ∅) (sample.database []))
       (sample.request "POST" sample.K1 sample.body1)
     = gin.Abort (httputil.InternalServerError "Internal Server Error"
         "Idempotency enabled, key header, or prefix environment variables are not set").
Proof.
  split; [vm_compute; reflexivity|].
  apply (C10_empty_config_aborts_with_500
           (sample.world (sample.env_without "IDEMPOTENCY_ENABLED")
              (sample.redis true ∅) (sample.database []))
           (sample.request "POST" sample.K1 sample.body1)).
  left. vm_compute. reflexivity.
Defined.

(** C7 at concrete inputs: a GET, and a POST with no key header. *)
Lemma C7_witness_get_then_missing_key :
  idempotency.Enforce (sample.deployed (sample.redis true ∅) (sample.database []))
    (sample.request "GET" sample.K1 sample.body1)
  = gin.Abort (httputil.MethodNotAllowed "Method Not Allowed"
      "Idempotency middleware only supports POST, PUT, or DELETE methods")
  /\ idempotency.Enforce (sample.deployed (sample.redis true ∅) (sample.database []))
       (sample.request "POST" "" sample.body1)
     = gin.Abort (httputil.BadRequest "Bad Request"
         "Idempotency key header 'Idempotency-Key' is required").
Proof.
  split.
  - apply (C7_method_then_key_rules
             (sample.deployed (sample.redis true ∅) (sample.database []))
             (sample.request "GET" sample.K1 sample.body1));
      [repeat split | reflexivity | reflexivity].
  - apply (C7_method_then_key_rules
             (sample.deployed (sample.redis true ∅) (sample.database []))
             (sample.request "POST" "" sample.body1));
      [repeat split | reflexivity | reflexivity | reflexivity].
Defined.

(** C7 as stated fails: the flag is TRUE, the prefix is not set, and a GET
    gets 500, not 405. *)
Lemma C7_counterexample_prefix_not_set :
  os.Getenv (sample.world (sample.env_without "IDEMPOTENCY_PREFIX")
               (sample.redis true ∅) (sample.database []))
    "IDEMPOTENCY_ENABLED" = "TRUE"
  /\ mutating "GET" = false
  /\ idempotency.Enforce
       (sample.world (sample.env_without "IDEMPOTENCY_PREFIX")
          (sample.redis true ∅) (sample.database []))
       (sample.request "GET" sample.K1 sample.body1)
     = gin.Abort (httputil.InternalServerError "Internal Server Error"
         "Idempotency enabled, key header, or prefix environment variables are not set")
  /\ httputil.Status (httputil.InternalServerError "Internal Server Error"
         "Idempotency enabled, key header, or prefix environment variables are not set")
     = 500.
Proof. vm_compute. repeat split. Qed.

(** C6 as stated fails: the flag is not set to TRUE (it is not set at all),
    and the request does not proceed to the handler: it gets 500. *)
Lemma C6_counterexample_flag_not_set :
  String.eqb
    (os.Getenv (sample.world (sample.env_without "IDEMPOTENCY_ENABLED")
                  (sample.redis true ∅) (sample.database []))
       "IDEMPOTENCY_ENABLED") "TRUE" = false
  /\ idempotency.Enforce
       (sample.world (sample.env_without "IDEMPOTENCY_ENABLED")
          (sample.redis true ∅) (sample.database []))
       (sample.request "POST" sample.K1 sample.body1)
     = gin.Abort (httputil.InternalServerError "Internal Server Error"
         "Idempotency enabled, key header, or prefix environment variables are not set")
  /\ httputil.Status (httputil.InternalServerError "Internal Server Error"
         "Idempotency enabled, key header, or prefix environment variables are not set")
     = 500.
Proof. vm_compute. repeat split. Qed.

(** C6 at a concrete input: the flag is FALSE; a GET with no key passes
    the middleware, and a POST to the transaction route leaves the world as
    it was. *)
Lemma C6_witness_flag_FALSE :
  idempotency.Enforce
    (sample.world (sample.env "FALSE" "24") (sample.redis true ∅) (sample.database []))
    (sample.request "GET" "" [])
  = gin.Next (sample.request "GET" "" [])
  /\ snd (routes.serve (handler.CreateTransaction sample.bind_json sample.marshal)
            (sample.incoming "POST" sample.K1 sample.body1)
            (sample.world (sample.env "FALSE" "24") (sample.redis true ∅)
               (sample.database [])))
     = sample.world (sample.env "FALSE" "24") (sample.redis true ∅) (sample.database []).
Proof.
  pose proof (C6_flag_off_passes_every_request_through
                sample.bind_json sample.marshal
                (sample.world (sample.env "FALSE" "24") (sample.redis true ∅)
                   (sample.database []))
                ltac:(repeat split) eq_refl) as (Hnext & _ & Hserve).
  split; [apply Hnext|].
  apply (Hserve (sample.incoming "POST" sample.K1 sample.body1)).
Defined.

(** C3 as stated fails: every step in front of the cache write succeeds,
    the Redis server is down, and the record phase returns the error of the
    cache write; the durable table holds no record afterwards, and the
    business transaction is rolled back with it. *)
Lemma C3_counterexample_redis_down_no_durable_record :
  service.CreateIdempotencyCache sample.marshal (Some sample.meta) sample.transaction
    (sample.deployed (sample.redis false ∅) (sample.database []))
  = (Err (Wrapf "failed to set idempotency key in Redis"
            (Errorf "dial tcp: connection refused")),
     sample.deployed (sample.redis false ∅) (sample.database []))
  /\ idempotency_cache
       (Postgres (sample.deployed (sample.redis false ∅) (sample.database []))) = []
  /\ fst (service.CreateTransaction sample.marshal (Some sample.meta) sample.transaction
            (sample.deployed (sample.redis false ∅) (sample.database [])))
     = Err (Wrapf "failed to set idempotency key in Redis"
              (Errorf "dial tcp: connection refused"))
  /\ Postgres (snd (service.CreateTransaction sample.marshal (Some sample.meta)
                      sample.transaction
                      (sample.deployed (sample.redis false ∅) (sample.database []))))
     = sample.database [].
Proof. vm_compute. repeat split. Qed.

(** C3 at a concrete input: the same world, through the theorem. *)
Lemma C3_witness_redis_down :
  cache_unavailable (sample.deployed (sample.redis false ∅) (sample.database []))
  /\ reaches_cache_write sample.marshal (Some sample.meta) sample.transaction
       (sample.deployed (sample.redis false ∅) (sample.database []))
  /\ exists cause,
       service.CreateIdempotencyCache sample.marshal (Some sample.meta)
         sample.transaction
         (sample.deployed (sample.redis false ∅) (sample.database []))
       = (Err (Wrapf "failed to set idempotency key in Redis" cause),
          sample.deployed (sample.redis false ∅) (sample.database [])).
Proof.
  assert (Hc : cache_unavailable
                 (sample.deployed (sample.redis false ∅) (sample.database [])))
    by (right; reflexivity).
  assert (Hr : reaches_cache_write sample.marshal (Some sample.meta)
                 sample.transaction
                 (sample.deployed (sample.redis false ∅) (sample.database []))).
  { repeat (split; [reflexivity|]). exists sample.meta. split; reflexivity. }
  split; [exact Hc|]. split; [exact Hr|].
  apply (C3_cache_write_failure_rolls_back sample.marshal (Some sample.meta)
           sample.transaction
           (sample.deployed (sample.redis false ∅) (sample.database [])) Hc).
  exact Hr.
Defined.

(** C4 at a concrete input: K1 is in the durable table and not in the
    cache (evicted). *)
Lemma C4_witness_durable_record_without_cache_entry :
  List.find (repository.has_key (metacontext.Key sample.meta))
    (idempotency_cache
       (Postgres (sample.deployed (sample.redis true ∅)
                    (sample.database [sample.record sample.payload1]))))
  = Some (sample.record sample.payload1)
  /\ service.CreateIdempotencyCache sample.marshal (Some sample.meta) sample.transaction
       (sample.deployed (sample.redis true ∅)
          (sample.database [sample.record sample.payload1]))
     = (Err (Errorf ("idempotency key " ++ sample.K1 ++ " already exists")),
        sample.deployed (sample.redis true ∅)
          (sample.database [sample.record sample.payload1])).
Proof.
  split; [reflexivity|].
  apply (C4_existing_durable_record_aborts_unit_of_work sample.marshal sample.meta
           sample.transaction
           (sample.deployed (sample.redis true ∅)
              (sample.database [sample.record sample.payload1]))
           (sample.record sample.payload1) eq_refl).
  - repeat split; reflexivity.
  - reflexivity.
Defined.

(** C5 as stated fails: with IDEMPOTENCY_TTL_HOURS=1 the durable record
    expires one hour after its creation and the cache entry 24 hours after
    the server executed the write, a later horizon than the durable
    record's. *)
Lemma C5_counterexample_ttl_one_hour :
  fst (service.CreateIdempotencyCache sample.marshal (Some sample.meta)
         sample.transaction
         (sample.world (sample.env "TRUE" "1") (sample.redis true ∅)
            (sample.database [])))
  = Ok (sample.created 1)
  /\ keyspace
       (Redis (snd (service.CreateIdempotencyCache sample.marshal (Some sample.meta)
                      sample.transaction
                      (sample.world (sample.env "TRUE" "1") (sample.redis true ∅)
                         (sample.database [])))))
     !! ("idempotency_cache:" ++ sample.K1)
     = Some {| blob := JSONOf (sample.created 1);
               expireAt := Some (sample.now + sample.lag + 24 * time.Hour) |}
  /\ entity.ExpiredAt (sample.created 1) = sample.now + 1 * time.Hour
  /\ Z.ltb (entity.ExpiredAt (sample.created 1))
           (sample.now + sample.lag + 24 * time.Hour) = true.
Proof. vm_compute. repeat split. Qed.

(** C5 at a concrete input: IDEMPOTENCY_TTL_HOURS=48, where the horizon of
    the cache entry is the earlier one. *)
Lemma C5_witness_ttl_48 :
  service.CreateIdempotencyCache sample.marshal (Some sample.meta) sample.transaction
    (sample.world (sample.env "TRUE" "48") (sample.redis true ∅) (sample.database []))
  = (Ok (sample.created 48),
     snd (service.CreateIdempotencyCache sample.marshal (Some sample.meta)
            sample.transaction
            (sample.world (sample.env "TRUE" "48") (sample.redis true ∅)
               (sample.database []))))
  /\ exists entry,
       keyspace
         (Redis (snd (service.CreateIdempotencyCache sample.marshal (Some sample.meta)
                        sample.transaction
                        (sample.world (sample.env "TRUE" "48") (sample.redis true ∅)
                           (sample.database [])))))
       !! ("idempotency_cache:" ++ sample.K1) = Some entry
       /\ expireAt entry = Some (sample.now + sample.lag + 24 * time.Hour)
       /\ sample.now + sample.lag + 24 * time.Hour
          <= entity.ExpiredAt (sample.created 48).
Proof.
  assert (H : service.CreateIdempotencyCache sample.marshal (Some sample.meta)
                sample.transaction
                (sample.world (sample.env "TRUE" "48") (sample.redis true ∅)
                   (sample.database []))
              = (Ok (sample.created 48),
                 snd (service.CreateIdempotencyCache sample.marshal (Some sample.meta)
                        sample.transaction
                        (sample.world (sample.env "TRUE" "48") (sample.redis true ∅)
                           (sample.database [])))))
    by (vm_compute; reflexivity).
  split; [exact H|].
  destruct (C5_durable_ttl_configured_cache_ttl_fixed _ _ _ _ _ _ H)
    as (ttl & entry & Ha & _ & _ & _ & _ & Hl & _ & He & Hiff & _).
  exists entry. split; [exact Hl|]. split; [exact He|].
  apply Hiff. vm_compute in Ha. injection Ha as <-. vm_compute. discriminate.
Defined.

(** ** Test vectors and scenarios *)

Example sha256_abc :
  hash_util.Hash256String "abc"
  = Ok "ba7816bf8f01cfea414140de5dae2223b00361a396177a9cb410ff61f20015ad".
Proof. vm_compute. reflexivity. Qed.

Example sha256_empty_message :
  hash_util.EncodeToString (hash_util.Sum256 [])
  = "e3b0c44298fc1c149afbf4c8996fb92427ae41e4649b934ca495991b7852b855".
Proof. vm_compute. reflexivity. Qed.

Example sha256_two_blocks :
  hash_util.Hash256String "abcdbcdecdefdefgefghfghighijhijkijkljklmklmnlmnomnopnopq"
  = Ok "248d6a61d20638b8e5c026930c3e6039a33ce45964ff2167f6ecedd419db06c1".
Proof. vm_compute. reflexivity. Qed.

Example json_object :
  json.Unmarshal ("{" ++ json.quoted "id" ++ ": " ++ json.quoted "147" ++ ", "
                  ++ json.quoted "tags" ++ ": [true, null, -1.5e3]}")
  = Ok (json.Object [("id", json.Str "147");
                     ("tags", json.Array [json.Bool true; json.Null;
                                          json.Number "-1.5e3"])]).
Proof. vm_compute. reflexivity. Qed.

Example json_rejects :
  List.map (fun s => is_Ok (json.Unmarshal s)) ["{"; "{} x"; "012"; ""; "[1,]"; "nul"]
  = [false; false; false; false; false; false].
Proof. vm_compute. reflexivity. Qed.

(** Numbers are accepted up to the largest [float64] and half a unit in
    its last place, and refused from there on. *)
Example json_number_range :
  List.map (fun s => is_Ok (json.Unmarshal s))
    ["1.7976931348623157e308"; "1.7976931348623158e308"; "1.7976931348623159e308";
     "1e400"; "-1e400"; "[1e400]"; "1e-400"; "0e999"]
  = [true; true; false; false; false; false; true; true].
Proof. vm_compute. reflexivity. Qed.

(** Arrays nest 10000 deep and no deeper. *)
Example json_nesting_limit :
  is_Ok (json.Unmarshal (sample.nested (Z.to_nat 10000))) = true
  /\ is_Ok (json.Unmarshal (sample.nested (Z.to_nat 10001))) = false.
Proof. vm_compute. split; reflexivity. Qed.

Example json_accepts :
  List.map (fun s => is_Ok (json.Unmarshal s)) ["{}"; " [ ] "; "0"; "-0.5E+2"; "null"]
  = [true; true; true; true; true].
Proof. vm_compute. reflexivity. Qed.

Example atoi_cases :
  List.map strconv.Atoi ["24"; "-5"; "+7"; "007"]
  = [Ok 24; Ok (-5); Ok 7; Ok 7]
  /\ List.map (fun s => is_Ok (strconv.Atoi s))
       [""; "-"; "1h"; "9223372036854775808"; "9223372036854775807"]
     = [false; false; false; false; true].
Proof. vm_compute. split; reflexivity. Qed.

Example uuid4_cases :
  List.map entity.is_uuid4
    ["a1b9d37e-2e7d-42b2-9d3e-7b492162905d";
     "a1b9d37e-2e7d-12b2-9d3e-7b492162905d";
     "A1B9D37E-2E7D-42B2-9D3E-7B492162905D"; "K1"]
  = [true; false; false; false].
Proof. vm_compute. reflexivity. Qed.

(** Scenario A: the first POST under K1 creates the entity and the record,
    in the table and in the cache. *)
Example scenario_A_first_request_is_recorded :
  httputil.Status
    (fst (sample.route (sample.incoming "POST" sample.K1 sample.body1)
            (sample.deployed (sample.redis true ∅) (sample.database [])))) = 201
  /\ List.map entity.IdempotencyCacheKey (transactions (Postgres sample.after_A))
     = [sample.K1]
  /\ List.map (fun r => (entity.Key r, entity.BodyHash r))
       (idempotency_cache (Postgres sample.after_A))
     = [(sample.K1, sample.hash1)]
  /\ List.map fst (map_to_list (keyspace (Redis sample.after_A)))
     = ["idempotency_cache:" ++ sample.K1].
Proof. vm_compute. repeat split. Qed.

(** Scenario B: the same key with another body is a conflict and changes
    nothing. *)
Example scenario_B_other_body_conflicts :
  httputil.Status
    (fst (sample.route (sample.incoming "POST" sample.K1 sample.body2)
            sample.after_A)) = 409
  /\ snd (sample.route (sample.incoming "POST" sample.K1 sample.body2) sample.after_A)
     = sample.after_A.
Proof. vm_compute. repeat split. Qed.

(** Scenario C: the same key with the same body is replayed from the cache
    and changes nothing. *)
Example scenario_C_same_body_is_replayed :
  httputil.Status
    (fst (sample.route (sample.incoming "POST" sample.K1 sample.body1)
            sample.after_A)) = 200
  /\ httputil.Message
       (fst (sample.route (sample.incoming "POST" sample.K1 sample.body1)
               sample.after_A)) = "Request already processed"
  /\ snd (sample.route (sample.incoming "POST" sample.K1 sample.body1) sample.after_A)
     = sample.after_A.
Proof. vm_compute. repeat split. Qed.

(** A record another writer put into the cache under K1, with the hash of
    the body and a payload that is not JSON: the guard in front of the
    replay answers 500, and the handler is not reached. *)
Example scenario_foreign_payload_is_refused :
  redis_util.GetJSON (sample.cached_world "{") ("idempotency_cache:" ++ sample.K1)
  = (Some (sample.record "{"), None)
  /\ idempotency.Enforce (sample.cached_world "{")
       (sample.request "POST" sample.K1 sample.body1)
     = gin.Abort (httputil.InternalServerError "Internal Server Error"
                    "Failed to unmarshal cached response payload")
  /\ idempotency.Enforce (sample.cached_world "1e400")
       (sample.request "POST" sample.K1 sample.body1)
     = gin.Abort (httputil.InternalServerError "Internal Server Error"
                    "Failed to unmarshal cached response payload").
Proof. vm_compute. repeat split. Qed.

(** Scenario D: an unknown consumer gets 404 and no record. *)
Example scenario_D_unknown_consumer :
  httputil.Status
    (fst (sample.route (sample.incoming "POST" sample.K1 sample.body1)
            (sample.deployed (sample.redis true ∅)
               {| postgres_handle := true; postgres_up := true; consumers := [];
                  transactions := []; idempotency_cache := [] |}))) = 404
  /\ idempotency_cache
       (Postgres
          (snd (sample.route (sample.incoming "POST" sample.K1 sample.body1)
                  (sample.deployed (sample.redis true ∅)
                     {| postgres_handle := true; postgres_up := true;
                        consumers := []; transactions := [];
                        idempotency_cache := [] |})))) = [].
Proof. vm_compute. repeat split. Qed.

(** Scenario E: a POST without the key header gets 400 and no record. *)
Example scenario_E_missing_key :
  httputil.Status
    (fst (sample.route (sample.incoming "POST" "" sample.body1)
            (sample.deployed (sample.redis true ∅) (sample.database [])))) = 400
  /\ snd (sample.route (sample.incoming "POST" "" sample.body1)
            (sample.deployed (sample.redis true ∅) (sample.database [])))
     = sample.deployed (sample.redis true ∅) (sample.database []).
Proof. vm_compute. repeat split. Qed.
